(** * statistics-service: a shallow embedding of the statistics pipeline

    The development follows the TypeScript sources:
    - [src/services/botDetection.ts]: modules [BotDetection] (the pure
      detector) and [BotDetectionService] ([runBotDetection])
    - [src/platforms/index.ts]: module [Platforms]
    - [src/services/statsCollector.ts]: module [StatsCollector]
    - [src/services/cacheService.ts] and [src/events/handlers.ts]:
      modules [CacheService] and [EventHandlers]
    - [src/services/rankingsService.ts]: module [RankingsService]
    - [getCampaignFromCache] of [src/services/cacheService.ts]: module
      [CampaignLookup]
    - the clip handlers of [src/events/handlers.ts]: module [ClipHandlers]
    - the hourly job of [src/jobs/scheduler.ts]: module [Scheduler]
    - [src/routes/stats.ts]: module [StatsRoutes]

    JavaScript numbers are IEEE-754 binary64 values; they are embedded as
    Rocq's primitive [float], whose operations are the same binary64
    operations, so thresholds, [Infinity], [NaN] and rounding behave as in
    the running service.  An [async] function is embedded as a function
    from the [World] before the call to the way its promise settles and
    the [World] after it.  The [World] holds the stores the service writes
    (Redis, the campaign cache, the ranking table), the events it
    published, a clock, and the journal of every external interaction it
    issued.  What the service cannot decide (the answers of platforms and
    peers, whether a store or the broker accepts a request) is an [Env] of
    oracles.  One call runs at a time.

    The embedding of the sources comes first, module by module, then the
    scenarios, then the properties. *)

From Stdlib Require Import Floats ZArith QArith Lqa Uint63 Permutation Sorted.
From stdpp Require Import base strings list gmap.

Set Warnings "-inexact-float".

(* ===================================================================== *)
(** * JavaScript numbers *)
(* ===================================================================== *)

Module Js.

(** [array.length] used as a number. *)
Definition of_nat (n : nat) : float :=
  PrimFloat.of_uint63 (Uint63.of_Z (Z.of_nat n)).

(** [a > b] *)
Definition gt (a b : float) : bool := PrimFloat.ltb b a.

(** [a < b] *)
Definition lt (a b : float) : bool := PrimFloat.ltb a b.

(** [a === b] on numbers: [NaN] differs from itself, [+0 === -0]. *)
Definition strict_eq (a b : float) : bool := PrimFloat.eqb a b.

(** The global [isFinite]. *)
Definition isFinite (x : float) : bool := PrimFloat.is_finite x.

(** Truthiness of a number: everything but [0], [-0] and [NaN]. *)
Definition truthy (x : float) : bool :=
  negb (PrimFloat.is_nan x || PrimFloat.is_zero x).

(** [x || 0] where [x] may be [undefined]. *)
Definition or_zero (x : option float) : float :=
  match x with
  | Some v => if truthy v then v else 0%float
  | None => 0%float
  end.

Definition is_pos_zero (x : float) : bool :=
  match PrimFloat.classify x with PZero => true | _ => false end.

Definition is_neg_zero (x : float) : bool :=
  match PrimFloat.classify x with NZero => true | _ => false end.

(** One step of [Math.max]: [NaN] is contagious and [+0] is larger
    than [-0]. *)
Definition max_step (highest x : float) : float :=
  if PrimFloat.is_nan highest || PrimFloat.is_nan x then PrimFloat.nan
  else if is_pos_zero x && is_neg_zero highest then x
  else if PrimFloat.ltb highest x then x
  else highest.

(** [Math.max(...values)]; [-Infinity] on no argument. *)
Definition Math_max (values : list float) : float :=
  fold_left max_step values PrimFloat.neg_infinity.

(** One step of [Math.min]. *)
Definition min_step (lowest x : float) : float :=
  if PrimFloat.is_nan lowest || PrimFloat.is_nan x then PrimFloat.nan
  else if is_neg_zero x && is_pos_zero lowest then x
  else if PrimFloat.ltb x lowest then x
  else lowest.

(** [Math.min(a, b)] *)
Definition Math_min (a b : float) : float :=
  min_step (min_step PrimFloat.infinity a) b.

(** [values.reduce((a, b) => a + b, 0)] *)
Definition sum (values : list float) : float :=
  fold_left PrimFloat.add values 0%float.

(** Differences of neighbours: [xs[i] - xs[i + 1]] for
    [i = 0 .. xs.length - 2]. *)
Fixpoint deltas (xs : list float) : list float :=
  match xs with
  | a :: (b :: _) as rest => PrimFloat.sub a b :: deltas rest
  | _ => []
  end.

(** How a call of a synchronous function ends: it returns a value or
    throws an error (kept by its message). *)
Inductive Completion (A : Type) :=
| Returned (value : A)
| Thrown (error : string).
Arguments Returned {A} value.
Arguments Thrown {A} error.

End Js.

(* ===================================================================== *)
(** * Bot detection: types, thresholds and detection rules
    ([src/services/botDetection.ts]) *)
(* ===================================================================== *)

Module BotDetection.

Import Js.
Local Open Scope float_scope.

Inductive FlagType :=
| VIEWS_SPIKE | LIKES_SPIKE | COMMENTS_SPIKE | ENGAGEMENT_RATIO
| SUSPICIOUS_PATTERN | VELOCITY_ANOMALY | TIME_PATTERN | RATIO_ANOMALY
| ZERO_VARIANCE | SUDDEN_STOP.

Inductive Severity := LOW | MEDIUM | HIGH.

(** A flag's [description] is a template string filled with numbers
    through [toFixed] and [toLocaleString].  The embedding keeps the
    template and the numbers that are formatted into it. *)
Inductive Description :=
| ViewsIncreased (growth previous latest : float)
| LikesIncreased (growth previous latest : float)
| CommentsIncreased (growth previous latest : float)
| AbnormallyHighEngagementRatio (percent interactions views : float)
| SuspiciousEngagementRatio (percent : float)
| AbnormalAcceleration (maxAcceleration avgAcceleration : float)
| SuspiciousTimePattern (percent : float) (suspiciousHour : option (option nat))
| AbnormallyHighLikesRatio (percent : float)
| AbnormallyHighCommentsRatio (percent : float)
| SuspiciouslyConstantGrowth (mean stdDev cvPercent : float)
| AbruptStop (dropPercent previousAvgGrowth recentAvgGrowth : float).

Record BotFlag := {
  type : FlagType;
  severity : Severity;
  description : Description;
  confidence : float;
}.

Record BotDetectionResult := {
  hasAnomalies : bool;
  flags : list BotFlag;
  confidenceScore : float;
}.

Record StatsHistoryEntry := {
  views : float;
  likes : float;
  comments : float;
  shares : float;
  recordedAt : string;
}.

Record Tier := { high : float; medium : float }.

Record Thresholds := {
  viewsSpike : Tier;
  likesSpike : Tier;
  commentsSpike : Tier;
  engagementRatio : Tier;
  minViews : float;
}.

Definition TIKTOK : Thresholds := {|
  viewsSpike := {| high := 800; medium := 300 |};
  likesSpike := {| high := 400; medium := 200 |};
  commentsSpike := {| high := 500; medium := 250 |};
  engagementRatio := {| high := 0.4; medium := 0.25 |};
  minViews := 500;
|}.

Definition INSTAGRAM : Thresholds := {|
  viewsSpike := {| high := 600; medium := 250 |};
  likesSpike := {| high := 350; medium := 180 |};
  commentsSpike := {| high := 450; medium := 220 |};
  engagementRatio := {| high := 0.35; medium := 0.2 |};
  minViews := 300;
|}.

Definition YOUTUBE : Thresholds := {|
  viewsSpike := {| high := 700; medium := 280 |};
  likesSpike := {| high := 380; medium := 190 |};
  commentsSpike := {| high := 480; medium := 240 |};
  engagementRatio := {| high := 0.38; medium := 0.22 |};
  minViews := 400;
|}.

Definition TWITTER : Thresholds := {|
  viewsSpike := {| high := 700; medium := 280 |};
  likesSpike := {| high := 380; medium := 190 |};
  commentsSpike := {| high := 480; medium := 240 |};
  engagementRatio := {| high := 0.38; medium := 0.22 |};
  minViews := 400;
|}.

Definition PLATFORM_THRESHOLDS : gmap string Thresholds :=
  {[ "TIKTOK" := TIKTOK; "INSTAGRAM" := INSTAGRAM;
     "YOUTUBE" := YOUTUBE; "TWITTER" := TWITTER ]}.

(** [PLATFORM_THRESHOLDS] is an object literal, so a property that is not
    one of its four own keys is looked up in [Object.prototype].  These
    are the property names of [Object.prototype]; the value of each is a
    function or, for [__proto__], an object: truthy, and without a
    property [viewsSpike]. *)
Definition Object_prototype_keys : list string :=
  [ "constructor"; "__defineGetter__"; "__defineSetter__"; "hasOwnProperty";
    "__lookupGetter__"; "__lookupSetter__"; "isPrototypeOf";
    "propertyIsEnumerable"; "toString"; "valueOf"; "__proto__";
    "toLocaleString" ].

Definition inheritedKey (platform : string) : bool :=
  bool_decide (platform ∈ Object_prototype_keys).

(** The value of [thresholds]: the thresholds of a platform, or a member
    of [Object.prototype]. *)
Inductive ThresholdsValue :=
| ThresholdsOf (thresholds : Thresholds)
| PrototypeMember (key : string).

(** [PLATFORM_THRESHOLDS[platform as keyof typeof PLATFORM_THRESHOLDS] ||
    PLATFORM_THRESHOLDS.YOUTUBE]: an own key gives its thresholds, an
    inherited key the (truthy) member of the prototype, and only a string
    that is neither gives [undefined] and so falls back to YOUTUBE. *)
Definition thresholdsFor (platform : string) : ThresholdsValue :=
  match PLATFORM_THRESHOLDS !! platform with
  | Some thresholds => ThresholdsOf thresholds
  | None =>
      if inheritedKey platform then PrototypeMember platform
      else ThresholdsOf YOUTUBE
  end.

(** What reading [thresholds.viewsSpike.high] throws when [thresholds]
    has no property [viewsSpike]. *)
Definition TYPE_ERROR : string :=
  "TypeError: Cannot read properties of undefined (reading 'high')".

(** ** Helper functions *)

Definition calculateGrowthRate (previous current : float) : float :=
  if strict_eq previous 0 then
    (if gt current 0 then PrimFloat.infinity else 0)
  else ((current - previous) / previous) * 100.

Definition calculateZScore (value mean stdDev : float) : float :=
  if strict_eq stdDev 0 then 0 else (value - mean) / stdDev.

(** [Math.pow(x, 2)] *)
Definition Math_pow2 (x : float) : float := x * x.

(** ** Detection algorithms *)

Definition detectVelocityAnomaly (history : list StatsHistoryEntry)
  : option BotFlag :=
  if (length history <? 4)%nat then None
  else
    let velocities := deltas (map views history) in
    let accelerations := deltas velocities in
    let avgAcceleration := sum accelerations / of_nat (length accelerations) in
    let maxAcceleration := Math_max (map PrimFloat.abs accelerations) in
    if gt maxAcceleration (avgAcceleration * 5) && gt maxAcceleration 1000
    then Some {| type := VELOCITY_ANOMALY; severity := HIGH;
                 description := AbnormalAcceleration maxAcceleration avgAcceleration;
                 confidence := 85 |}
    else None.

(** The object [hourlyGrowth], keyed by [getHours()]: an hour, or [NaN]
    ([None]) for an invalid date.  Properties are kept in the order
    [Object.keys] and [Object.values] enumerate them: integer keys in
    ascending order, then the key ["NaN"]. *)
Definition HourKey := option nat.
Definition HourlyGrowth := list (HourKey * float).

Definition key_eqb (a b : HourKey) : bool :=
  match a, b with
  | Some x, Some y => (x =? y)%nat
  | None, None => true
  | _, _ => false
  end.

Definition key_before (a b : HourKey) : bool :=
  match a, b with
  | Some x, Some y => (x <? y)%nat
  | Some _, None => true
  | None, _ => false
  end.

Fixpoint obj_get (o : HourlyGrowth) (k : HourKey) : option float :=
  match o with
  | [] => None
  | (k', v) :: rest => if key_eqb k k' then Some v else obj_get rest k
  end.

Fixpoint obj_set (o : HourlyGrowth) (k : HourKey) (v : float) : HourlyGrowth :=
  match o with
  | [] => [(k, v)]
  | (k', v') :: rest =>
      if key_eqb k k' then (k, v) :: rest
      else if key_before k k' then (k, v) :: o
      else (k', v') :: obj_set rest k v
  end.

Section TimePattern.

(** [new Date(recordedAt).getHours()]: the local hour of the
    timestamp, [None] when the string is no date. *)
Variable getHours : string -> HourKey.

(** The loop [for (i = 0; i < history.length - 1; i++)] that fills
    [hourlyGrowth]. *)
Fixpoint hourlyGrowthLoop (history : list StatsHistoryEntry)
    (hourlyGrowth : HourlyGrowth) : HourlyGrowth :=
  match history with
  | h :: (h' :: _) as rest =>
      let hour := getHours (recordedAt h) in
      let growth := views h - views h' in
      hourlyGrowthLoop rest
        (obj_set hourlyGrowth hour (or_zero (obj_get hourlyGrowth hour) + growth))
  | _ => hourlyGrowth
  end.

Definition detectTimePattern (history : list StatsHistoryEntry)
  : option BotFlag :=
  if (length history <? 24)%nat then None
  else
    let hourlyGrowth := hourlyGrowthLoop history [] in
    let growthValues := map snd hourlyGrowth in
    let maxGrowth := Math_max growthValues in
    let avgGrowth := sum growthValues / of_nat (length growthValues) in
    if gt maxGrowth (avgGrowth * 8) && gt maxGrowth 5000 then
      let suspiciousHour :=
        fst <$> List.find (fun kv => strict_eq (snd kv) maxGrowth) hourlyGrowth in
      Some {| type := TIME_PATTERN; severity := MEDIUM;
              description :=
                SuspiciousTimePattern ((maxGrowth / avgGrowth) * 100) suspiciousHour;
              confidence := 70 |}
    else None.

End TimePattern.

Definition detectRatioAnomaly (latest : StatsHistoryEntry) (platform : string)
  : option BotFlag :=
  if lt (views latest) 100 then None
  else
    let likesRatio := likes latest / views latest in
    let commentsRatio := comments latest / views latest in
    if gt likesRatio 0.15 && gt (views latest) 1000 then
      Some {| type := RATIO_ANOMALY; severity := HIGH;
              description := AbnormallyHighLikesRatio (likesRatio * 100);
              confidence := 90 |}
    else if gt commentsRatio 0.05 && gt (views latest) 1000 then
      Some {| type := RATIO_ANOMALY; severity := MEDIUM;
              description := AbnormallyHighCommentsRatio (commentsRatio * 100);
              confidence := 75 |}
    else None.

(** The loop of [detectZeroVariance]: the finite growth rates
    [calculateGrowthRate(history[i + 1].views, history[i].views)]. *)
Fixpoint finiteGrowthRates (history : list StatsHistoryEntry) : list float :=
  match history with
  | h :: (h' :: _) as rest =>
      let rate := calculateGrowthRate (views h') (views h) in
      (if isFinite rate then [rate] else []) ++ finiteGrowthRates rest
  | _ => []
  end.

Definition detectZeroVariance (history : list StatsHistoryEntry)
  : option BotFlag :=
  if (length history <? 6)%nat then None
  else
    let growthRates := finiteGrowthRates history in
    if (length growthRates <? 5)%nat then None
    else
      let mean := sum growthRates / of_nat (length growthRates) in
      let variance :=
        fold_left (fun sum rate => sum + Math_pow2 (rate - mean)) growthRates 0
        / of_nat (length growthRates) in
      let stdDev := PrimFloat.sqrt variance in
      let cv := stdDev / PrimFloat.abs mean in
      if lt cv 0.1 && gt mean 20 then
        Some {| type := ZERO_VARIANCE; severity := HIGH;
                description := SuspiciouslyConstantGrowth mean stdDev (cv * 100);
                confidence := 95 |}
      else None.

(** [window.reduce((sum, h, i) => i === window.length - 1 ? sum :
    sum + (h.views - window[i + 1].views), 0) / 5] *)
Definition windowAvgGrowth (window : list StatsHistoryEntry) : float :=
  sum (deltas (map views window)) / 5.

Definition detectSuddenStop (history : list StatsHistoryEntry)
  : option BotFlag :=
  if (length history <? 12)%nat then None
  else
    let recent6 := take 6 history in
    let previous6 := take 6 (drop 6 history) in
    let recentAvgGrowth := windowAvgGrowth recent6 in
    let previousAvgGrowth := windowAvgGrowth previous6 in
    if gt previousAvgGrowth 500 && lt recentAvgGrowth (previousAvgGrowth * 0.1)
    then
      Some {| type := SUDDEN_STOP; severity := MEDIUM;
              description :=
                AbruptStop ((1 - recentAvgGrowth / previousAvgGrowth) * 100)
                           previousAvgGrowth recentAvgGrowth;
              confidence := 70 |}
    else None.

(** ** Main detection function *)

(** [flags.push(flag)] *)
Definition push (flags : list BotFlag) (flag : BotFlag) : list BotFlag :=
  flags ++ [flag].

(** [if (flag) flags.push(flag)] *)
Definition pushIfFlag (flags : list BotFlag) (flag : option BotFlag)
  : list BotFlag :=
  match flag with
  | Some f => push flags f
  | None => flags
  end.

(** 1. Views Spike Detection *)
Definition viewsSpikeRule (thresholds : Thresholds)
    (latest previous : StatsHistoryEntry) (flags : list BotFlag)
  : list BotFlag :=
  let viewsGrowth := calculateGrowthRate (views previous) (views latest) in
  let viewsDelta := views latest - views previous in
  if gt viewsGrowth (high (viewsSpike thresholds))
     && gt viewsDelta (minViews thresholds * 2)
  then push flags {| type := VIEWS_SPIKE; severity := HIGH;
                     description :=
                       ViewsIncreased viewsGrowth (views previous) (views latest);
                     confidence := 90 |}
  else if gt viewsGrowth (medium (viewsSpike thresholds))
          && gt viewsDelta (minViews thresholds)
  then push flags {| type := VIEWS_SPIKE; severity := MEDIUM;
                     description :=
                       ViewsIncreased viewsGrowth (views previous) (views latest);
                     confidence := 70 |}
  else flags.

(** 2. Likes Spike *)
Definition likesSpikeRule (thresholds : Thresholds)
    (latest previous : StatsHistoryEntry) (flags : list BotFlag)
  : list BotFlag :=
  let likesGrowth := calculateGrowthRate (likes previous) (likes latest) in
  let likesDelta := likes latest - likes previous in
  if gt likesGrowth (high (likesSpike thresholds)) && gt likesDelta 100
  then push flags {| type := LIKES_SPIKE; severity := HIGH;
                     description :=
                       LikesIncreased likesGrowth (likes previous) (likes latest);
                     confidence := 85 |}
  else if gt likesGrowth (medium (likesSpike thresholds)) && gt likesDelta 50
  then push flags {| type := LIKES_SPIKE; severity := MEDIUM;
                     description :=
                       LikesIncreased likesGrowth (likes previous) (likes latest);
                     confidence := 65 |}
  else flags.

(** 3. Comments Spike *)
Definition commentsSpikeRule (thresholds : Thresholds)
    (latest previous : StatsHistoryEntry) (flags : list BotFlag)
  : list BotFlag :=
  let commentsGrowth :=
    calculateGrowthRate (comments previous) (comments latest) in
  let commentsDelta := comments latest - comments previous in
  if gt commentsGrowth (high (commentsSpike thresholds)) && gt commentsDelta 50
  then push flags {| type := COMMENTS_SPIKE; severity := HIGH;
                     description :=
                       CommentsIncreased commentsGrowth (comments previous)
                                         (comments latest);
                     confidence := 88 |}
  else flags.

(** 4. Engagement Ratio *)
Definition engagementRatioRule (thresholds : Thresholds)
    (latest : StatsHistoryEntry) (flags : list BotFlag) : list BotFlag :=
  let ratio :=
    if gt (views latest) 0
    then (likes latest + comments latest) / views latest
    else 0 in
  if gt ratio (high (engagementRatio thresholds))
     && gt (views latest) (minViews thresholds)
  then push flags {| type := ENGAGEMENT_RATIO; severity := HIGH;
                     description :=
                       AbnormallyHighEngagementRatio (ratio * 100)
                         (likes latest + comments latest) (views latest);
                     confidence := 92 |}
  else if gt ratio (medium (engagementRatio thresholds))
          && gt (views latest) (minViews thresholds)
  then push flags {| type := ENGAGEMENT_RATIO; severity := MEDIUM;
                     description := SuspiciousEngagementRatio (ratio * 100);
                     confidence := 75 |}
  else flags.

(** 5. Advanced Pattern Detection, the block under
    [history.length >= 5] *)
Definition advancedPatternRules (history : list StatsHistoryEntry)
    (latest : StatsHistoryEntry) (platform : string) (flags : list BotFlag)
  : list BotFlag :=
  if (5 <=? length history)%nat then
    let flags := pushIfFlag flags (detectZeroVariance history) in
    let flags := pushIfFlag flags (detectVelocityAnomaly history) in
    pushIfFlag flags (detectRatioAnomaly latest platform)
  else flags.

(** The block under [history.length >= 12] *)
Definition suddenStopRule (history : list StatsHistoryEntry)
    (flags : list BotFlag) : list BotFlag :=
  if (12 <=? length history)%nat
  then pushIfFlag flags (detectSuddenStop history)
  else flags.

(** The block under [history.length >= 24] *)
Definition timePatternRule (getHours : string -> HourKey)
    (history : list StatsHistoryEntry) (flags : list BotFlag) : list BotFlag :=
  if (24 <=? length history)%nat
  then pushIfFlag flags (detectTimePattern getHours history)
  else flags.

(** Calculate overall confidence score *)
Definition overallConfidence (flags : list BotFlag) : float :=
  if (0 <? length flags)%nat then
    Math_min 100
      (fold_left (fun sum flag => sum + confidence flag) flags 0
       / of_nat (length flags))
  else 0.

Definition noAnomalies : BotDetectionResult :=
  {| hasAnomalies := false; flags := []; confidenceScore := 0 |}.

(** [detectAnomalies(history, platform)].  The first argument stands for
    the runtime's [Date] (see [detectTimePattern]).  The first read of
    the thresholds is [thresholds.viewsSpike.high] in the condition of the
    views rule; it is evaluated for every history of two entries or more
    and throws when [thresholds] is a member of [Object.prototype]. *)
Definition detectAnomalies (getHours : string -> HourKey)
    (history : list StatsHistoryEntry) (platform : string)
  : Completion BotDetectionResult :=
  let thresholds := thresholdsFor platform in
  let flags : list BotFlag := [] in
  if (length history <? 2)%nat then Returned noAnomalies
  else
    match history with
    | latest :: previous :: _ =>
        match thresholds with
        | PrototypeMember _ => Thrown TYPE_ERROR
        | ThresholdsOf thresholds =>
            let flags := viewsSpikeRule thresholds latest previous flags in
            let flags := likesSpikeRule thresholds latest previous flags in
            let flags := commentsSpikeRule thresholds latest previous flags in
            let flags := engagementRatioRule thresholds latest flags in
            let flags := advancedPatternRules history latest platform flags in
            let flags := suddenStopRule history flags in
            let flags := timePatternRule getHours history flags in
            Returned {| hasAnomalies := (0 <? length flags)%nat;
                        flags := flags;
                        confidenceScore := overallConfidence flags |}
        end
    | _ => Returned noAnomalies
    end.

End BotDetection.

(* ===================================================================== *)
(** * The service's surroundings: peers, stores, journal *)
(* ===================================================================== *)

Module Runtime.

(** A thrown JavaScript error, by its message. *)
Definition JsError := string.

(** How a promise settles. *)
Inductive Settled (A : Type) :=
| Resolved (value : A)
| Rejected (error : JsError).
Arguments Resolved {A} value.
Arguments Rejected {A} error.

(** [PlatformStats] of [src/platforms/index.ts]. *)
Record PlatformStats := {
  views : float;
  likes : float;
  comments : float;
  shares : float;
  thumbnailUrl : option string;
}.

(** Payload of [StatsEvents.updated]. *)
Record StatsUpdatedPayload := {
  su_clipId : string;
  su_views : float;
  su_likes : float;
  su_comments : float;
  su_shares : float;
  su_engagement : float;
}.

(** Payload of [StatsEvents.botDetected]; [evidence] is the list that is
    joined with ["; "], one [type: description] per significant flag. *)
Record BotDetectedPayload := {
  bd_clipId : string;
  bd_campaignId : string;
  bd_userId : string;
  bd_flagType : BotDetection.FlagType;
  bd_confidence : float;
  bd_evidence : list (BotDetection.FlagType * BotDetection.Description);
}.

Inductive Event :=
| StatsUpdated (payload : StatsUpdatedPayload) (service : string)
| BotDetected (payload : BotDetectedPayload) (service : string).

(** Body of [GET clip-service/clips/:id/stats-history]; every field may be
    missing. *)
Record StatsHistoryResponse := {
  r_history : option (list BotDetection.StatsHistoryEntry);
  r_platform : option string;
  r_campaignId : option string;
  r_userId : option string;
}.

(** A row of [campaign_cache]. *)
Record CampaignCacheRow := {
  cc_id : string;
  cc_title : string;
  cc_status : string;
  cc_syncedAt : N;
}.

(** The [update] argument of [prisma.campaignCache.upsert]: absent fields
    are left as they are. *)
Record CampaignCacheUpdate := {
  cu_title : option string;
  cu_status : option string;
  cu_syncedAt : N;
}.

(** Body of [GET campaign-service/campaigns/:id]. *)
Record Campaign := {
  campaign_title : string;
  campaign_status : string;
}.

(** [ClipData] of [src/services/rankingsService.ts].  The peer sends view
    and like counts and an engagement ratio; the sign of a difference of
    two such doubles is the sign of the exact difference, so counts are
    embedded as integers and the ratio as a rational. *)
Record ClipData := {
  cd_id : string;
  cd_platform : string;
  cd_campaignId : string;
  cd_userId : string;
  cd_views : Z;
  cd_likes : Z;
  cd_engagement : Q;
}.

(** A row of [weekly_clip_ranking], keyed by [(weekStart, submissionId)]. *)
Record WeeklyClipRanking := {
  wr_weekStart : N;
  wr_weekEnd : N;
  wr_submissionId : string;
  wr_platform : string;
  wr_views : Z;
  wr_likes : Z;
  wr_engagement : Q;
  wr_rank : nat;
}.

Inductive LogLevel := LogDebug | LogInfo | LogWarn | LogError.

(** One interaction of the service with the outside, as issued. *)
Inductive Action :=
| Log (level : LogLevel) (message : string) (fields : list string)
| PlatformCall (platform videoId : string)
| ClipServiceGet (path : string)
| CampaignServiceGet (path : string)
| RedisGet (key : string)
| RedisSetex (key : string) (seconds : N) (value : string)
| Publish (event : Event)
| CampaignCacheUpsert (id : string) (update : CampaignCacheUpdate)
    (create : CampaignCacheRow)
| WeeklyClipRankingUpsert (row : WeeklyClipRanking)
| SetTimeout (ms : N)
| Ack.

(** A Redis value with the time (ms) at which it expires.  Times are
    binary numbers: a TTL is 3 600 000 ms. *)
Record RedisEntry := {
  re_value : string;
  re_expiresAt : N;
}.

Record World := {
  redis : gmap string RedisEntry;
  campaignCache : gmap string CampaignCacheRow;
  weeklyClipRanking : gmap (N * string) WeeklyClipRanking;
  outbox : list Event;
  now : N;
  journal : list Action;
}.

(** What the service cannot decide: the answers of the platforms and of
    the peer services, whether Redis, the broker and the database accept a
    request, and the library functions it calls.  An answer may depend on
    everything that happened before (the [World]). *)
Record Env := {
  getYouTubeStats : World -> string -> Settled PlatformStats;
  getTikTokStats : World -> string -> Settled PlatformStats;
  getInstagramStats : World -> string -> Settled PlatformStats;
  getTwitterStats : World -> string -> Settled (option PlatformStats);
  clipStatsHistory : World -> string -> Settled StatsHistoryResponse;
  clipsApprovedForRankings : World -> N -> N -> Settled (option (list ClipData));
  campaignClient : option (World -> string -> Settled Campaign);
  redisUp : World -> bool;
  publisherUp : World -> bool;
  prismaUp : World -> bool;
  JSON_stringify : PlatformStats -> string;
  JSON_parse : string -> Settled (option PlatformStats);
  getHours : string -> BotDetection.HourKey;
  startOfWeek : N -> N;
  endOfWeek : N -> N;
}.

(** An [async] computation. *)
Definition Async (A : Type) : Type := World -> Settled A * World.

Definition async_ret {A} (a : A) : Async A := fun w => (Resolved a, w).

Definition async_bind {A B} (f : A -> Async B) (m : Async A) : Async B :=
  fun w =>
    match m w with
    | (Resolved a, w') => f a w'
    | (Rejected e, w') => (Rejected e, w')
    end.

#[global] Instance Async_ret : MRet Async := @async_ret.
#[global] Instance Async_bind : MBind Async := @async_bind.

(** [throw error] *)
Definition throw {A} (error : JsError) : Async A := fun w => (Rejected error, w).

(** [try { body } catch (error) { handler }] *)
Definition try_catch {A} (body : Async A) (handler : JsError -> Async A)
  : Async A :=
  fun w =>
    match body w with
    | (Resolved a, w') => (Resolved a, w')
    | (Rejected e, w') => handler e w'
    end.

(** Awaiting an already settled value. *)
Definition settle {A} (r : Settled A) : Async A := fun w => (r, w).

Definition record (a : Action) (w : World) : World :=
  {| redis := redis w; campaignCache := campaignCache w;
     weeklyClipRanking := weeklyClipRanking w; outbox := outbox w;
     now := now w; journal := journal w ++ [a] |}.

Definition set_redis (r : gmap string RedisEntry) (w : World) : World :=
  {| redis := r; campaignCache := campaignCache w;
     weeklyClipRanking := weeklyClipRanking w; outbox := outbox w;
     now := now w; journal := journal w |}.

Definition set_campaignCache (c : gmap string CampaignCacheRow) (w : World)
  : World :=
  {| redis := redis w; campaignCache := c;
     weeklyClipRanking := weeklyClipRanking w; outbox := outbox w;
     now := now w; journal := journal w |}.

Definition set_weeklyClipRanking (t : gmap (N * string) WeeklyClipRanking)
    (w : World) : World :=
  {| redis := redis w; campaignCache := campaignCache w;
     weeklyClipRanking := t; outbox := outbox w;
     now := now w; journal := journal w |}.

Definition set_outbox (o : list Event) (w : World) : World :=
  {| redis := redis w; campaignCache := campaignCache w;
     weeklyClipRanking := weeklyClipRanking w; outbox := o;
     now := now w; journal := journal w |}.

Definition set_now (t : N) (w : World) : World :=
  {| redis := redis w; campaignCache := campaignCache w;
     weeklyClipRanking := weeklyClipRanking w; outbox := outbox w;
     now := t; journal := journal w |}.

(** [logger.debug / info / warn / error]; [fields] are the string-valued
    fields of the logged object, an error by its message. *)
Definition log (level : LogLevel) (message : string) (fields : list string)
  : Async unit :=
  fun w => (Resolved tt, record (Log level message fields) w).

(** [new Date()] *)
Definition currentTime : Async N := fun w => (Resolved (now w), w).

(** [await new Promise((resolve) => setTimeout(resolve, ms))] *)
Definition sleep (ms : N) : Async unit :=
  fun w => (Resolved tt, set_now (now w + ms)%N (record (SetTimeout ms) w)).

(** [context.ack()] *)
Definition ack : Async unit := fun w => (Resolved tt, record Ack w).

Section Primitives.

Context (env : Env).

(** A call of one platform adapter. *)
Definition platformCall {A} (platform videoId : string)
    (answer : World -> string -> Settled A) : Async A :=
  fun w => (answer w videoId, record (PlatformCall platform videoId) w).

(** [redis.get(key)] *)
Definition redis_get (key : string) : Async (option string) :=
  fun w =>
    let w' := record (RedisGet key) w in
    if redisUp env w then
      match redis w !! key with
      | Some entry =>
          if (now w <? re_expiresAt entry)%N
          then (Resolved (Some (re_value entry)), w')
          else (Resolved None, w')
      | None => (Resolved None, w')
      end
    else (Rejected "Redis connection error", w').

(** [redis.setex(key, seconds, value)] *)
Definition redis_setex (key : string) (seconds : N) (value : string)
  : Async unit :=
  fun w =>
    let w' := record (RedisSetex key seconds value) w in
    if redisUp env w then
      (Resolved tt,
       set_redis (<[key := {| re_value := value;
                              re_expiresAt := (now w + seconds * 1000)%N |}]> (redis w))
                 w')
    else (Rejected "Redis connection error", w').

(** [publisher.publish(event)] *)
Definition publish (event : Event) : Async unit :=
  fun w =>
    let w' := record (Publish event) w in
    if publisherUp env w
    then (Resolved tt, set_outbox (outbox w ++ [event]) w')
    else (Rejected "publish failed", w').

(** [prisma.campaignCache.upsert({ where: { id }, update, create })] *)
Definition campaignCache_upsert (id : string) (update : CampaignCacheUpdate)
    (create : CampaignCacheRow) : Async unit :=
  fun w =>
    let w' := record (CampaignCacheUpsert id update create) w in
    if prismaUp env w then
      let row :=
        match campaignCache w !! id with
        | Some old =>
            {| cc_id := cc_id old;
               cc_title := default (cc_title old) (cu_title update);
               cc_status := default (cc_status old) (cu_status update);
               cc_syncedAt := cu_syncedAt update |}
        | None => create
        end in
      (Resolved tt, set_campaignCache (<[id := row]> (campaignCache w)) w')
    else (Rejected "database error", w').

(** [prisma.weeklyClipRanking.upsert]: on a hit the row keeps its
    [weekEnd] and [platform] and takes views, likes, engagement and rank;
    on a miss the whole row is inserted. *)
Definition weeklyClipRanking_upsert (row : WeeklyClipRanking) : Async unit :=
  fun w =>
    let w' := record (WeeklyClipRankingUpsert row) w in
    if prismaUp env w then
      let key := (wr_weekStart row, wr_submissionId row) in
      let stored :=
        match weeklyClipRanking w !! key with
        | Some old =>
            {| wr_weekStart := wr_weekStart old; wr_weekEnd := wr_weekEnd old;
               wr_submissionId := wr_submissionId old;
               wr_platform := wr_platform old;
               wr_views := wr_views row; wr_likes := wr_likes row;
               wr_engagement := wr_engagement row; wr_rank := wr_rank row |}
        | None => row
        end in
      (Resolved tt,
       set_weeklyClipRanking (<[key := stored]> (weeklyClipRanking w)) w')
    else (Rejected "database error", w').

End Primitives.

End Runtime.

(* ===================================================================== *)
(** * Platform dispatch ([src/platforms/index.ts]) *)
(* ===================================================================== *)

Module Platforms.

Import Runtime.

Definition zeroStats : PlatformStats :=
  {| views := 0; likes := 0; comments := 0; shares := 0; thumbnailUrl := None |}.

Section WithEnv.

Context (env : Env).

Definition fetchPlatformStats (platform videoId : string) : Async PlatformStats :=
  try_catch
    (if String.eqb platform "YOUTUBE" then
       platformCall "YOUTUBE" videoId (getYouTubeStats env)
     else if String.eqb platform "TIKTOK" then
       platformCall "TIKTOK" videoId (getTikTokStats env)
     else if String.eqb platform "INSTAGRAM" then
       try_catch
         (instagramStats ← platformCall "INSTAGRAM" videoId (getInstagramStats env);
          log LogInfo "Instagram stats fetched successfully" [videoId];;
          mret instagramStats)
         (fun error =>
            log LogError "Instagram stats fetch failed" [videoId; error];;
            mret zeroStats)
     else if String.eqb platform "TWITTER" then
       twitterStats ← platformCall "TWITTER" videoId (getTwitterStats env);
       match twitterStats with
       | Some stats => mret stats
       | None => mret zeroStats
       end
     else throw ("Unsupported platform: " +:+ platform))
    (fun error =>
       log LogError ("Error fetching stats for platform " +:+ platform) [error];;
       throw error).

End WithEnv.

End Platforms.

(* ===================================================================== *)
(** * Stats collection ([src/services/statsCollector.ts]) *)
(* ===================================================================== *)

Module StatsCollector.

Import Runtime Platforms.
Local Open Scope float_scope.

Definition SERVICE_NAME : string := "statistics-service".

Definition CACHE_TTL_SECONDS : N := 3600.

Definition getCacheKey (platform videoId : string) : string :=
  "stats:" +:+ platform +:+ ":" +:+ videoId.

(** Truthiness of a string: every string but the empty one. *)
Definition nonEmpty (s : string) : bool := negb (String.eqb s "").

Record BatchResult := {
  successCount : nat;
  failCount : nat;
}.

Record ClipRef := {
  id : string;
  platform : string;
  videoId : string;
}.

(** The engagement rate published with [stats.updated]. *)
Definition engagementOf (stats : PlatformStats) : float :=
  if Js.gt (views stats) 0
  then (likes stats + comments stats) / views stats
  else 0.

Section WithEnv.

Context (env : Env).

Definition getCachedStats (platform videoId : string)
  : Async (option PlatformStats) :=
  try_catch
    (cached ← redis_get env (getCacheKey platform videoId);
     match cached with
     | Some text =>
         if nonEmpty text then settle (JSON_parse env text) else mret None
     | None => mret None
     end)
    (fun error =>
       log LogError "Error reading stats from cache" [error];;
       mret None).

Definition refreshClipStats (submissionId platform videoId : string)
  : Async PlatformStats :=
  log LogInfo "Refreshing clip stats" [submissionId; platform; videoId];;
  stats ← fetchPlatformStats env platform videoId;
  let cacheKey := getCacheKey platform videoId in
  try_catch
    (redis_setex env cacheKey CACHE_TTL_SECONDS (JSON_stringify env stats))
    (fun error => log LogError "Error caching stats in Redis" [error]);;
  let engagement := engagementOf stats in
  try_catch
    (publish env
       (StatsUpdated
          {| su_clipId := submissionId;
             su_views := views stats;
             su_likes := likes stats;
             su_comments := comments stats;
             su_shares := shares stats;
             su_engagement := engagement |}
          SERVICE_NAME))
    (fun error => log LogError "Error publishing stats.updated event" [error]);;
  log LogInfo "Clip stats refreshed successfully" [submissionId];;
  mret stats.

(** The body of [for (const clip of clips)] with the two counters. *)
Fixpoint batchLoop (clips : list ClipRef) (successCount failCount : nat)
  : Async BatchResult :=
  match clips with
  | [] => mret {| successCount := successCount; failCount := failCount |}
  | clip :: rest =>
      counts ← try_catch
        (refreshClipStats (id clip) (platform clip) (videoId clip);;
         mret (successCount + 1, failCount)%nat)
        (fun error =>
           log LogError "Error refreshing clip stats in batch" [id clip; platform clip];;
           mret (successCount, failCount + 1)%nat);
      sleep 100;;
      batchLoop rest counts.1 counts.2
  end.

Definition batchRefreshStats (clips : list ClipRef) : Async BatchResult :=
  result ← batchLoop clips 0 0;
  log LogInfo "Batch stats refresh completed" [];;
  mret result.

Definition getOrFetchStats (submissionId platform videoId : string)
  : Async PlatformStats :=
  cached ← getCachedStats platform videoId;
  match cached with
  | Some stats =>
      log LogDebug "Returning cached stats" [submissionId];;
      mret stats
  | None => refreshClipStats submissionId platform videoId
  end.

End WithEnv.

End StatsCollector.

(* ===================================================================== *)
(** * Campaign cache ([src/services/cacheService.ts]) *)
(* ===================================================================== *)

Module CacheService.

Import Runtime.

(** The optional argument [data?: { title?: string; status?: string }]. *)
Record SyncData := {
  title : option string;
  status : option string;
}.

(** [s || fallback] for an optional string. *)
Definition orString (s : option string) (fallback : string) : string :=
  match s with
  | Some v => if String.eqb v "" then fallback else v
  | None => fallback
  end.

(** Truthiness of [data && data.title]. *)
Definition truthyTitle (data : option SyncData) : option (SyncData * string) :=
  match data with
  | Some d =>
      match title d with
      | Some t => if String.eqb t "" then None else Some (d, t)
      | None => None
      end
  | None => None
  end.

Section WithEnv.

Context (env : Env).

Definition syncCampaignCache (campaignId : string) (data : option SyncData)
  : Async unit :=
  try_catch
    (match truthyTitle data with
     | Some (d, t) =>
         syncedAt ← currentTime;
         campaignCache_upsert env campaignId
           {| cu_title := title d; cu_status := status d; cu_syncedAt := syncedAt |}
           {| cc_id := campaignId; cc_title := t;
              cc_status := orString (status d) "UNKNOWN";
              cc_syncedAt := syncedAt |}
     | None =>
         match campaignClient env with
         | None =>
             log LogWarn "Campaign service URL not configured, skipping cache sync" []
         | Some client =>
             campaign ← (fun w =>
               (client w campaignId,
                record (CampaignServiceGet ("/campaigns/" +:+ campaignId)) w));
             syncedAt ← currentTime;
             campaignCache_upsert env campaignId
               {| cu_title := Some (campaign_title campaign);
                  cu_status := Some (campaign_status campaign);
                  cu_syncedAt := syncedAt |}
               {| cc_id := campaignId; cc_title := campaign_title campaign;
                  cc_status := campaign_status campaign;
                  cc_syncedAt := syncedAt |}
         end
     end)
    (fun error => log LogError "Failed to sync campaign cache" [campaignId; error]).

End WithEnv.

End CacheService.

(* ===================================================================== *)
(** * Event handlers ([src/events/handlers.ts]) *)
(* ===================================================================== *)

Module EventHandlers.

Import Runtime CacheService.

(** Payload of [campaign.created]. *)
Record CampaignCreated := {
  created_campaignId : string;
  created_title : option string;
}.

(** Payload of [campaign.status_changed]. *)
Record CampaignStatusChanged := {
  campaignId : string;
  newStatus : string;
}.

Section WithEnv.

Context (env : Env).

(** The handler registered for [campaign.created]. *)
Definition onCampaignCreated (payload : CampaignCreated) : Async unit :=
  syncCampaignCache env (created_campaignId payload)
    (Some {| title := created_title payload; status := Some "ACTIVE" |});;
  log LogInfo "Campaign created - cached"
    (created_campaignId payload :: option_list (created_title payload));;
  ack.

(** The handler registered for [campaign.status_changed]. *)
Definition onCampaignStatusChanged (payload : CampaignStatusChanged)
  : Async unit :=
  syncCampaignCache env (campaignId payload)
    (Some {| title := None; status := Some (newStatus payload) |});;
  log LogDebug "Campaign status changed - cache synced"
    [campaignId payload; newStatus payload];;
  ack.

End WithEnv.

End EventHandlers.

(* ===================================================================== *)
(** * Weekly rankings ([src/services/rankingsService.ts]) *)
(* ===================================================================== *)

Module RankingsService.

Import Runtime.

(** The comparator handed to [clips.sort]. *)
Definition compareClips (a b : ClipData) : Q :=
  if negb (cd_views b =? cd_views a)%Z
  then inject_Z (cd_views b - cd_views a)
  else (cd_engagement b - cd_engagement a)%Q.

(** [cmp(a, b) > 0]: [b] is to come before [a]. *)
Definition comesAfter {A} (cmp : A -> A -> Q) (a b : A) : bool :=
  negb (Qle_bool (cmp a b) 0).

(** [Array.prototype.sort(cmp)] is a stable sort.  The embedding is the
    stable insertion sort: an element is put in front of the sorted rest
    and moves right past the elements that are to come before it. *)
Fixpoint insertSorted {A} (cmp : A -> A -> Q) (x : A) (sorted : list A)
  : list A :=
  match sorted with
  | [] => [x]
  | y :: rest =>
      if comesAfter cmp x y then y :: insertSorted cmp x rest
      else x :: sorted
  end.

Definition Array_sort {A} (cmp : A -> A -> Q) (items : list A) : list A :=
  foldr (insertSorted cmp) [] items.

Definition rankingRow (start finish : N) (clip : ClipData) (rank : nat)
  : WeeklyClipRanking :=
  {| wr_weekStart := start; wr_weekEnd := finish;
     wr_submissionId := cd_id clip; wr_platform := cd_platform clip;
     wr_views := cd_views clip; wr_likes := cd_likes clip;
     wr_engagement := cd_engagement clip; wr_rank := rank |}.

Section WithEnv.

Context (env : Env).

(** [for (let i = 0; i < ranked.length; i++)], entered at index [i] with
    the clips [ranked[i ..]] still to be written. *)
Fixpoint upsertRankings (start finish : N) (ranked : list ClipData) (i : nat)
  : Async unit :=
  match ranked with
  | [] => mret tt
  | clip :: rest =>
      let rank := i + 1 in
      weeklyClipRanking_upsert env (rankingRow start finish clip rank);;
      upsertRankings start finish rest (i + 1)
  end.

Definition calculateWeeklyClipRankings (weekStart : option N) : Async unit :=
  today ← currentTime;
  let start := default (startOfWeek env today) weekStart in
  let finish := endOfWeek env start in
  log LogInfo "Calculating weekly clip rankings" [];;
  try_catch
    (response ← (fun w =>
       (clipsApprovedForRankings env w start finish,
        record (ClipServiceGet "/clips/approved-for-rankings") w));
     let clips := default [] response in
     if (length clips =? 0)%nat then
       log LogInfo "No clips found for weekly rankings" []
     else
       let ranked := Array_sort compareClips clips in
       upsertRankings start finish ranked 0;;
       log LogInfo "Weekly clip rankings calculated successfully" [])
    (fun error =>
       log LogError "Error calculating weekly clip rankings" [error];;
       throw error).

End WithEnv.

End RankingsService.

(* ===================================================================== *)
(** * Bot detection for one clip ([runBotDetection] of
      [src/services/botDetection.ts]) *)
(* ===================================================================== *)

Module BotDetectionService.

Import Runtime BotDetection.
Local Open Scope float_scope.

Definition SERVICE_NAME : string := "statistics-service".

(** [f.severity === 'HIGH' || f.severity === 'MEDIUM'] *)
Definition significant (f : BotFlag) : bool :=
  match severity f with
  | HIGH | MEDIUM => true
  | LOW => false
  end.

(** A synchronous call inside an [async] function: what it throws
    rejects the promise, or is caught by the enclosing [try]. *)
Definition call {A} (completion : Js.Completion A) : Async A :=
  match completion with
  | Js.Returned value => mret value
  | Js.Thrown error => throw error
  end.

Section WithEnv.

Context (env : Env).

Definition runBotDetection (clipId : string) : Async BotDetectionResult :=
  try_catch
    (clipData ← (fun w =>
       (clipStatsHistory env w clipId,
        record (ClipServiceGet ("/clips/" +:+ clipId +:+ "/stats-history")) w));
     let history := default [] (r_history clipData) in
     let platform := CacheService.orString (r_platform clipData) "YOUTUBE" in
     let campaignId := CacheService.orString (r_campaignId clipData) "" in
     let userId := CacheService.orString (r_userId clipData) "" in
     result ← call (detectAnomalies (getHours env) history platform);
     (if hasAnomalies result then
        let significantFlags := List.filter significant (flags result) in
        match significantFlags with
        | first :: _ =>
            try_catch
              (publish env
                 (BotDetected
                    {| bd_clipId := clipId;
                       bd_campaignId := campaignId;
                       bd_userId := userId;
                       bd_flagType := type first;
                       bd_confidence := confidenceScore result / 100;
                       bd_evidence :=
                         map (fun f => (type f, description f)) significantFlags |}
                    SERVICE_NAME))
              (fun error => log LogError "Error publishing bot detected event" [error])
        | [] => mret tt
        end
      else mret tt);;
     mret result)
    (fun error =>
       log LogError "Error running bot detection" [clipId; error];;
       mret noAnomalies).

End WithEnv.

End BotDetectionService.

(* ===================================================================== *)
(** * Reading the campaign cache ([getCampaignFromCache] of
      [src/services/cacheService.ts]) *)
(* ===================================================================== *)

Module CampaignLookup.

Import Runtime CacheService.

Definition CACHE_TTL_MS : N := 5 * 60 * 1000.

(** [Date.now() - date.getTime() < CACHE_TTL_MS]; the difference is
    negative for a date in the future. *)
Definition isRecent (date : N) : Async bool :=
  today ← currentTime;
  mret (Z.of_N today - Z.of_N date <? Z.of_N CACHE_TTL_MS)%Z.

Section WithEnv.

Context (env : Env).

(** [prisma.campaignCache.findUnique({ where: { id } })].  Reads of the
    database are not entered in the journal. *)
Definition campaignCache_findUnique (id : string)
  : Async (option CampaignCacheRow) :=
  fun w =>
    if prismaUp env w then (Resolved (campaignCache w !! id), w)
    else (Rejected "database error", w).

Definition getCampaignFromCache (campaignId : string)
  : Async (option CampaignCacheRow) :=
  cached ← campaignCache_findUnique campaignId;
  recent ← match cached with
           | Some row => isRecent (cc_syncedAt row)
           | None => mret false
           end;
  if recent : bool then mret cached
  else
    syncCampaignCache env campaignId None;;
    campaignCache_findUnique campaignId.

End WithEnv.

End CampaignLookup.

(* ===================================================================== *)
(** * The clip service as the handlers and routes ask it *)
(* ===================================================================== *)

Module ClipService.

Import Runtime.

(** The fields of [GET clip-service/clips/:id] that are read;
    [clip_platform] as the template strings that use it print it. *)
Record ClipDetails := {
  clip_platform : string;
  clip_platformVideoId : option string;
}.

(** The answer to [GET /clips/:id]: the body, [None] when it is empty. *)
Definition ClipLookup : Type := World -> string -> Settled (option ClipDetails).

Definition getClip (lookup : ClipLookup) (clipId : string)
  : Async (option ClipDetails) :=
  fun w => (lookup w clipId, record (ClipServiceGet ("/clips/" +:+ clipId)) w).

(** [clip && clip.platformVideoId]: the clip and its video id when both
    are truthy. *)
Definition withVideoId (clip : option ClipDetails)
  : option (ClipDetails * string) :=
  match clip with
  | Some c =>
      match clip_platformVideoId c with
      | Some videoId => if String.eqb videoId "" then None else Some (c, videoId)
      | None => None
      end
  | None => None
  end.

End ClipService.

(* ===================================================================== *)
(** * Clip event handlers ([src/events/handlers.ts]) *)
(* ===================================================================== *)

Module ClipHandlers.

Import Runtime StatsCollector ClipService.


(** Payload of [clip.submitted]. *)
Record ClipSubmitted := {
  submitted_clipId : string;
  submitted_platform : string;
  submitted_linkUrl : string;
}.

Section WithEnv.

Context (env : Env).

(** [clipClient] of [src/lib/serviceClients.ts]: [None] when no clip
    service URL is configured. *)
Context (clipClient : option ClipLookup).


(** The handler registered for [clip.submitted]. *)
Definition onClipSubmitted (payload : ClipSubmitted) : Async unit :=
  log LogInfo "Clip submitted - registered for future stats tracking"
    [submitted_clipId payload; submitted_platform payload;
     submitted_linkUrl payload];;
  ack.

End WithEnv.

End ClipHandlers.

(* ===================================================================== *)
(** * The hourly job ([src/jobs/scheduler.ts]) *)
(* ===================================================================== *)

Module Scheduler.

Import Runtime StatsCollector.

Section WithEnv.

Context (env : Env).

(** The answer to [GET clip-service/clips/needs-refresh]: the field
    [clips] of the body, [None] when it is missing. *)
Context (needsRefresh : World -> Settled (option (list ClipRef))).

(** The callback of [cron.schedule('0 * * * *', ...)]. *)
Definition hourlyStatsRefresh : Async unit :=
  log LogInfo "Running hourly stats refresh..." [];;
  try_catch
    (response ← (fun w =>
       (needsRefresh w, record (ClipServiceGet "/clips/needs-refresh") w));
     let clips := default [] response in
     if (0 <? length clips)%nat then
       batchRefreshStats env clips;;
       log LogInfo "Hourly stats refresh completed" []
     else log LogInfo "No clips need refresh" [])
    (fun error => log LogError "Error in hourly stats refresh" [error]).

End WithEnv.

End Scheduler.

(* ===================================================================== *)
(** * The stats routes ([src/routes/stats.ts]) *)
(* ===================================================================== *)

Module StatsRoutes.

Import Runtime StatsCollector ClipService.

(** What a route hands to [reply.send], or the error it hands to
    [sendError]. *)
Inductive Reply (A : Type) :=
| Send (body : A)
| SendError (error : JsError).
Arguments Send {A} body.
Arguments SendError {A} error.

Record RefreshReply := {
  reply_stats : PlatformStats;
  reply_botDetection : BotDetection.BotDetectionResult;
}.

Section WithEnv.

Context (env : Env).

(** [axios.get(`${config.clipServiceUrl}/clips/${clipId}`)] *)
Context (clips : ClipLookup).

(** [POST /stats/refresh/:clipId]; [requireAuth] is how
    [requireAuth(request)] ends. *)
Definition refreshRoute (requireAuth : Settled unit) (clipId : string)
  : Async (Reply RefreshReply) :=
  try_catch
    (settle requireAuth;;
     if String.eqb clipId "" then throw "clipId is required"
     else
       clip ← getClip clips clipId;
       match withVideoId clip with
       | None => throw "Clip not found or missing video ID"
       | Some (c, videoId) =>
           stats ← refreshClipStats env clipId (clip_platform c) videoId;
           botResult ← BotDetectionService.runBotDetection env clipId;
           mret (Send {| reply_stats := stats; reply_botDetection := botResult |})
       end)
    (fun error => mret (SendError error)).

(** [GET /stats/:clipId] *)
Definition statsRoute (clipId : string) : Async (Reply PlatformStats) :=
  try_catch
    (if String.eqb clipId "" then throw "clipId is required"
     else
       clip ← getClip clips clipId;
       match withVideoId clip with
       | None => throw "Clip not found or missing video ID"
       | Some (c, videoId) =>
           stats ← getOrFetchStats env clipId (clip_platform c) videoId;
           mret (Send stats)
       end)
    (fun error => mret (SendError error)).

(** What reading [clip.id] throws when [clip] is [null]. *)
Definition NULL_CLIP_ERROR : string :=
  "TypeError: Cannot read properties of null (reading 'id')".

(** The loop of [batchRefreshStats] on an array that was not validated.
    The route casts [request.body] and checks [Array.isArray] and the
    length only, so an element may be [null] or [undefined] ([None]); any
    other element is read through its properties [id], [platform] and
    [videoId], as they print.  At a [null] element [clip.id] throws in
    the [try] block and again in the [catch] block, which ends the batch
    with this error. *)
Fixpoint uncheckedBatchLoop (clips : list (option ClipRef))
    (successCount failCount : nat) : Async BatchResult :=
  match clips with
  | [] => mret {| successCount := successCount; failCount := failCount |}
  | None :: _ => throw NULL_CLIP_ERROR
  | Some clip :: rest =>
      counts ← try_catch
        (refreshClipStats env (id clip) (platform clip) (videoId clip);;
         mret (successCount + 1, failCount)%nat)
        (fun error =>
           log LogError "Error refreshing clip stats in batch" [id clip; platform clip];;
           mret (successCount, failCount + 1)%nat);
      sleep 100;;
      uncheckedBatchLoop rest counts.1 counts.2
  end.

(** [batchRefreshStats(body.clips)] *)
Definition uncheckedBatchRefreshStats (clips : list (option ClipRef))
  : Async BatchResult :=
  result ← uncheckedBatchLoop clips 0 0;
  log LogInfo "Batch stats refresh completed" [];;
  mret result.

(** [POST /stats/batch-refresh]; [body_clips] is [request.body.clips]
    when it is an array. *)
Definition batchRefreshRoute (requireStaff : Settled unit)
    (body_clips : option (list (option ClipRef))) : Async (Reply BatchResult) :=
  try_catch
    (settle requireStaff;;
     match body_clips with
     | None => throw "clips array is required"
     | Some batch =>
         if (length batch =? 0)%nat then throw "clips array is required"
         else if (500 <? length batch)%nat then throw "Maximum 500 clips per batch"
         else
           result ← uncheckedBatchRefreshStats batch;
           mret (Send result)
     end)
    (fun error => mret (SendError error)).

End WithEnv.

End StatsRoutes.

(* ===================================================================== *)
(** * Scenarios: concrete surroundings on which the claims are run *)
(* ===================================================================== *)

Module Scenarios.

Import Runtime.

(** ** Stats histories *)

Local Open Scope float_scope.

(** An entry of a stats history. *)
Definition entry (v l c s : float) (at_ : string)
  : BotDetection.StatsHistoryEntry :=
  {| BotDetection.views := v; BotDetection.likes := l;
     BotDetection.comments := c; BotDetection.shares := s;
     BotDetection.recordedAt := at_ |}.

(** The history of the zero-variance scenario: six entries, newest first,
    likes, comments and shares all 0. *)
Definition scenario3 : list BotDetection.StatsHistoryEntry :=
  map (fun v => entry v 0 0 0 "2024-01-01T00:00:00.000Z")
      [2200; 2000; 1818; 1653; 1503; 1367].

(** A history that grows by about 25% per step. *)
Definition steadyQuarterGrowth : list BotDetection.StatsHistoryEntry :=
  map (fun v => entry v 0 0 0 "2024-01-01T00:00:00.000Z")
      [3052; 2441; 1953; 1562; 1250; 1000].

(** The flag of the zero-variance rule on [steadyQuarterGrowth]. *)
Definition steadyQuarterGrowthFlag : BotDetection.BotFlag :=
  {| BotDetection.type := BotDetection.ZERO_VARIANCE;
     BotDetection.severity := BotDetection.HIGH;
     BotDetection.description :=
       BotDetection.SuspiciouslyConstantGrowth
         25.001986907336832 0.027249991531401768 0.10899130390075221;
     BotDetection.confidence := 95 |}.

Local Close Scope float_scope.

(** ** Worlds and surroundings *)

Definition emptyWorld : World :=
  {| redis := ∅; campaignCache := ∅; weeklyClipRanking := ∅; outbox := [];
     now := 0; journal := [] |}.

(** Surroundings in which Redis, the broker and the database are up, the
    platforms are unreachable, and the peers answer as given. *)
Definition surroundings
    (campaigns : option (World -> string -> Settled Campaign))
    (approved : Settled (option (list ClipData)))
    (parse : string -> Settled (option PlatformStats)) : Env :=
  {| getYouTubeStats := fun _ _ => Rejected "YouTube API error: 503";
     getTikTokStats := fun _ _ => Rejected "TikTok stats failed: timeout";
     getInstagramStats := fun _ _ => Rejected "Boostfluence API Error";
     getTwitterStats := fun _ _ => Resolved None;
     clipStatsHistory := fun _ _ => Rejected "connect ECONNREFUSED";
     clipsApprovedForRankings := fun _ _ _ => approved;
     campaignClient := campaigns;
     redisUp := fun _ => true;
     publisherUp := fun _ => true;
     prismaUp := fun _ => true;
     JSON_stringify := fun _ => "{}";
     JSON_parse := parse;
     getHours := fun _ => None;
     startOfWeek := fun t => t;
     endOfWeek := fun t => (t + 604799999)%N |}.

(** ** A warm cache (scenario 1 of the specification) *)

Definition quote : string := String (Ascii.ascii_of_nat 34) EmptyString.

Definition jsonNumber (name value : string) : string :=
  quote +:+ name +:+ quote +:+ ":" +:+ value.

Definition cachedText : string :=
  "{" +:+ jsonNumber "views" "100" +:+ "," +:+ jsonNumber "likes" "10" +:+ ","
  +:+ jsonNumber "comments" "2" +:+ "," +:+ jsonNumber "shares" "0" +:+ "}".

Definition cachedStats : PlatformStats :=
  {| views := 100; likes := 10; comments := 2; shares := 0;
     thumbnailUrl := None |}.

Definition parseCached (text : string) : Settled (option PlatformStats) :=
  if String.eqb text cachedText then Resolved (Some cachedStats)
  else Rejected "SyntaxError: Unexpected token".

Definition cachedEntry : RedisEntry :=
  {| re_value := cachedText; re_expiresAt := 3600000 |}.

Definition warmWorld : World :=
  {| redis := {[ "stats:YOUTUBE:abc" := cachedEntry ]};
     campaignCache := ∅; weeklyClipRanking := ∅; outbox := [];
     now := 1000; journal := [] |}.

Definition warmEnv : Env :=
  surroundings None (Rejected "connect ECONNREFUSED") parseCached.

(** ** A platform that answers (scenarios 2 and 5 of the specification) *)

Definition freshStats : PlatformStats :=
  {| views := 1000; likes := 80; comments := 20; shares := 5;
     thumbnailUrl := None |}.

(** TikTok answers with [freshStats], except for the video ["broken"]. *)
Definition tiktokEnv : Env :=
  {| getYouTubeStats := fun _ _ => Rejected "YouTube API error: 503";
     getTikTokStats := fun _ videoId =>
       if String.eqb videoId "broken"
       then Rejected "TikTok stats failed: timeout"
       else Resolved freshStats;
     getInstagramStats := fun _ _ => Rejected "Boostfluence API Error";
     getTwitterStats := fun _ _ => Resolved None;
     clipStatsHistory := fun _ _ => Rejected "connect ECONNREFUSED";
     clipsApprovedForRankings := fun _ _ _ => Rejected "connect ECONNREFUSED";
     campaignClient := None;
     redisUp := fun _ => true;
     publisherUp := fun _ => true;
     prismaUp := fun _ => true;
     JSON_stringify := fun _ => "{}";
     JSON_parse := fun _ => Rejected "SyntaxError: Unexpected token";
     getHours := fun _ => None;
     startOfWeek := fun t => t;
     endOfWeek := fun t => (t + 604799999)%N |}.

Definition threeClips : list StatsCollector.ClipRef :=
  [ {| StatsCollector.id := "s1"; StatsCollector.platform := "TIKTOK";
       StatsCollector.videoId := "one" |};
    {| StatsCollector.id := "s2"; StatsCollector.platform := "TIKTOK";
       StatsCollector.videoId := "broken" |};
    {| StatsCollector.id := "s3"; StatsCollector.platform := "TIKTOK";
       StatsCollector.videoId := "three" |} ].

(** ** A status change for a cached campaign *)

Definition springCampaign : CampaignCacheRow :=
  {| cc_id := "c1"; cc_title := "Spring"; cc_status := "ACTIVE";
     cc_syncedAt := 0 |}.

Definition campaignWorld : World :=
  {| redis := ∅; campaignCache := {[ "c1" := springCampaign ]};
     weeklyClipRanking := ∅; outbox := []; now := 5000; journal := [] |}.

(** No campaign-service URL is configured. *)
Definition unconfiguredEnv : Env :=
  surroundings None (Rejected "connect ECONNREFUSED") parseCached.

(** The campaign service still reports the campaign as ACTIVE. *)
Definition laggingEnv : Env :=
  surroundings
    (Some (fun _ _ => Resolved {| campaign_title := "Spring";
                                  campaign_status := "ACTIVE" |}))
    (Rejected "connect ECONNREFUSED") parseCached.

(** ** A ranking run (scenario 6 of the specification, and a leader) *)

Definition clip (name : string) (v : Z) (engagement : Q) : ClipData :=
  {| cd_id := name; cd_platform := "TIKTOK"; cd_campaignId := "c1";
     cd_userId := "u1"; cd_views := v; cd_likes := 0;
     cd_engagement := engagement |}.

Definition approvedClips : list ClipData :=
  [clip "low" 100 (1 # 10); clip "high" 100 (2 # 10); clip "top" 250 0].

Definition rankingEnv : Env :=
  surroundings None (Resolved (Some approvedClips)) parseCached.

(** Surroundings for a round trip through the cache: TikTok answers, and
    the JSON text of the answer parses back to it. *)
Definition roundTripEnv : Env :=
  {| getYouTubeStats := fun _ _ => Rejected "YouTube API error: 503";
     getTikTokStats := fun _ _ => Resolved freshStats;
     getInstagramStats := fun _ _ => Rejected "Boostfluence API Error";
     getTwitterStats := fun _ _ => Resolved None;
     clipStatsHistory := fun _ _ => Rejected "connect ECONNREFUSED";
     clipsApprovedForRankings := fun _ _ _ => Rejected "connect ECONNREFUSED";
     campaignClient := None;
     redisUp := fun _ => true;
     publisherUp := fun _ => true;
     prismaUp := fun _ => true;
     JSON_stringify := fun _ => "{...}";
     JSON_parse := fun text =>
       if String.eqb text "{...}" then Resolved (Some freshStats)
       else Rejected "SyntaxError: Unexpected token";
     getHours := fun _ => None;
     startOfWeek := fun t => t;
     endOfWeek := fun t => (t + 604799999)%N |}.

(** Surroundings in which the database accepts the first write of a run
    and refuses the second. *)
Definition failingDatabaseEnv : Env :=
  {| getYouTubeStats := fun _ _ => Rejected "YouTube API error: 503";
     getTikTokStats := fun _ _ => Rejected "TikTok stats failed: timeout";
     getInstagramStats := fun _ _ => Rejected "Boostfluence API Error";
     getTwitterStats := fun _ _ => Resolved None;
     clipStatsHistory := fun _ _ => Rejected "connect ECONNREFUSED";
     clipsApprovedForRankings := fun _ _ _ => Resolved (Some approvedClips);
     campaignClient := None;
     redisUp := fun _ => true;
     publisherUp := fun _ => true;
     prismaUp := fun w => (length (journal w) <? 3)%nat;
     JSON_stringify := fun _ => "{}";
     JSON_parse := fun _ => Rejected "SyntaxError: Unexpected token";
     getHours := fun _ => None;
     startOfWeek := fun t => t;
     endOfWeek := fun t => (t + 604799999)%N |}.

End Scenarios.

(* ===================================================================== *)
(** * Properties of the detection rules *)
(* ===================================================================== *)

Module BotDetectionFacts.

Import Js BotDetection.
Local Open Scope float_scope.

(** What a claim about a flag looks at: its type, severity, confidence. *)
Definition kindOf (f : BotFlag) : FlagType * Severity * float :=
  (type f, severity f, confidence f).

(** A rule adds nothing, or one flag of one of the [allowed] kinds. *)
Definition atMostOne (allowed : list (FlagType * Severity * float))
    (added : list BotFlag) : Prop :=
  added = [] \/ exists f, added = [f] /\ In (kindOf f) allowed.

(** The arithmetic mean of a list of numbers, as the specification words
    it: their sum over their count. *)
Definition mean (values : list float) : float :=
  sum values / of_nat (length values).

(** [overallConfidence] as a function of the confidences alone. *)
Definition scoreOf (confidences : list float) : float :=
  if (0 <? length confidences)%nat
  then Math_min 100 (sum confidences / of_nat (length confidences))
  else 0.

(** The flags the rules add to an empty list, rule after rule. *)
Definition ruleFlags (getHours : string -> HourKey)
    (history : list StatsHistoryEntry) (latest previous : StatsHistoryEntry)
    (thresholds : Thresholds) (platform : string) : list BotFlag :=
  viewsSpikeRule thresholds latest previous []
  ++ likesSpikeRule thresholds latest previous []
  ++ commentsSpikeRule thresholds latest previous []
  ++ engagementRatioRule thresholds latest []
  ++ advancedPatternRules history latest platform []
  ++ suddenStopRule history []
  ++ timePatternRule getHours history [].

Lemma pushIfFlag_app flags o : pushIfFlag flags o = flags ++ option_list o.
Proof. destruct o; simpl; [reflexivity | by rewrite app_nil_r]. Qed.

Lemma viewsSpikeRule_app thresholds latest previous flags :
  viewsSpikeRule thresholds latest previous flags
  = flags ++ viewsSpikeRule thresholds latest previous [].
Proof.
  unfold viewsSpikeRule, push.
  repeat case_match; simpl; by rewrite ?app_nil_r.
Qed.

Lemma likesSpikeRule_app thresholds latest previous flags :
  likesSpikeRule thresholds latest previous flags
  = flags ++ likesSpikeRule thresholds latest previous [].
Proof.
  unfold likesSpikeRule, push.
  repeat case_match; simpl; by rewrite ?app_nil_r.
Qed.

Lemma commentsSpikeRule_app thresholds latest previous flags :
  commentsSpikeRule thresholds latest previous flags
  = flags ++ commentsSpikeRule thresholds latest previous [].
Proof.
  unfold commentsSpikeRule, push.
  repeat case_match; simpl; by rewrite ?app_nil_r.
Qed.

Lemma engagementRatioRule_app thresholds latest flags :
  engagementRatioRule thresholds latest flags
  = flags ++ engagementRatioRule thresholds latest [].
Proof.
  unfold engagementRatioRule, push.
  repeat case_match; simpl; by rewrite ?app_nil_r.
Qed.

Lemma advancedPatternRules_app history latest platform flags :
  advancedPatternRules history latest platform flags
  = flags ++ advancedPatternRules history latest platform [].
Proof.
  unfold advancedPatternRules.
  case_match; [| by rewrite app_nil_r].
  rewrite !pushIfFlag_app. simpl. by rewrite !app_assoc.
Qed.

Lemma suddenStopRule_app history flags :
  suddenStopRule history flags = flags ++ suddenStopRule history [].
Proof.
  unfold suddenStopRule.
  case_match; [| by rewrite app_nil_r].
  by rewrite !pushIfFlag_app.
Qed.

Lemma timePatternRule_app getHours history flags :
  timePatternRule getHours history flags
  = flags ++ timePatternRule getHours history [].
Proof.
  unfold timePatternRule.
  case_match; [| by rewrite app_nil_r].
  by rewrite !pushIfFlag_app.
Qed.

(** The result that is built from the flags of the rules. *)
Definition ruleResult (getHours : string -> HourKey)
    (history : list StatsHistoryEntry) (latest previous : StatsHistoryEntry)
    (thresholds : Thresholds) (platform : string) : BotDetectionResult :=
  let fl := ruleFlags getHours history latest previous thresholds platform in
  {| hasAnomalies := (0 <? length fl)%nat;
     flags := fl;
     confidenceScore := overallConfidence fl |}.

(** With two entries or more, the call throws on a member of the
    prototype, and otherwise returns the result built from [ruleFlags]. *)
Lemma detectAnomalies_rules getHours latest previous rest platform :
  let history := latest :: previous :: rest in
  detectAnomalies getHours history platform
  = match thresholdsFor platform with
    | ThresholdsOf thresholds =>
        Returned (ruleResult getHours history latest previous thresholds platform)
    | PrototypeMember _ => Thrown TYPE_ERROR
    end.
Proof.
  intros history. unfold detectAnomalies.
  change (length history <? 2)%nat with false. cbv iota.
  subst history. cbv beta iota zeta.
  destruct (thresholdsFor platform) as [thresholds | key]; [| reflexivity].
  unfold ruleResult.
  assert (Hfl :
    timePatternRule getHours (latest :: previous :: rest)
      (suddenStopRule (latest :: previous :: rest)
         (advancedPatternRules (latest :: previous :: rest) latest platform
            (engagementRatioRule thresholds latest
               (commentsSpikeRule thresholds latest previous
                  (likesSpikeRule thresholds latest previous
                     (viewsSpikeRule thresholds latest previous []))))))
    = ruleFlags getHours (latest :: previous :: rest) latest previous
        thresholds platform).
  { unfold ruleFlags.
    rewrite timePatternRule_app, suddenStopRule_app, advancedPatternRules_app,
      engagementRatioRule_app, commentsSpikeRule_app, likesSpikeRule_app.
    by rewrite <- !app_assoc. }
  by rewrite Hfl.
Qed.

(** ** The lookup of the thresholds *)

(** No name of [Object.prototype] is a key of the table. *)
Lemma thresholdsFor_spec platform :
  thresholdsFor platform
  = if inheritedKey platform then PrototypeMember platform
    else ThresholdsOf (default YOUTUBE (PLATFORM_THRESHOLDS !! platform)).
Proof.
  unfold thresholdsFor. destruct (inheritedKey platform) eqn:Hkey.
  - apply bool_decide_eq_true in Hkey. unfold Object_prototype_keys in Hkey.
    rewrite !elem_of_cons, elem_of_nil in Hkey.
    repeat (destruct Hkey as [-> | Hkey]; [reflexivity |]). destruct Hkey.
  - by destruct (PLATFORM_THRESHOLDS !! platform).
Qed.

(** When and with what the call ends. *)
Lemma detectAnomalies_spec getHours history platform :
  detectAnomalies getHours history platform
  = match history with
    | latest :: previous :: _ =>
        if inheritedKey platform then Thrown TYPE_ERROR
        else Returned (ruleResult getHours history latest previous
                         (default YOUTUBE (PLATFORM_THRESHOLDS !! platform))
                         platform)
    | _ => Returned noAnomalies
    end.
Proof.
  destruct history as [|latest [|previous rest]]; [reflexivity | reflexivity |].
  rewrite detectAnomalies_rules, thresholdsFor_spec.
  by destruct (inheritedKey platform).
Qed.

(** The call throws only on a name of the prototype, and then only with
    two entries or more. *)
Lemma detectAnomalies_thrown getHours history platform error :
  detectAnomalies getHours history platform = Thrown error ->
  (2 <= length history)%nat /\ inheritedKey platform = true.
Proof.
  rewrite detectAnomalies_spec.
  destruct history as [|latest [|previous rest]]; try discriminate.
  destruct (inheritedKey platform); [| discriminate].
  intros _. split; [simpl; lia | reflexivity].
Qed.

(** ** The kinds of flag each rule can add *)

Lemma atMostOne_option allowed (o : option BotFlag) :
  (forall f, o = Some f -> In (kindOf f) allowed) ->
  atMostOne allowed (option_list o).
Proof.
  intros H. destruct o as [f|]; [right | by left].
  exists f. split; [reflexivity | by apply H].
Qed.

Lemma viewsSpikeRule_kinds thresholds latest previous :
  atMostOne [(VIEWS_SPIKE, HIGH, 90); (VIEWS_SPIKE, MEDIUM, 70)]
    (viewsSpikeRule thresholds latest previous []).
Proof.
  unfold viewsSpikeRule, push, atMostOne.
  repeat case_match; simpl; eauto 6.
Qed.

Lemma likesSpikeRule_kinds thresholds latest previous :
  atMostOne [(LIKES_SPIKE, HIGH, 85); (LIKES_SPIKE, MEDIUM, 65)]
    (likesSpikeRule thresholds latest previous []).
Proof.
  unfold likesSpikeRule, push, atMostOne.
  repeat case_match; simpl; eauto 6.
Qed.

Lemma commentsSpikeRule_kinds thresholds latest previous :
  atMostOne [(COMMENTS_SPIKE, HIGH, 88)]
    (commentsSpikeRule thresholds latest previous []).
Proof.
  unfold commentsSpikeRule, push, atMostOne.
  repeat case_match; simpl; eauto 6.
Qed.

Lemma engagementRatioRule_kinds thresholds latest :
  atMostOne [(ENGAGEMENT_RATIO, HIGH, 92); (ENGAGEMENT_RATIO, MEDIUM, 75)]
    (engagementRatioRule thresholds latest []).
Proof.
  unfold engagementRatioRule, push, atMostOne.
  repeat case_match; simpl; eauto 6.
Qed.

Lemma detectZeroVariance_kind history f :
  detectZeroVariance history = Some f -> kindOf f = (ZERO_VARIANCE, HIGH, 95).
Proof.
  unfold detectZeroVariance. repeat case_match; intros [= <-]; reflexivity.
Qed.

Lemma detectVelocityAnomaly_kind history f :
  detectVelocityAnomaly history = Some f ->
  kindOf f = (VELOCITY_ANOMALY, HIGH, 85).
Proof.
  unfold detectVelocityAnomaly. repeat case_match; intros [= <-]; reflexivity.
Qed.

Lemma detectRatioAnomaly_kind latest platform f :
  detectRatioAnomaly latest platform = Some f ->
  In (kindOf f) [(RATIO_ANOMALY, HIGH, 90); (RATIO_ANOMALY, MEDIUM, 75)].
Proof.
  unfold detectRatioAnomaly.
  repeat case_match; intros [= <-]; simpl; auto.
Qed.

Lemma detectSuddenStop_kind history f :
  detectSuddenStop history = Some f -> kindOf f = (SUDDEN_STOP, MEDIUM, 70).
Proof.
  unfold detectSuddenStop. repeat case_match; intros [= <-]; reflexivity.
Qed.

Lemma detectTimePattern_kind getHours history f :
  detectTimePattern getHours history = Some f ->
  kindOf f = (TIME_PATTERN, MEDIUM, 70).
Proof.
  unfold detectTimePattern. repeat case_match; intros [= <-]; reflexivity.
Qed.

(** The three optional flags of the block under [history.length >= 5]. *)
Lemma advancedPatternRules_kinds history latest platform :
  exists zeroVariance velocity ratio,
    advancedPatternRules history latest platform []
    = zeroVariance ++ velocity ++ ratio
    /\ atMostOne [(ZERO_VARIANCE, HIGH, 95)] zeroVariance
    /\ atMostOne [(VELOCITY_ANOMALY, HIGH, 85)] velocity
    /\ atMostOne [(RATIO_ANOMALY, HIGH, 90); (RATIO_ANOMALY, MEDIUM, 75)] ratio.
Proof.
  unfold advancedPatternRules. case_match.
  - exists (option_list (detectZeroVariance history)),
      (option_list (detectVelocityAnomaly history)),
      (option_list (detectRatioAnomaly latest platform)).
    rewrite !pushIfFlag_app. simpl. rewrite <- app_assoc.
    split; [reflexivity |]. repeat split; apply atMostOne_option; intros f Hf.
    + rewrite (detectZeroVariance_kind _ _ Hf). by left.
    + rewrite (detectVelocityAnomaly_kind _ _ Hf). by left.
    + by eapply detectRatioAnomaly_kind.
  - exists [], [], []. repeat split; by left.
Qed.

Lemma suddenStopRule_kinds history :
  atMostOne [(SUDDEN_STOP, MEDIUM, 70)] (suddenStopRule history []).
Proof.
  unfold suddenStopRule. case_match; [| by left].
  rewrite pushIfFlag_app. simpl. apply atMostOne_option. intros f Hf.
  rewrite (detectSuddenStop_kind _ _ Hf). by left.
Qed.

Lemma timePatternRule_kinds getHours history :
  atMostOne [(TIME_PATTERN, MEDIUM, 70)] (timePatternRule getHours history []).
Proof.
  unfold timePatternRule. case_match; [| by left].
  rewrite pushIfFlag_app. simpl. apply atMostOne_option. intros f Hf.
  rewrite (detectTimePattern_kind _ _ _ Hf). by left.
Qed.

(** Every flag list the rules build is a concatenation of nine optional
    flags, one per rule, in the order of the rules. *)
Inductive RuleShape : list BotFlag -> Prop :=
| rule_shape views likes comments engagement zeroVariance velocity ratio
    suddenStop timePattern :
    atMostOne [(VIEWS_SPIKE, HIGH, 90); (VIEWS_SPIKE, MEDIUM, 70)] views ->
    atMostOne [(LIKES_SPIKE, HIGH, 85); (LIKES_SPIKE, MEDIUM, 65)] likes ->
    atMostOne [(COMMENTS_SPIKE, HIGH, 88)] comments ->
    atMostOne [(ENGAGEMENT_RATIO, HIGH, 92); (ENGAGEMENT_RATIO, MEDIUM, 75)]
      engagement ->
    atMostOne [(ZERO_VARIANCE, HIGH, 95)] zeroVariance ->
    atMostOne [(VELOCITY_ANOMALY, HIGH, 85)] velocity ->
    atMostOne [(RATIO_ANOMALY, HIGH, 90); (RATIO_ANOMALY, MEDIUM, 75)] ratio ->
    atMostOne [(SUDDEN_STOP, MEDIUM, 70)] suddenStop ->
    atMostOne [(TIME_PATTERN, MEDIUM, 70)] timePattern ->
    RuleShape (views ++ likes ++ comments ++ engagement ++ zeroVariance
               ++ velocity ++ ratio ++ suddenStop ++ timePattern).

Lemma ruleFlags_shape getHours history latest previous thresholds platform :
  RuleShape (ruleFlags getHours history latest previous thresholds platform).
Proof.
  unfold ruleFlags.
  destruct (advancedPatternRules_kinds history latest platform)
    as (z & v & r & -> & Hz & Hv & Hr).
  rewrite <- !app_assoc.
  constructor; auto using viewsSpikeRule_kinds, likesSpikeRule_kinds,
    commentsSpikeRule_kinds, engagementRatioRule_kinds, suddenStopRule_kinds,
    timePatternRule_kinds.
Qed.

Lemma RuleShape_nil : RuleShape [].
Proof.
  apply (rule_shape [] [] [] [] [] [] [] [] []); by left.
Qed.

(** The flags of every result have the shape. *)
Lemma detectAnomalies_shape getHours history platform r :
  detectAnomalies getHours history platform = Returned r ->
  RuleShape (flags r).
Proof.
  rewrite detectAnomalies_spec.
  destruct history as [|latest [|previous rest]];
    [intros [= <-]; apply RuleShape_nil | intros [= <-]; apply RuleShape_nil |].
  destruct (inheritedKey platform); [discriminate |].
  intros [= <-]. apply ruleFlags_shape.
Qed.

(** ** Severity *)

Lemma atMostOne_Forall (P : FlagType * Severity * float -> Prop) allowed added :
  atMostOne allowed added ->
  Forall P allowed ->
  Forall (fun f => P (kindOf f)) added.
Proof.
  intros [-> | (f & -> & Hin)] Hall; [constructor |].
  rewrite Forall_forall in Hall.
  constructor; [| constructor]. apply Hall. by apply list_elem_of_In.
Qed.

Lemma RuleShape_significant fl :
  RuleShape fl ->
  Forall (fun f => severity f = HIGH \/ severity f = MEDIUM) fl.
Proof.
  intros H. destruct H.
  repeat (apply Forall_app; split).
  all: eapply (atMostOne_Forall (fun k => k.1.2 = HIGH \/ k.1.2 = MEDIUM));
    [eassumption | repeat first [apply Forall_nil_2 | apply Forall_cons_2]; simpl; auto].
Qed.

(** ** The confidence score *)

Lemma fold_confidence fl acc :
  fold_left (fun sum flag => sum + confidence flag) fl acc
  = fold_left PrimFloat.add (map confidence fl) acc.
Proof.
  revert acc. induction fl as [|f fl IH]; intros acc; simpl; [reflexivity |].
  apply IH.
Qed.

Lemma overallConfidence_scoreOf fl :
  overallConfidence fl = scoreOf (map confidence fl).
Proof.
  unfold overallConfidence, scoreOf, sum.
  by rewrite length_map, fold_confidence.
Qed.

(** Nothing, or one of the [allowed] confidences. *)
Definition atMostOneOf (allowed : list float) (cs : list float) : Prop :=
  cs = [] \/ exists c, cs = [c] /\ In c allowed.

Lemma atMostOne_confidence allowed added :
  atMostOne allowed added ->
  atMostOneOf (map snd allowed) (map confidence added).
Proof.
  intros [-> | (f & -> & Hin)]; [by left | right].
  exists (confidence f). split; [reflexivity |].
  change (confidence f) with (snd (kindOf f)). by apply in_map.
Qed.

(** What the claims say about the score, for a list of confidences. *)
Definition scoreFacts (cs : list float) : Prop :=
  (cs <> [] -> scoreOf cs = mean cs)
  /\ (cs = [] -> scoreOf cs = 0)
  /\ (scoreOf cs = 0 <-> cs = [])
  /\ (strict_eq (scoreOf cs) 0 = true <-> cs = []).

Lemma scoreFacts_nil : scoreFacts [].
Proof. repeat split; intros; congruence. Qed.

Lemma scoreFacts_cons c cs :
  scoreOf (c :: cs) = mean (c :: cs) ->
  strict_eq (scoreOf (c :: cs)) 0 = false ->
  scoreFacts (c :: cs).
Proof.
  intros Hmean Hne. repeat split; try congruence.
  intros H. rewrite H in Hne. discriminate Hne.
Qed.

(** The score of every combination of confidences the rules can emit:
    at most one per rule, in the order of the rules. *)
Lemma scoreFacts_table views likes comments engagement zeroVariance velocity
    ratio suddenStop timePattern :
  atMostOneOf [90; 70] views ->
  atMostOneOf [85; 65] likes ->
  atMostOneOf [88] comments ->
  atMostOneOf [92; 75] engagement ->
  atMostOneOf [95] zeroVariance ->
  atMostOneOf [85] velocity ->
  atMostOneOf [90; 75] ratio ->
  atMostOneOf [70] suddenStop ->
  atMostOneOf [70] timePattern ->
  scoreFacts (views ++ likes ++ comments ++ engagement ++ zeroVariance
              ++ velocity ++ ratio ++ suddenStop ++ timePattern).
Proof.
  unfold atMostOneOf. simpl In.
  intros [-> | (? & -> & [<- | [<- | []]])]
         [-> | (? & -> & [<- | [<- | []]])]
         [-> | (? & -> & [<- | []])]
         [-> | (? & -> & [<- | [<- | []]])]
         [-> | (? & -> & [<- | []])]
         [-> | (? & -> & [<- | []])]
         [-> | (? & -> & [<- | [<- | []]])]
         [-> | (? & -> & [<- | []])]
         [-> | (? & -> & [<- | []])];
    first [ exact scoreFacts_nil
          | apply scoreFacts_cons; reflexivity ].
Qed.

Lemma RuleShape_scoreFacts fl :
  RuleShape fl -> scoreFacts (map confidence fl).
Proof.
  intros H. destruct H. rewrite !map_app.
  apply scoreFacts_table;
    match goal with
    | H : atMostOne ?k ?l |- atMostOneOf _ (map confidence ?l) =>
        exact (atMostOne_confidence k l H)
    end.
Qed.

(** The two derived fields of a result are functions of its flags. *)
Lemma detectAnomalies_derived getHours history platform r :
  detectAnomalies getHours history platform = Returned r ->
  hasAnomalies r = (0 <? length (flags r))%nat
  /\ confidenceScore r = overallConfidence (flags r).
Proof.
  rewrite detectAnomalies_spec.
  destruct history as [|latest [|previous rest]];
    [intros [= <-]; by split | intros [= <-]; by split |].
  destruct (inheritedKey platform); [discriminate |].
  intros [= <-]. by split.
Qed.

(** The views rule comes first: its flag, if any, heads the list, and no
    later rule adds a flag of type [VIEWS_SPIKE]. *)
Lemma ruleFlags_after_views getHours history latest previous thresholds platform :
  exists others,
    ruleFlags getHours history latest previous thresholds platform
    = viewsSpikeRule thresholds latest previous [] ++ others
    /\ Forall (fun f => type f <> VIEWS_SPIKE) others.
Proof.
  unfold ruleFlags. eexists. split; [reflexivity |].
  destruct (advancedPatternRules_kinds history latest platform)
    as (z & v & r & -> & Hz & Hv & Hr).
  pose proof (likesSpikeRule_kinds thresholds latest previous).
  pose proof (commentsSpikeRule_kinds thresholds latest previous).
  pose proof (engagementRatioRule_kinds thresholds latest).
  pose proof (suddenStopRule_kinds history).
  pose proof (timePatternRule_kinds getHours history).
  repeat (apply Forall_app; split).
  all: eapply (atMostOne_Forall (fun k => k.1.1 <> VIEWS_SPIKE));
    [eassumption
    | repeat first [apply Forall_nil_2 | apply Forall_cons_2]; simpl; congruence].
Qed.

(** The table of the four platforms, any other platform having the
    thresholds of YOUTUBE. *)
Lemma thresholds_of_platform platform :
  default YOUTUBE (PLATFORM_THRESHOLDS !! platform)
  = if String.eqb platform "TIKTOK" then TIKTOK
    else if String.eqb platform "INSTAGRAM" then INSTAGRAM
    else YOUTUBE.
Proof.
  unfold PLATFORM_THRESHOLDS.
  destruct (String.eqb_spec platform "TIKTOK") as [-> | Ht]; [reflexivity |].
  destruct (String.eqb_spec platform "INSTAGRAM") as [-> | Hi]; [reflexivity |].
  rewrite !lookup_insert_ne by congruence.
  destruct (decide (platform = "YOUTUBE")) as [-> | Hy]; [reflexivity |].
  rewrite lookup_insert_ne by congruence.
  destruct (decide (platform = "TWITTER")) as [-> | Hw]; [reflexivity |].
  by rewrite lookup_singleton_ne by congruence.
Qed.

End BotDetectionFacts.

(* ===================================================================== *)
(** * Claims about [detectAnomalies] *)
(* ===================================================================== *)

Module BotDetectionClaims.

Import Js BotDetection BotDetectionFacts Scenarios.
Local Open Scope float_scope.

(** C1. For every history and platform, the result [detectAnomalies]
    returns has [hasAnomalies] true exactly when [flags] is non-empty; its
    [confidenceScore] is the mean (sum over count, in the arithmetic of
    JavaScript numbers) of the confidences of the emitted flags when there
    is one, and 0 when there is none; so the score is 0 (as the same
    number, and under [===]) exactly when no flag was emitted.  The call
    returns a result unless the history has two entries or more and the
    platform is a property name of [Object.prototype]. *)
Theorem detectAnomalies_score_is_mean
    (getHours : string -> HourKey) (history : list StatsHistoryEntry)
    (platform : string) :
  match detectAnomalies getHours history platform with
  | Returned r =>
      (hasAnomalies r = true <-> flags r <> [])
      /\ (flags r <> [] -> confidenceScore r = mean (map confidence (flags r)))
      /\ (flags r = [] -> confidenceScore r = 0)
      /\ (confidenceScore r = 0 <-> flags r = [])
      /\ (strict_eq (confidenceScore r) 0 = true <-> flags r = [])
  | Thrown _ => (2 <= length history)%nat /\ inheritedKey platform = true
  end.
Proof.
  destruct (detectAnomalies getHours history platform) as [r | error] eqn:Hcall;
    [| by eapply detectAnomalies_thrown].
  destruct (detectAnomalies_derived getHours history platform r Hcall)
    as [Hhas Hscore].
  pose proof (RuleShape_scoreFacts _
                (detectAnomalies_shape getHours history platform r Hcall))
    as (Hmean & Hzero & Hiff & Hiff').
  rewrite <- overallConfidence_scoreOf, <- Hscore in Hmean, Hzero, Hiff, Hiff'.
  assert (Hmap : map confidence (flags r) = [] <-> flags r = []).
  { destruct (flags r); simpl; split; congruence. }
  rewrite Hmap in Hmean, Hzero, Hiff, Hiff'.
  repeat split; try tauto.
  - rewrite Hhas. destruct (flags r); simpl; [discriminate | congruence].
  - rewrite Hhas. destruct (flags r); simpl; [congruence | reflexivity].
Qed.

(** C2. With fewer than two entries [detectAnomalies] returns
    [{hasAnomalies: false, flags: [], confidenceScore: 0}], whatever the
    entry and the platform are: the return precedes every rule, and every
    read of the thresholds. *)
Theorem detectAnomalies_short_history
    (getHours : string -> HourKey) (history : list StatsHistoryEntry)
    (platform : string) :
  length history < 2 ->
  detectAnomalies getHours history platform
  = Returned {| hasAnomalies := false; flags := []; confidenceScore := 0 |}.
Proof.
  intros Hlen. unfold detectAnomalies.
  destruct history as [|e0 [|e1 rest]]; simpl in *; [reflexivity | reflexivity | lia].
Qed.

Lemma detectAnomalies_short_history_witness :
  detectAnomalies (fun _ => None) [entry 50000 40000 30000 7 "2024-01-01T00:00:00.000Z"]
    "TIKTOK"
  = Returned {| hasAnomalies := false; flags := []; confidenceScore := 0 |}.
Proof.
  apply (detectAnomalies_short_history (fun _ => None)
           [entry 50000 40000 30000 7 "2024-01-01T00:00:00.000Z"] "TIKTOK").
  simpl. lia.
Defined.

(** C3, as stated, fails: on the six-entry history with views
    [2200, 2000, 1818, 1653, 1503, 1367] and platform YOUTUBE the call
    returns the result without a flag, so there is no ZERO_VARIANCE flag,
    [hasAnomalies] is false and the score is 0, not 95. *)
Lemma scenario3_emits_no_zero_variance :
  detectAnomalies (fun _ => None) scenario3 "YOUTUBE"
  = Returned {| hasAnomalies := false; flags := []; confidenceScore := 0 |}
  /\ ~ (exists r f,
          detectAnomalies (fun _ => None) scenario3 "YOUTUBE" = Returned r
          /\ In f (flags r) /\ type f = ZERO_VARIANCE)
  /\ detectZeroVariance scenario3 = None
  /\ Forall (fun rate => lt rate 20 = true) (finiteGrowthRates scenario3).
Proof.
  assert (Hcall : detectAnomalies (fun _ => None) scenario3 "YOUTUBE"
                  = Returned {| hasAnomalies := false; flags := [];
                                confidenceScore := 0 |})
    by (vm_compute; reflexivity).
  split; [exact Hcall |]. split; [| split].
  - intros (r & f & Hr & Hin & _). rewrite Hcall in Hr.
    injection Hr as <-. destruct Hin.
  - vm_compute. reflexivity.
  - vm_compute. repeat constructor.
Qed.

(** C3, amended.  Every six-entry history with views
    [2200, 2000, 1818, 1653, 1503, 1367] and likes, comments and shares 0
    yields no flag on YOUTUBE: the call returns
    [{hasAnomalies: false, flags: [], confidenceScore: 0}].  Its growth
    rates are all below 20, and the zero-variance rule is silent. *)
Theorem scenario3_amended
    (getHours : string -> HourKey) (history : list StatsHistoryEntry) :
  map views history = [2200; 2000; 1818; 1653; 1503; 1367] ->
  Forall (fun e => likes e = 0 /\ comments e = 0 /\ shares e = 0) history ->
  detectAnomalies getHours history "YOUTUBE"
  = Returned {| hasAnomalies := false; flags := []; confidenceScore := 0 |}
  /\ detectZeroVariance history = None
  /\ Forall (fun rate => lt rate 20 = true) (finiteGrowthRates history).
Proof.
  intros Hviews Hzero.
  destruct history as [|[v0 l0 c0 s0 t0] [|[v1 l1 c1 s1 t1] [|[v2 l2 c2 s2 t2]
    [|[v3 l3 c3 s3 t3] [|[v4 l4 c4 s4 t4] [|[v5 l5 c5 s5 t5] [|]]]]]]];
    try discriminate Hviews.
  simpl in Hviews. injection Hviews as -> -> -> -> -> ->.
  repeat match goal with
         | H : Forall _ (_ :: _) |- _ =>
             apply Forall_cons_1 in H; simpl in H; destruct H as [(-> & -> & ->) H]
         end.
  split; [vm_compute; reflexivity |]. split; [vm_compute; reflexivity |].
  vm_compute. repeat constructor.
Qed.

Lemma scenario3_amended_witness :
  detectAnomalies (fun _ => None) scenario3 "YOUTUBE"
  = Returned {| hasAnomalies := false; flags := []; confidenceScore := 0 |}
  /\ detectZeroVariance scenario3 = None
  /\ Forall (fun rate => lt rate 20 = true) (finiteGrowthRates scenario3).
Proof.
  apply (scenario3_amended (fun _ => None) scenario3).
  - reflexivity.
  - unfold scenario3. simpl. repeat constructor.
Defined.



End BotDetectionClaims.

(* ===================================================================== *)
(** * Reasoning about [Async] computations *)
(* ===================================================================== *)

Module RuntimeFacts.

Import Runtime.

(** The actions issued between two worlds. *)
Definition newActions (w w' : World) : list Action :=
  drop (length (journal w)) (journal w').

Definition isPublish (a : Action) : bool :=
  match a with Publish _ => true | _ => false end.

Definition isCacheWrite (a : Action) : bool :=
  match a with RedisSetex _ _ _ => true | _ => false end.

Definition isPlatformCall (a : Action) : bool :=
  match a with PlatformCall _ _ => true | _ => false end.

Definition isTimeout (a : Action) : bool :=
  match a with SetTimeout _ => true | _ => false end.

Definition isLog (a : Action) : bool :=
  match a with Log _ _ _ => true | _ => false end.

(** The rows handed to [prisma.weeklyClipRanking.upsert], in order. *)
Definition rankingUpserts (actions : list Action) : list WeeklyClipRanking :=
  omap (fun a => match a with
                 | WeeklyClipRankingUpsert row => Some row
                 | _ => None
                 end) actions.

(** [w'] comes after [w], and every action in between satisfies [P]. *)
Definition Emitting (P : Action -> bool) (w w' : World) : Prop :=
  exists actions, journal w' = journal w ++ actions /\ forallb P actions = true.

(** The stores and the clock are as they were. *)
Definition Untouched (w w' : World) : Prop :=
  redis w' = redis w /\ campaignCache w' = campaignCache w
  /\ weeklyClipRanking w' = weeklyClipRanking w /\ outbox w' = outbox w
  /\ now w' = now w.

(** [m] moves every world along [R]. *)
Definition Respects {A} (R : World -> World -> Prop) (m : Async A) : Prop :=
  forall w, R w (m w).2.

Lemma bind_run {A B} (m : Async A) (f : A -> Async B) w :
  (m ≫= f) w
  = match m w with
    | (Resolved a, w') => f a w'
    | (Rejected e, w') => (Rejected e, w')
    end.
Proof. reflexivity. Qed.

Lemma try_catch_run {A} (m : Async A) (h : JsError -> Async A) w :
  try_catch m h w
  = match m w with
    | (Resolved a, w') => (Resolved a, w')
    | (Rejected e, w') => h e w'
    end.
Proof. reflexivity. Qed.

Lemma newActions_app w w' actions :
  journal w' = journal w ++ actions -> newActions w w' = actions.
Proof. intros H. unfold newActions. rewrite H. apply drop_app_length. Qed.

#[global] Instance Emitting_preorder P : PreOrder (Emitting P).
Proof.
  split.
  - intros w. exists []. by rewrite app_nil_r.
  - intros w1 w2 w3 (a1 & H1 & P1) (a2 & H2 & P2). exists (a1 ++ a2).
    rewrite H2, H1, <- app_assoc. split; [reflexivity |].
    rewrite forallb_app. by rewrite P1, P2.
Qed.

#[global] Instance Untouched_preorder : PreOrder Untouched.
Proof.
  split.
  - intros w. by repeat split.
  - intros w1 w2 w3 (? & ? & ? & ? & ?) (? & ? & ? & ? & ?).
    repeat split; congruence.
Qed.

Lemma Emitting_record P a w : P a = true -> Emitting P w (record a w).
Proof. intros H. exists [a]. simpl. by rewrite H. Qed.

Section Respects.

Context (R : World -> World -> Prop) `{!PreOrder R}.

Lemma Respects_ret {A} (a : A) : Respects R (mret a : Async A).
Proof. intros w. simpl. reflexivity. Qed.

Lemma Respects_throw {A} e : Respects R (throw e : Async A).
Proof. intros w. simpl. reflexivity. Qed.

Lemma Respects_settle {A} (r : Settled A) : Respects R (settle r).
Proof. intros w. simpl. reflexivity. Qed.

Lemma Respects_bind {A B} (m : Async A) (f : A -> Async B) :
  Respects R m -> (forall a, Respects R (f a)) -> Respects R (m ≫= f).
Proof.
  intros Hm Hf w. unfold mbind, Async_bind, async_bind.
  specialize (Hm w). destruct (m w) as [[a | e] w1]; simpl in *; [| exact Hm].
  etrans; [exact Hm | apply Hf].
Qed.

Lemma Respects_try_catch {A} (m : Async A) (h : JsError -> Async A) :
  Respects R m -> (forall e, Respects R (h e)) -> Respects R (try_catch m h).
Proof.
  intros Hm Hh w. unfold try_catch.
  specialize (Hm w). destruct (m w) as [[a | e] w1]; simpl in *; [exact Hm |].
  etrans; [exact Hm | apply Hh].
Qed.

End Respects.

Lemma Respects_log R level message fields :
  (forall w, R w (record (Log level message fields) w)) ->
  Respects R (log level message fields).
Proof. intros H w. apply H. Qed.

(** Splits a goal [Respects R m] along the binds, the try-catch blocks
    and the returns of [m]; what is left are the primitive calls. *)
Ltac respects_steps :=
  repeat first
    [ apply Respects_bind; [apply _ | | intros ?]
    | apply Respects_try_catch; [apply _ | | intros ?]
    | apply Respects_ret; apply _
    | apply Respects_throw; apply _
    | apply Respects_settle; apply _ ].


(** A failed publish is logged and swallowed. *)
Lemma swallow_publish env event message w :
  exists w' extra,
    try_catch (publish env event)
      (fun error => log LogError message [error]) w
    = (Resolved tt, w')
    /\ journal w' = journal w ++ Publish event :: extra
    /\ (extra = [] \/ exists e, extra = [Log LogError message [e]]).
Proof.
  rewrite try_catch_run. unfold publish, log.
  destruct (publisherUp env w); eexists _, _;
    (split; [reflexivity |]); cbn [journal record set_outbox].
  - split; [reflexivity | by left].
  - split; [by rewrite <- app_assoc | right; by eexists].
Qed.

(** Runs the binds, try-catch blocks, log lines and returns at the head of
    a computation. *)
Ltac run_steps :=
  repeat first
    [ rewrite bind_run
    | rewrite try_catch_run
    | progress unfold log, throw, mret, Async_ret, async_ret
    | progress cbv beta iota ].

(** Rewrites [newActions w w'] to the actions [w'] adds to [w]. *)
Ltac new_actions :=
  erewrite newActions_app
    by (cbn [journal record snd set_redis set_outbox set_now set_campaignCache
             set_weeklyClipRanking];
        rewrite <- ?app_assoc; reflexivity).

End RuntimeFacts.

(* ===================================================================== *)
(** * Claims about the stats collector *)
(* ===================================================================== *)

Module StatsCollectorFacts.

Import Runtime RuntimeFacts Platforms StatsCollector.
Local Open Scope float_scope.

(** The clock is as it was. *)
Definition SameClock (w w' : World) : Prop := now w' = now w.

#[global] Instance SameClock_preorder : PreOrder SameClock.
Proof. split; [by intros w | intros w1 w2 w3; unfold SameClock; congruence]. Qed.

(** A log line with the given message. *)
Definition isLogOf (message : string) (a : Action) : bool :=
  match a with
  | Log _ m _ => String.eqb m message
  | _ => false
  end.

(** What a refresh issues after its first log line: no timeout, and none
    of the two log lines that delimit a clip in a batch. *)
Definition refreshAction (a : Action) : bool :=
  negb (isTimeout a)
  && negb (isLogOf "Refreshing clip stats" a)
  && negb (isLogOf "Error refreshing clip stats in batch" a).

(** What the dispatcher issues: log lines and adapter calls. *)
Definition fetchAction (a : Action) : bool :=
  (isLog a || isPlatformCall a) && refreshAction a.

(** The dispatcher only logs and calls a platform adapter. *)
Definition Fetching (w w' : World) : Prop :=
  Emitting fetchAction w w' /\ Untouched w w'.

#[global] Instance Fetching_preorder : PreOrder Fetching.
Proof.
  split.
  - intros w. split; reflexivity.
  - intros w1 w2 w3 [? ?] [? ?]. split; etrans; eassumption.
Qed.

Lemma Fetching_log level message fields w :
  refreshAction (Log level message fields) = true ->
  Fetching w (record (Log level message fields) w).
Proof.
  intros H. split; [| by repeat split].
  apply Emitting_record. unfold fetchAction. by rewrite H.
Qed.

Lemma Fetching_platformCall {A} platform videoId
    (answer : World -> string -> Settled A) :
  Respects Fetching (platformCall platform videoId answer).
Proof. intros w. split; [by apply Emitting_record | by repeat split]. Qed.

Lemma fetchPlatformStats_Fetching env platform videoId :
  Respects Fetching (fetchPlatformStats env platform videoId).
Proof.
  unfold fetchPlatformStats.
  apply Respects_try_catch; [apply _ | |].
  - repeat case_match; respects_steps;
      try apply Fetching_platformCall;
      try (apply Respects_log; intros; by apply Fetching_log).
    case_match; respects_steps.
  - intros e. respects_steps. apply Respects_log; intros; by apply Fetching_log.
Qed.

(** A refresh never waits. *)
Definition NotWaiting (w w' : World) : Prop :=
  Emitting refreshAction w w' /\ SameClock w w'.

#[global] Instance NotWaiting_preorder : PreOrder NotWaiting.
Proof.
  split.
  - intros w. split; reflexivity.
  - intros w1 w2 w3 [? ?] [? ?]. split; etrans; eassumption.
Qed.

Lemma Fetching_NotWaiting w w' : Fetching w w' -> NotWaiting w w'.
Proof.
  intros [(actions & Hj & HP) (_ & _ & _ & _ & Hnow)]. split; [| exact Hnow].
  exists actions. split; [exact Hj |].
  rewrite forallb_forall in HP |- *. intros a Ha. specialize (HP a Ha).
  unfold fetchAction in HP. by apply andb_prop in HP as [_ ?].
Qed.

Lemma NotWaiting_log level message fields :
  refreshAction (Log level message fields) = true ->
  Respects NotWaiting (log level message fields).
Proof. intros H w. split; [by apply Emitting_record | reflexivity]. Qed.

Lemma NotWaiting_redis_setex env key seconds value :
  Respects NotWaiting (redis_setex env key seconds value).
Proof.
  intros w. unfold redis_setex. destruct (redisUp env w); simpl;
    (split; [by apply Emitting_record | reflexivity]).
Qed.

Lemma NotWaiting_publish env event :
  Respects NotWaiting (publish env event).
Proof.
  intros w. unfold publish. destruct (publisherUp env w); simpl;
    (split; [by apply Emitting_record | reflexivity]).
Qed.

(** What [refreshClipStats] does after its first log line. *)
Definition refreshBody (env : Env) (submissionId platform videoId : string)
  : Async PlatformStats :=
  stats ← fetchPlatformStats env platform videoId;
  try_catch
    (redis_setex env (getCacheKey platform videoId) CACHE_TTL_SECONDS
       (JSON_stringify env stats))
    (fun error => log LogError "Error caching stats in Redis" [error]);;
  try_catch
    (publish env
       (StatsUpdated
          {| su_clipId := submissionId;
             su_views := views stats;
             su_likes := likes stats;
             su_comments := comments stats;
             su_shares := shares stats;
             su_engagement := engagementOf stats |}
          SERVICE_NAME))
    (fun error => log LogError "Error publishing stats.updated event" [error]);;
  log LogInfo "Clip stats refreshed successfully" [submissionId];;
  mret stats.

Lemma refreshClipStats_unfold env submissionId platform videoId w :
  refreshClipStats env submissionId platform videoId w
  = refreshBody env submissionId platform videoId
      (record (Log LogInfo "Refreshing clip stats" [submissionId; platform; videoId]) w).
Proof. reflexivity. Qed.

Lemma refreshBody_NotWaiting env submissionId platform videoId :
  Respects NotWaiting (refreshBody env submissionId platform videoId).
Proof.
  unfold refreshBody.
  apply Respects_bind; [apply _ | | intros stats].
  { intros w. apply Fetching_NotWaiting, fetchPlatformStats_Fetching. }
  respects_steps;
    first [ by apply NotWaiting_log
          | apply NotWaiting_redis_setex
          | apply NotWaiting_publish ].
Qed.

(** A readable, unexpired, parsable entry is what [getCachedStats]
    resolves with, after one read of the key. *)
Lemma getCachedStats_hit env platform videoId w entry stats :
  redisUp env w = true ->
  redis w !! getCacheKey platform videoId = Some entry ->
  (now w < re_expiresAt entry)%N ->
  re_value entry <> "" ->
  JSON_parse env (re_value entry) = Resolved (Some stats) ->
  getCachedStats env platform videoId w
  = (Resolved (Some stats), record (RedisGet (getCacheKey platform videoId)) w).
Proof.
  intros Hup Hentry Hfresh Htext Hparse.
  unfold getCachedStats. rewrite try_catch_run, bind_run.
  unfold redis_get. rewrite Hup, Hentry.
  destruct (N.ltb_spec (now w) (re_expiresAt entry)) as [_ | ?]; [| lia].
  unfold nonEmpty. destruct (String.eqb_spec (re_value entry) "") as [? | _];
    [contradiction |].
  cbn [negb]. unfold settle. by rewrite Hparse.
Qed.





End StatsCollectorFacts.

Module StatsCollectorClaims.

Import Runtime RuntimeFacts Platforms StatsCollector StatsCollectorFacts.

(** The journal of a batch: per clip, the first log line of its refresh,
    what the refresh issues, the error line when the refresh threw, and
    the 100 ms timeout; with the number of clips that succeeded and
    failed. *)
Inductive Paced : list ClipRef -> list Action -> nat -> nat -> Prop :=
| Paced_nil : Paced [] [] 0 0
| Paced_ok clip rest body actions s f :
    forallb refreshAction body = true ->
    Paced rest actions s f ->
    Paced (clip :: rest)
      (Log LogInfo "Refreshing clip stats" [id clip; platform clip; videoId clip]
       :: body ++ SetTimeout 100 :: actions)
      (S s) f
| Paced_failed clip rest body actions s f :
    forallb refreshAction body = true ->
    Paced rest actions s f ->
    Paced (clip :: rest)
      (Log LogInfo "Refreshing clip stats" [id clip; platform clip; videoId clip]
       :: body
       ++ Log LogError "Error refreshing clip stats in batch" [id clip; platform clip]
       :: SetTimeout 100 :: actions)
      s (S f).

Lemma Paced_counts clips actions s f :
  Paced clips actions s f ->
  s + f = length clips
  /\ length (List.filter isTimeout actions) = length clips
  /\ Forall (fun a => isTimeout a = true -> a = SetTimeout 100) actions.
Proof.
  assert (Hbody : forall body, forallb refreshAction body = true ->
            List.filter isTimeout body = []
            /\ Forall (fun a => isTimeout a = true -> a = SetTimeout 100) body).
  { induction body as [|a body IH]; simpl; [by split |].
    intros [Ha Hb]%andb_prop. destruct (IH Hb) as [IH1 IH2].
    unfold refreshAction in Ha. destruct (isTimeout a) eqn:E; [discriminate |].
    split; [exact IH1 |]. constructor; [congruence | exact IH2]. }
  induction 1 as [| clip rest body actions s f Hb _ (IH1 & IH2 & IH3)
                  | clip rest body actions s f Hb _ (IH1 & IH2 & IH3)];
    [by repeat split | |];
    destruct (Hbody body Hb) as [Hf Hall]; simpl;
    rewrite List.filter_app, Hf; simpl; (split; [lia |]); (split; [lia |]);
    constructor; try discriminate; apply Forall_app; split; try exact Hall;
    repeat (constructor; try done).
Qed.

Lemma batchLoop_paced env clips :
  forall s0 f0 w,
  exists s f actions w',
    batchLoop env clips s0 f0 w
    = (Resolved {| successCount := s0 + s; failCount := f0 + f |}, w')
    /\ Paced clips actions s f
    /\ journal w' = journal w ++ actions
    /\ now w' = (now w + 100 * N.of_nat (length clips))%N.
Proof.
  induction clips as [|clip rest IH]; intros s0 f0 w.
  - exists 0, 0, [], w. simpl. rewrite !Nat.add_0_r, app_nil_r.
    repeat split; [constructor | lia].
  - cbn [batchLoop]. rewrite bind_run, try_catch_run, bind_run.
    rewrite refreshClipStats_unfold.
    set (w1 := record _ w).
    destruct (refreshBody_NotWaiting env (id clip) (platform clip) (videoId clip) w1)
      as [(body & Hj & Hbody) Hclock].
    destruct (refreshBody env (id clip) (platform clip) (videoId clip) w1)
      as [[stats | error] w2]; cbn [fst snd] in Hj, Hclock;
      unfold SameClock in Hclock.
    + unfold mret, Async_ret, async_ret. cbv beta iota.
      rewrite bind_run. unfold sleep. cbv beta iota. cbn [fst snd].
      edestruct (IH (s0 + 1) f0) as (s & f & actions & w' & -> & HP & Hj' & Hnow').
      exists (S s), f, (Log LogInfo "Refreshing clip stats"
                          [id clip; platform clip; videoId clip]
                        :: body ++ SetTimeout 100 :: actions), w'.
      split; [by replace (s0 + 1 + s) with (s0 + S s) by lia |].
      split; [by constructor |].
      cbn [journal now set_now record] in Hj', Hnow'.
      rewrite Hj', Hj, Hnow', Hclock. subst w1. cbn [journal now record length].
      split; [by rewrite <- !app_assoc | lia].
    + rewrite bind_run. unfold log at 1. cbv beta iota.
      unfold mret, Async_ret, async_ret. cbv beta iota.
      rewrite bind_run. unfold sleep. cbv beta iota. cbn [fst snd].
      edestruct (IH s0 (f0 + 1)) as (s & f & actions & w' & -> & HP & Hj' & Hnow').
      exists s, (S f), (Log LogInfo "Refreshing clip stats"
                          [id clip; platform clip; videoId clip]
                        :: body
                        ++ Log LogError "Error refreshing clip stats in batch"
                             [id clip; platform clip]
                        :: SetTimeout 100 :: actions), w'.
      split; [by replace (f0 + 1 + f) with (f0 + S f) by lia |].
      split; [by constructor |].
      cbn [journal now set_now record] in Hj', Hnow'.
      rewrite Hj', Hj, Hnow', Hclock. subst w1. cbn [journal now record length].
      split; [by rewrite <- !app_assoc | lia].
Qed.

(** A batch run by the outcome of every refresh: from [w], the clips are
    refreshed in the order of the list; a refresh that resolves counts as
    a success, a refresh that throws is logged and counts as a failure;
    either way the next clip starts 100 ms later. *)
Inductive Batch (env : Env) : list ClipRef -> World -> nat -> nat -> World -> Prop :=
| Batch_done w : Batch env [] w 0 0 w
| Batch_refreshed clip rest w stats w1 s f w' :
    refreshClipStats env (id clip) (platform clip) (videoId clip) w
    = (Resolved stats, w1) ->
    Batch env rest (set_now (now w1 + 100) (record (SetTimeout 100) w1)) s f w' ->
    Batch env (clip :: rest) w (S s) f w'
| Batch_failed clip rest w error w1 s f w' :
    refreshClipStats env (id clip) (platform clip) (videoId clip) w
    = (Rejected error, w1) ->
    (let logged :=
       record (Log LogError "Error refreshing clip stats in batch"
                 [id clip; platform clip]) w1 in
     Batch env rest (set_now (now logged + 100) (record (SetTimeout 100) logged))
       s f w') ->
    Batch env (clip :: rest) w s (S f) w'.

Lemma batchLoop_Batch env clips :
  forall s0 f0 w,
  exists s f w',
    batchLoop env clips s0 f0 w
    = (Resolved {| successCount := s0 + s; failCount := f0 + f |}, w')
    /\ Batch env clips w s f w'.
Proof.
  induction clips as [|clip rest IH]; intros s0 f0 w.
  - exists 0, 0, w. simpl. rewrite !Nat.add_0_r. split; [reflexivity | constructor].
  - cbn [batchLoop]. rewrite bind_run, try_catch_run, bind_run.
    destruct (refreshClipStats env (id clip) (platform clip) (videoId clip) w)
      as [[stats | error] w1] eqn:Hrefresh.
    + unfold mret, Async_ret, async_ret. cbv beta iota.
      rewrite bind_run. unfold sleep. cbv beta iota. cbn [fst snd].
      edestruct (IH (s0 + 1) f0) as (s & f & w' & -> & HB).
      exists (S s), f, w'.
      split; [by replace (s0 + 1 + s) with (s0 + S s) by lia |].
      econstructor; [exact Hrefresh | exact HB].
    + rewrite bind_run. unfold log at 1. cbv beta iota.
      unfold mret, Async_ret, async_ret. cbv beta iota.
      rewrite bind_run. unfold sleep. cbv beta iota. cbn [fst snd].
      edestruct (IH s0 (f0 + 1)) as (s & f & w' & -> & HB).
      exists s, (S f), w'.
      split; [by replace (f0 + 1 + f) with (f0 + S f) by lia |].
      eapply Batch_failed; [exact Hrefresh | exact HB].
Qed.

(** C8. For every list of clips, [batchRefreshStats] resolves (no
    refresh error aborts it), and its counts are those of the outcomes of
    the refreshes: the clips are refreshed one after the other in the
    order of the list, each from the world the previous one left;
    [successCount] counts the refreshes that resolved and [failCount]
    those that threw, which are caught and logged; so
    [successCount + failCount] is the number of clips.  After each clip,
    whether its refresh succeeded or threw, one timeout of 100 ms is taken:
    there are as many timeouts as clips, each of 100 ms, and the clock has
    advanced by 100 ms per clip. *)
Theorem batchRefreshStats_counts_every_clip
    (env : Env) (clips : list ClipRef) (w : World) :
  exists result w' actions,
    batchRefreshStats env clips w
    = (Resolved result, record (Log LogInfo "Batch stats refresh completed" []) w')
    /\ Batch env clips w (successCount result) (failCount result) w'
    /\ successCount result + failCount result = length clips
    /\ newActions w w' = actions
    /\ Paced clips actions (successCount result) (failCount result)
    /\ length (List.filter isTimeout actions) = length clips
    /\ Forall (fun a => isTimeout a = true -> a = SetTimeout 100) actions
    /\ now w' = (now w + 100 * N.of_nat (length clips))%N.
Proof.
  destruct (batchLoop_paced env clips 0 0 w)
    as (s & f & actions & w1 & Hrun & HP & Hj & Hnow).
  destruct (batchLoop_Batch env clips 0 0 w) as (s' & f' & w1' & Hrun' & HB).
  rewrite Hrun in Hrun'. injection Hrun' as -> -> <-.
  destruct (Paced_counts _ _ _ _ HP) as (Hsum & Htimeouts & Hall).
  exists {| successCount := s'; failCount := f' |}, w1, actions.
  cbn [successCount failCount].
  split; [| repeat split; try done].
  - unfold batchRefreshStats, mbind, Async_bind, async_bind. by rewrite Hrun.
  - by apply newActions_app.
Qed.



(** C9. When the cache holds an entry for [(platform, videoId)], that is
    Redis answers, the key [stats:platform:videoId] holds an unexpired
    text, and the text is the JSON of a tuple, [getOrFetchStats] resolves
    with that tuple, and all it does is read the key and write a debug
    line: the stores, the outbox and the clock are untouched, no platform
    adapter is called, nothing is written to the cache and nothing is
    published. *)
Theorem getOrFetchStats_cache_hit
    (env : Env) (submissionId platform videoId : string) (w : World)
    (entry : RedisEntry) (stats : PlatformStats) :
  redisUp env w = true ->
  redis w !! getCacheKey platform videoId = Some entry ->
  (now w < re_expiresAt entry)%N ->
  re_value entry <> "" ->
  JSON_parse env (re_value entry) = Resolved (Some stats) ->
  let out := getOrFetchStats env submissionId platform videoId w in
  out.1 = Resolved stats
  /\ Untouched w out.2
  /\ newActions w out.2
     = [RedisGet (getCacheKey platform videoId);
        Log LogDebug "Returning cached stats" [submissionId]]
  /\ forallb (fun a => negb (isPlatformCall a || isCacheWrite a || isPublish a))
       (newActions w out.2) = true.
Proof.
  intros Hup Hentry Hfresh Htext Hparse out. subst out.
  unfold getOrFetchStats. rewrite bind_run.
  rewrite (getCachedStats_hit env platform videoId w entry stats) by assumption.
  rewrite bind_run. unfold log. cbn [fst snd]. unfold mret, Async_ret, async_ret.
  cbn [fst snd].
  split; [reflexivity |]. split; [by repeat split |].
  assert (Hnew : newActions w
            (record (Log LogDebug "Returning cached stats" [submissionId])
               (record (RedisGet (getCacheKey platform videoId)) w))
          = [RedisGet (getCacheKey platform videoId);
             Log LogDebug "Returning cached stats" [submissionId]]).
  { apply newActions_app. cbn [journal record]. by rewrite <- app_assoc. }
  rewrite Hnew. by split.
Qed.

End StatsCollectorClaims.

(* ===================================================================== *)
(** * Claims about the weekly clip rankings *)
(* ===================================================================== *)

Module RankingsFacts.

Import Runtime RuntimeFacts RankingsService.

(** [(views, engagement)] of [a] is lexicographically greater than or
    equal to that of [b]. *)
Definition lexGe (a b : ClipData) : Prop :=
  (cd_views b < cd_views a)%Z
  \/ (cd_views a = cd_views b /\ (cd_engagement b <= cd_engagement a)%Q).

(** The same order on rows of the table. *)
Definition lexGeRow (a b : WeeklyClipRanking) : Prop :=
  (wr_views b < wr_views a)%Z
  \/ (wr_views a = wr_views b /\ (wr_engagement b <= wr_engagement a)%Q).

(** The rows the loop writes for [ranked], entered at index [i]. *)
Fixpoint rowsFrom (start finish : N) (ranked : list ClipData) (i : nat)
  : list WeeklyClipRanking :=
  match ranked with
  | [] => []
  | clip :: rest =>
      rankingRow start finish clip (i + 1) :: rowsFrom start finish rest (i + 1)
  end.

(** What a row says about its clip. *)
Definition clipOfRow (row : WeeklyClipRanking) : string * string * Z * Z * Q :=
  (wr_submissionId row, wr_platform row, wr_views row, wr_likes row,
   wr_engagement row).

Definition clipOfData (clip : ClipData) : string * string * Z * Z * Q :=
  (cd_id clip, cd_platform clip, cd_views clip, cd_likes clip,
   cd_engagement clip).

Lemma compareClips_nonpositive a b :
  (compareClips a b <= 0)%Q <-> lexGe a b.
Proof.
  unfold compareClips, lexGe.
  destruct (Z.eqb_spec (cd_views b) (cd_views a)) as [Heq | Hne]; simpl.
  - split.
    + intros H. right. split; [congruence | lra].
    + intros [H | [_ H]]; [lia | lra].
  - change 0%Q with (inject_Z 0). rewrite <- Zle_Qle. split.
    + intros H. left. lia.
    + intros [H | [H _]]; [lia | congruence].
Qed.

Lemma lexGe_refl a : lexGe a a.
Proof. right. split; [reflexivity | apply Qle_refl]. Qed.

Lemma lexGe_trans a b c : lexGe a b -> lexGe b c -> lexGe a c.
Proof.
  unfold lexGe. intros [H1 | [H1 H1']] [H2 | [H2 H2']].
  - left. lia.
  - left. lia.
  - left. lia.
  - right. split; [lia | lra].
Qed.

Lemma comesAfter_false a b :
  comesAfter compareClips a b = false -> lexGe a b.
Proof.
  unfold comesAfter. intros H. apply negb_false_iff in H.
  by apply compareClips_nonpositive, Qle_bool_iff.
Qed.

(** When the comparator is positive, [b] goes first, and rightly so. *)
Lemma comesAfter_true a b :
  comesAfter compareClips a b = true -> lexGe b a.
Proof.
  unfold comesAfter. intros H. apply negb_true_iff in H.
  assert (Hpos : ~ (compareClips a b <= 0)%Q).
  { intros Hle. apply Qle_bool_iff in Hle. congruence. }
  rewrite compareClips_nonpositive in Hpos. unfold lexGe in *.
  destruct (Z.lt_trichotomy (cd_views a) (cd_views b)) as [Hlt | [Heq | Hgt]].
  - by left.
  - right. split; [congruence |].
    destruct (Qlt_le_dec (cd_engagement a) (cd_engagement b)) as [Hq | Hq].
    + by apply Qlt_le_weak.
    + exfalso. apply Hpos. right. by split.
  - exfalso. apply Hpos. by left.
Qed.

(** ** The sort *)

Lemma insertSorted_Permutation {A} (cmp : A -> A -> Q) x l :
  Permutation (insertSorted cmp x l) (x :: l).
Proof.
  induction l as [|y l IH]; simpl; [reflexivity |].
  destruct (comesAfter cmp x y); [| reflexivity].
  rewrite IH. apply perm_swap.
Qed.

Lemma Array_sort_Permutation {A} (cmp : A -> A -> Q) l :
  Permutation (Array_sort cmp l) l.
Proof.
  induction l as [|x l IH]; simpl; [reflexivity |].
  rewrite insertSorted_Permutation. by constructor.
Qed.

Lemma insertSorted_sorted x l :
  StronglySorted lexGe l ->
  StronglySorted lexGe (insertSorted compareClips x l).
Proof.
  induction 1 as [|y l Hsorted IH Hall]; simpl.
  - repeat constructor.
  - destruct (comesAfter compareClips x y) eqn:Hcmp.
    + constructor; [exact IH |].
      rewrite (insertSorted_Permutation compareClips x l).
      constructor; [by apply comesAfter_true | exact Hall].
    + apply comesAfter_false in Hcmp.
      constructor; [by constructor |].
      constructor; [exact Hcmp |].
      eapply Forall_impl; [exact Hall |].
      intros z Hz. by eapply lexGe_trans.
Qed.

Lemma Array_sort_sorted l :
  StronglySorted lexGe (Array_sort compareClips l).
Proof.
  induction l as [|x l IH]; simpl; [constructor |].
  by apply insertSorted_sorted.
Qed.

Lemma StronglySorted_lookup_lt {A} (R : A -> A -> Prop) l i j a b :
  StronglySorted R l ->
  l !! i = Some a -> l !! j = Some b -> i < j -> R a b.
Proof.
  intros Hsorted. revert i j.
  induction Hsorted as [|x l Hsorted IH Hall]; intros i j Hi Hj Hlt.
  - by rewrite lookup_nil in Hi.
  - destruct j as [|j]; [lia |]. destruct i as [|i]; simpl in *.
    + injection Hi as <-. rewrite Forall_forall in Hall.
      apply Hall. by eapply list_elem_of_lookup_2.
    + apply (IH i j); [done | done | lia].
Qed.

(** ** The rows *)

Lemma rowsFrom_length start finish ranked i :
  length (rowsFrom start finish ranked i) = length ranked.
Proof.
  revert i. induction ranked as [|c rest IH]; intros i; simpl; [done |].
  by rewrite IH.
Qed.

Lemma rowsFrom_ranks start finish ranked i :
  map wr_rank (rowsFrom start finish ranked i) = seq (i + 1) (length ranked).
Proof.
  revert i. induction ranked as [|c rest IH]; intros i; simpl; [done |].
  rewrite IH. by replace (i + 1 + 1) with (S (i + 1)) by lia.
Qed.

Lemma rowsFrom_clips start finish ranked i :
  map clipOfRow (rowsFrom start finish ranked i) = map clipOfData ranked.
Proof.
  revert i. induction ranked as [|c rest IH]; intros i; simpl; [done |].
  by rewrite IH.
Qed.

Lemma rowsFrom_lookup start finish ranked i k row :
  rowsFrom start finish ranked i !! k = Some row ->
  exists clip, ranked !! k = Some clip
               /\ row = rankingRow start finish clip (i + k + 1).
Proof.
  revert i k. induction ranked as [|c rest IH]; intros i k; simpl.
  - by rewrite lookup_nil.
  - destruct k as [|k]; simpl.
    + intros [= <-]. exists c. split; [done |]. by rewrite Nat.add_0_r.
    + intros H. destruct (IH _ _ H) as (clip & Hclip & ->).
      exists clip. split; [done |]. f_equal. lia.
Qed.

(** The higher of two rows of a sorted list ranks at least as well. *)
Lemma rowsFrom_ordered start finish ranked i ri rj :
  StronglySorted lexGe ranked ->
  In ri (rowsFrom start finish ranked i) ->
  In rj (rowsFrom start finish ranked i) ->
  wr_rank ri <= wr_rank rj ->
  lexGeRow ri rj.
Proof.
  intros Hsorted Hi%list_elem_of_In Hj%list_elem_of_In Hrank.
  apply list_elem_of_lookup in Hi as [ki Hi]. apply list_elem_of_lookup in Hj as [kj Hj].
  apply rowsFrom_lookup in Hi as (ci & Hci & ->).
  apply rowsFrom_lookup in Hj as (cj & Hcj & ->).
  simpl in Hrank. unfold lexGeRow. simpl.
  destruct (decide (ki = kj)) as [-> | Hne].
  - assert (ci = cj) as -> by congruence. apply lexGe_refl.
  - apply (StronglySorted_lookup_lt lexGe ranked ki kj); [done | done | done | lia].
Qed.

(** ** The loop *)

(** The loop issues the rows in order, up to and including the first
    one the database refuses, and resolves only if it issued them all. *)
Lemma weeklyClipRanking_upsert_run env row w :
  exists w',
    weeklyClipRanking_upsert env row w
    = (if prismaUp env w then Resolved tt else Rejected "database error", w')
    /\ journal w' = journal w ++ [WeeklyClipRankingUpsert row].
Proof.
  unfold weeklyClipRanking_upsert. destruct (prismaUp env w); by eexists.
Qed.

Lemma upsertRankings_run env start finish ranked :
  forall i w,
    let out := upsertRankings env start finish ranked i w in
    exists k,
      journal out.2
      = journal w
        ++ map WeeklyClipRankingUpsert (take k (rowsFrom start finish ranked i))
      /\ (out.1 = Resolved tt -> length ranked <= k)
      /\ ((forall w', prismaUp env w' = true) -> out.1 = Resolved tt).
Proof.
  induction ranked as [|clip rest IH]; intros i w out; subst out.
  - exists 0. simpl. split; [by rewrite app_nil_r | by split].
  - cbn [upsertRankings rowsFrom]. rewrite bind_run.
    destruct (weeklyClipRanking_upsert_run env
                (rankingRow start finish clip (i + 1)) w) as (w1 & -> & Hj1).
    destruct (prismaUp env w) eqn:Hup.
    + destruct (IH (i + 1) w1) as (k & Hk & Hdone & Hall).
      exists (S k). split; [| split].
      * rewrite Hk, Hj1. cbn [take map]. by rewrite <- app_assoc.
      * intros H. specialize (Hdone H). simpl. lia.
      * exact Hall.
    + exists 1. cbn [fst snd take map]. rewrite take_0. split; [| split].
      * exact Hj1.
      * discriminate.
      * intros Hall. rewrite Hall in Hup. discriminate.
Qed.

Lemma rankingUpserts_map rows :
  rankingUpserts (map WeeklyClipRankingUpsert rows) = rows.
Proof.
  induction rows as [|row rows IH]; [done |].
  change (rankingUpserts (map WeeklyClipRankingUpsert (row :: rows)))
    with (row :: rankingUpserts (map WeeklyClipRankingUpsert rows)).
  by rewrite IH.
Qed.

Lemma rankingUpserts_app a b :
  rankingUpserts (a ++ b) = rankingUpserts a ++ rankingUpserts b.
Proof. unfold rankingUpserts. apply omap_app. Qed.

(** The run, step by step. *)
Lemma calculateWeeklyClipRankings_unfold env weekStart w :
  let start := default (startOfWeek env (now w)) weekStart in
  let finish := endOfWeek env start in
  let w1 := record (Log LogInfo "Calculating weekly clip rankings" []) w in
  let w2 := record (ClipServiceGet "/clips/approved-for-rankings") w1 in
  calculateWeeklyClipRankings env weekStart w
  = match clipsApprovedForRankings env w1 start finish with
    | Resolved response =>
        let clips := default [] response in
        if (length clips =? 0)%nat then
          (Resolved tt, record (Log LogInfo "No clips found for weekly rankings" []) w2)
        else
          match upsertRankings env start finish (Array_sort compareClips clips) 0 w2 with
          | (Resolved _, w3) =>
              (Resolved tt,
               record (Log LogInfo "Weekly clip rankings calculated successfully" []) w3)
          | (Rejected e, w3) =>
              (Rejected e,
               record (Log LogError "Error calculating weekly clip rankings" [e]) w3)
          end
    | Rejected e =>
        (Rejected e,
         record (Log LogError "Error calculating weekly clip rankings" [e]) w2)
    end.
Proof.
  intros start finish w1 w2. unfold calculateWeeklyClipRankings.
  rewrite bind_run. unfold currentTime at 1. cbv beta iota.
  fold start. fold finish. rewrite bind_run. unfold log at 1. cbv beta iota.
  fold w1. rewrite try_catch_run, bind_run.
  destruct (clipsApprovedForRankings env w1 start finish) as [response | e];
    [| reflexivity].
  fold w2. cbv zeta. destruct (length (default [] response) =? 0)%nat; [reflexivity |].
  rewrite bind_run.
  destruct (upsertRankings env start finish _ 0 w2) as [[[] | e] w3]; reflexivity.
Qed.

End RankingsFacts.

Module RankingsClaims.

Import Runtime RuntimeFacts RankingsService RankingsFacts.

(** C6. Let the peer answer the request for the week's approved clips
    with [clips].  On an empty answer the run resolves without an upsert
    and the table is as it was.  On a non-empty answer, a run that
    resolves has issued one upsert per clip, the ranks of the upserts are
    1, ..., N in this order (no gap, no duplicate), the upserted rows are
    the clips of the answer, and a row ranked before another has the
    lexicographically greater or equal (views, engagement); the run
    resolves whenever the database accepts every write. *)
Theorem calculateWeeklyClipRankings_ranks
    (env : Env) (weekStart : option N) (w : World)
    (response : option (list ClipData)) :
  let start := default (startOfWeek env (now w)) weekStart in
  let finish := endOfWeek env start in
  let w1 := record (Log LogInfo "Calculating weekly clip rankings" []) w in
  let clips := default [] response in
  let out := calculateWeeklyClipRankings env weekStart w in
  let rows := rankingUpserts (newActions w out.2) in
  clipsApprovedForRankings env w1 start finish = Resolved response ->
  (clips = [] ->
     out.1 = Resolved tt /\ rows = []
     /\ weeklyClipRanking out.2 = weeklyClipRanking w)
  /\ (clips <> [] ->
      (out.1 = Resolved tt ->
         map wr_rank rows = seq 1 (length clips)
         /\ Permutation (map clipOfRow rows) (map clipOfData clips)
         /\ forall ri rj, In ri rows -> In rj rows ->
              wr_rank ri <= wr_rank rj -> lexGeRow ri rj)
      /\ ((forall w', prismaUp env w' = true) -> out.1 = Resolved tt)).
Proof.
  intros start finish w1 clips out rows Hresponse.
  set (w2 := record (ClipServiceGet "/clips/approved-for-rankings") w1).
  pose proof (calculateWeeklyClipRankings_unfold env weekStart w) as Hout.
  cbv zeta in Hout. fold start finish w1 w2 out in Hout.
  rewrite Hresponse in Hout. fold clips in Hout.
  clearbody out. subst rows. split.
  - intros Hempty. rewrite Hempty in Hout. cbn [length Nat.eqb] in Hout. subst out.
    cbn [fst snd]. split; [reflexivity |]. split; [| reflexivity].
    rewrite (newActions_app w _
               [Log LogInfo "Calculating weekly clip rankings" [];
                ClipServiceGet "/clips/approved-for-rankings";
                Log LogInfo "No clips found for weekly rankings" []]).
    + reflexivity.
    + subst w2 w1. cbn [journal record]. by rewrite <- !app_assoc.
  - intros Hnonempty.
    destruct (Nat.eqb_spec (length clips) 0) as [Hlen | _].
    { destruct clips; [congruence | discriminate Hlen]. }
    set (ranked := Array_sort compareClips clips) in *.
    destruct (upsertRankings_run env start finish ranked 0 w2)
      as (k & Hj & Hdone & Hall).
    assert (Hlength : length ranked = length clips).
    { apply Permutation_length, Array_sort_Permutation. }
    destruct (upsertRankings env start finish ranked 0 w2) as [[[] | e] w3];
      cbn [fst snd] in *; subst out; cbn [fst snd].
    + split; [| reflexivity]. intros _.
      rewrite (newActions_app w _
                 ([Log LogInfo "Calculating weekly clip rankings" [];
                   ClipServiceGet "/clips/approved-for-rankings"]
                  ++ map WeeklyClipRankingUpsert (rowsFrom start finish ranked 0)
                  ++ [Log LogInfo "Weekly clip rankings calculated successfully" []])).
      * rewrite !rankingUpserts_app, rankingUpserts_map. simpl.
        rewrite app_nil_r.
        split; [by rewrite rowsFrom_ranks, Hlength |].
        split.
        -- rewrite rowsFrom_clips. apply Permutation_map, Array_sort_Permutation.
        -- intros ri rj. apply rowsFrom_ordered, Array_sort_sorted.
      * cbn [journal record]. rewrite Hj. subst w2 w1. cbn [journal record].
        rewrite take_ge by (rewrite rowsFrom_length; by apply Hdone).
        by rewrite <- !app_assoc.
    + split; [discriminate | intros Hup; discriminate (Hall Hup)].
Qed.

End RankingsClaims.

(* ===================================================================== *)
(** * Claims about the campaign cache handlers *)
(* ===================================================================== *)

Module EventHandlersClaims.

Import Runtime RuntimeFacts CacheService EventHandlers.

(** A payload without a title is as good as no payload: the status it
    carries is never read. *)
Lemma syncCampaignCache_without_title env campaignId status_ :
  syncCampaignCache env campaignId (Some {| title := None; status := status_ |})
  = syncCampaignCache env campaignId None.
Proof. reflexivity. Qed.

(** [syncCampaignCache] never throws. *)
Lemma syncCampaignCache_resolves env campaignId data w :
  (syncCampaignCache env campaignId data w).1 = Resolved tt.
Proof.
  unfold syncCampaignCache. rewrite try_catch_run.
  match goal with |- context [match ?body w with _ => _ end] =>
    destruct (body w) as [[[] | e] w'] end; reflexivity.
Qed.

(** X30. The handler of [campaign.status_changed] does not depend on the
    status the event carries, up to the debug line that quotes it: it
    resolves, it acknowledges, and whatever it writes to the campaign
    cache is the same for every [newStatus]. *)
Theorem onCampaignStatusChanged_ignores_newStatus
    (env : Env) (campaignId : string) (status1 status2 : string) (w : World) :
  let out1 := onCampaignStatusChanged env
                {| campaignId := campaignId; newStatus := status1 |} w in
  let out2 := onCampaignStatusChanged env
                {| campaignId := campaignId; newStatus := status2 |} w in
  out1.1 = Resolved tt /\ out2.1 = Resolved tt
  /\ last (journal out1.2) = Some Ack
  /\ campaignCache out1.2 = campaignCache out2.2.
Proof.
  intros out1 out2. subst out1 out2. unfold onCampaignStatusChanged.
  cbn [EventHandlers.campaignId newStatus].
  rewrite !syncCampaignCache_without_title, !bind_run.
  pose proof (syncCampaignCache_resolves env campaignId None w) as Hsync.
  destruct (syncCampaignCache env campaignId None w) as [[[] | e] w'];
    [| discriminate Hsync].
  rewrite !bind_run. unfold log, ack. cbn [fst snd journal record campaignCache].
  repeat split. by rewrite last_snoc.
Qed.

End EventHandlersClaims.

(* ===================================================================== *)
(** * Claims about [runBotDetection] *)
(* ===================================================================== *)

Module BotDetectionServiceClaims.

Import Runtime RuntimeFacts BotDetection BotDetectionFacts BotDetectionService.

Lemma filter_significant (fl : list BotFlag) :
  Forall (fun f => severity f = HIGH \/ severity f = MEDIUM) fl ->
  List.filter significant fl = fl.
Proof.
  induction 1 as [|f fl Hf _ IH]; simpl; [reflexivity |].
  unfold significant at 1. destruct Hf as [-> | ->]; by rewrite IH.
Qed.

(** The event [runBotDetection] builds from a result with a first flag. *)
Definition botDetectedEvent (clipId campaignId userId : string)
    (result : BotDetectionResult) (first : BotFlag) : Event :=
  BotDetected
    {| bd_clipId := clipId;
       bd_campaignId := campaignId;
       bd_userId := userId;
       bd_flagType := type first;
       bd_confidence := (confidenceScore result / 100)%float;
       bd_evidence := map (fun f => (type f, description f)) (flags result) |}
    "statistics-service".

(** C10. Every flag [detectAnomalies] emits has severity HIGH or MEDIUM
    (LOW is never produced), so the filter of [runBotDetection] on the
    significant severities keeps every flag.  And [runBotDetection]
    always resolves: with the result [detectAnomalies] returns on the
    history and the platform of the clip service's answer (no history
    being the empty one, no platform being YOUTUBE), handing an event to
    the publisher exactly when [hasAnomalies] of that result is true, the
    [stats.bot_detected] event of the first flag, with the score over 100
    and every flag in the evidence, an error of the publisher being logged
    and swallowed; and with the result without anomalies, after an error
    log line and without a publish, when the request to the clip service
    fails or [detectAnomalies] throws. *)
Theorem runBotDetection_publishes_iff_anomalies :
  (forall (getHours : string -> HourKey) history platform,
      match detectAnomalies getHours history platform with
      | Js.Returned r =>
          Forall (fun f => severity f = HIGH \/ severity f = MEDIUM) (flags r)
          /\ Forall (fun f => severity f <> LOW) (flags r)
          /\ List.filter significant (flags r) = flags r
      | Js.Thrown _ => 2 <= length history /\ inheritedKey platform = true
      end)
  /\ (forall (env : Env) (clipId : string) (w : World),
         let out := runBotDetection env clipId w in
         let asked := ClipServiceGet ("/clips/" +:+ clipId +:+ "/stats-history") in
         let failed error :=
           out.1 = Resolved noAnomalies
           /\ newActions w out.2
              = [asked; Log LogError "Error running bot detection" [clipId; error]] in
         match clipStatsHistory env w clipId with
         | Rejected error => failed error
         | Resolved clipData =>
             let history := default [] (r_history clipData) in
             let platform := CacheService.orString (r_platform clipData) "YOUTUBE" in
             let campaignId := CacheService.orString (r_campaignId clipData) "" in
             let userId := CacheService.orString (r_userId clipData) "" in
             match detectAnomalies (getHours env) history platform with
             | Js.Thrown error => failed error
             | Js.Returned result =>
                 out.1 = Resolved result
                 /\ ((exists event, In (Publish event) (newActions w out.2))
                     <-> hasAnomalies result = true)
                 /\ match flags result with
                    | [] => newActions w out.2 = [asked]
                    | first :: _ =>
                        exists publishError,
                          newActions w out.2
                          = [asked;
                             Publish (botDetectedEvent clipId campaignId userId
                                        result first)]
                            ++ publishError
                          /\ (publishError = []
                              \/ exists e,
                                   publishError
                                   = [Log LogError
                                        "Error publishing bot detected event" [e]])
                    end
             end
         end).
Proof.
  assert (Hsev : forall getHours history platform r,
             detectAnomalies getHours history platform = Js.Returned r ->
             Forall (fun f => severity f = HIGH \/ severity f = MEDIUM) (flags r)).
  { intros getHours history platform r Hr.
    eapply RuleShape_significant, detectAnomalies_shape, Hr. }
  split.
  - intros getHours history platform.
    destruct (detectAnomalies getHours history platform) as [r | error] eqn:Hcall;
      [| by eapply detectAnomalies_thrown].
    specialize (Hsev _ _ _ _ Hcall).
    split; [exact Hsev |]. split.
    + eapply Forall_impl; [exact Hsev |]. intros f [-> | ->]; discriminate.
    + by apply filter_significant.
  - intros env clipId w out asked failed.
    assert (Hout : out = runBotDetection env clipId w) by reflexivity.
    clearbody out. subst failed. unfold runBotDetection in Hout.
    rewrite try_catch_run, bind_run in Hout.
    set (w1 := record asked w) in Hout.
    destruct (clipStatsHistory env w clipId) as [clipData | error].
    + cbv zeta in Hout |- *. rewrite bind_run in Hout.
      destruct (detectAnomalies (getHours env) (default [] (r_history clipData))
                  (CacheService.orString (r_platform clipData) "YOUTUBE"))
        as [result | error] eqn:Hcall; cbn [call] in Hout.
      * unfold mret at 1, Async_ret, async_ret in Hout. cbv beta iota in Hout.
        rewrite bind_run in Hout.
        pose proof (detectAnomalies_derived _ _ _ _ Hcall) as [Hhas _].
        rewrite (filter_significant (flags result)) in Hout
          by (eapply Hsev, Hcall).
        destruct (hasAnomalies result) eqn:Hanomalies.
        -- destruct (flags result) as [|first rest] eqn:Hflags; [discriminate Hhas |].
           edestruct (swallow_publish env) as (wB & extra & HB & HjB & Hextra).
           rewrite HB in Hout.
           unfold mret, Async_ret, async_ret in Hout. cbv beta iota in Hout.
           subst out. cbn [fst snd].
           split; [reflexivity |].
           erewrite newActions_app; [| rewrite HjB; subst w1; cbn [journal record];
                                        by rewrite <- app_assoc].
           split.
           ++ split; [done |]. intros _. eexists. right. by left.
           ++ exists extra. split; [| exact Hextra].
              unfold botDetectedEvent, SERVICE_NAME. rewrite Hflags. reflexivity.
        -- destruct (flags result) as [|first rest] eqn:Hflags; [| discriminate Hhas].
           unfold mret, Async_ret, async_ret in Hout. cbv beta iota in Hout.
           subst out. cbn [fst snd].
           split; [reflexivity |].
           fold asked. fold w1.
           rewrite (newActions_app w w1 [asked]) by reflexivity.
           split; [| reflexivity].
           split; [| discriminate]. intros (event & [Hin | []]). discriminate Hin.
      * unfold throw in Hout. cbv beta iota in Hout. rewrite bind_run in Hout.
        unfold log, mret, Async_ret, async_ret in Hout. cbv beta iota in Hout.
        subst out. cbn [fst snd].
        split; [reflexivity |].
        apply newActions_app. subst w1. cbn [journal record]. by rewrite <- app_assoc.
    + rewrite bind_run in Hout.
      unfold log, mret, Async_ret, async_ret in Hout. cbv beta iota in Hout.
      subst out. cbn [fst snd].
      split; [reflexivity |].
      apply newActions_app. subst w1. cbn [journal record]. by rewrite <- app_assoc.
Qed.

End BotDetectionServiceClaims.

Module ScenarioClaims.

Import Runtime RuntimeFacts Scenarios.

(** C5 does not hold of the code.  The status of a cached campaign after
    [campaign.status_changed] with [newStatus = "PAUSED"] is still ACTIVE, both when no campaign
    service is configured (nothing is upserted at all) and when the
    campaign service answers with the old status (that one is written);
    the message is acknowledged in either case. *)
Theorem status_changed_keeps_old_status :
  let event := {| EventHandlers.campaignId := "c1";
                  EventHandlers.newStatus := "PAUSED" |} in
  let out1 := EventHandlers.onCampaignStatusChanged unconfiguredEnv event campaignWorld in
  let out2 := EventHandlers.onCampaignStatusChanged laggingEnv event campaignWorld in
  out1.1 = Resolved tt
  /\ cc_status <$> campaignCache out1.2 !! "c1" = Some "ACTIVE"
  /\ campaignCache out1.2 = campaignCache campaignWorld
  /\ newActions campaignWorld out1.2
     = [Log LogWarn "Campaign service URL not configured, skipping cache sync" [];
        Log LogDebug "Campaign status changed - cache synced" ["c1"; "PAUSED"];
        Ack]
  /\ out2.1 = Resolved tt
  /\ cc_status <$> campaignCache out2.2 !! "c1" = Some "ACTIVE"
  /\ last (journal out2.2) = Some Ack.
Proof.
  vm_compute. repeat split.
Qed.

(** Scenario 1 run through [getOrFetchStats]. *)
Lemma getOrFetchStats_cache_hit_witness :
  let out := StatsCollector.getOrFetchStats warmEnv "s1" "YOUTUBE" "abc" warmWorld in
  out.1 = Resolved cachedStats
  /\ Untouched warmWorld out.2
  /\ newActions warmWorld out.2
     = [RedisGet (StatsCollector.getCacheKey "YOUTUBE" "abc");
        Log LogDebug "Returning cached stats" ["s1"]]
  /\ forallb (fun a => negb (isPlatformCall a || isCacheWrite a || isPublish a))
       (newActions warmWorld out.2) = true.
Proof.
  apply (StatsCollectorClaims.getOrFetchStats_cache_hit warmEnv "s1" "YOUTUBE" "abc"
           warmWorld cachedEntry cachedStats).
  - reflexivity.
  - vm_compute. reflexivity.
  - reflexivity.
  - discriminate.
  - vm_compute. reflexivity.
Defined.

(** A ranking run over three clips, two of them tied on views. *)
Lemma calculateWeeklyClipRankings_ranks_witness :
  let out := RankingsService.calculateWeeklyClipRankings rankingEnv None emptyWorld in
  let rows := rankingUpserts (newActions emptyWorld out.2) in
  (approvedClips = [] ->
     out.1 = Resolved tt /\ rows = []
     /\ weeklyClipRanking out.2 = weeklyClipRanking emptyWorld)
  /\ (approvedClips <> [] ->
      (out.1 = Resolved tt ->
         map wr_rank rows = seq 1 (length approvedClips)
         /\ Permutation (map RankingsFacts.clipOfRow rows)
              (map RankingsFacts.clipOfData approvedClips)
         /\ forall ri rj, In ri rows -> In rj rows ->
              wr_rank ri <= wr_rank rj -> RankingsFacts.lexGeRow ri rj)
      /\ ((forall w', prismaUp rankingEnv w' = true) -> out.1 = Resolved tt)).
Proof.
  apply (RankingsClaims.calculateWeeklyClipRankings_ranks rankingEnv None emptyWorld
           (Some approvedClips)).
  reflexivity.
Defined.

(** Scenario 6, evaluated on the same run: the leader on views is
    first, and the tie on views is broken by engagement. *)
Example ranking_tie_break :
  let out := RankingsService.calculateWeeklyClipRankings rankingEnv None emptyWorld in
  out.1 = Resolved tt
  /\ map (fun row => (wr_submissionId row, wr_rank row))
       (rankingUpserts (newActions emptyWorld out.2))
     = [("top", 1); ("high", 2); ("low", 3)].
Proof. vm_compute. by split. Qed.

End ScenarioClaims.

(* ===================================================================== *)
(** * Invariants of the detection result *)
(* ===================================================================== *)

Module BotDetectionInvariants.

Import Js BotDetection BotDetectionFacts.
Local Open Scope float_scope.

(** The position of the rule that emits a flag type, in the order in which
    [detectAnomalies] runs its rules; 0 for a type no rule emits. *)
Definition ruleIndex (t : FlagType) : nat :=
  match t with
  | VIEWS_SPIKE => 1
  | LIKES_SPIKE => 2
  | COMMENTS_SPIKE => 3
  | ENGAGEMENT_RATIO => 4
  | ZERO_VARIANCE => 5
  | VELOCITY_ANOMALY => 6
  | RATIO_ANOMALY => 7
  | SUDDEN_STOP => 8
  | TIME_PATTERN => 9
  | SUSPICIOUS_PATTERN => 0
  end.

(** The shortest history on which a rule can emit its flag type. *)
Definition minHistory (t : FlagType) : nat :=
  match t with
  | VIEWS_SPIKE | LIKES_SPIKE | COMMENTS_SPIKE | ENGAGEMENT_RATIO => 2
  | VELOCITY_ANOMALY | RATIO_ANOMALY => 5
  | ZERO_VARIANCE => 6
  | SUDDEN_STOP => 12
  | TIME_PATTERN => 24
  | SUSPICIOUS_PATTERN => 0
  end.

(** [lo <= x && x <= hi] on JavaScript numbers. *)
Definition between (lo hi x : float) : bool :=
  PrimFloat.leb lo x && PrimFloat.leb x hi.

(** Nothing, or the one type [t]. *)
Definition slot (t : FlagType) (ts : list FlagType) : Prop :=
  ts = [] \/ ts = [t].

Lemma atMostOne_slot t allowed added :
  atMostOne allowed added ->
  Forall (fun k => k.1.1 = t) allowed ->
  slot t (map type added).
Proof.
  intros Hadded Hall.
  pose proof (atMostOne_Forall (fun k => k.1.1 = t) _ _ Hadded Hall) as Htypes.
  destruct Hadded as [-> | (f & -> & _)]; [by left | right].
  apply Forall_cons_1 in Htypes as [Ht _]. simpl in *. by rewrite Ht.
Qed.

Lemma StronglySorted_lt_NoDup {A} (f : A -> nat) (l : list A) :
  StronglySorted Nat.lt (map f l) -> NoDup l.
Proof.
  induction l as [|x l IH]; simpl; intros Hs; [constructor |].
  apply StronglySorted_inv in Hs as [Hs Hx].
  constructor; [| by apply IH].
  intros Hin. rewrite Forall_forall in Hx.
  specialize (Hx (f x)). assert (f x < f x)%nat; [| lia].
  apply Hx. apply list_elem_of_In. apply in_map. by apply list_elem_of_In.
Qed.

(** What holds of the types of every flag list, by slots. *)
Definition orderedTypes (ts : list FlagType) : Prop :=
  StronglySorted Nat.lt (map ruleIndex ts)
  /\ (length ts <= 9)%nat
  /\ Forall (fun t => t <> SUSPICIOUS_PATTERN) ts.

Lemma orderedTypes_table views likes comments engagement zeroVariance velocity
    ratio suddenStop timePattern :
  slot VIEWS_SPIKE views ->
  slot LIKES_SPIKE likes ->
  slot COMMENTS_SPIKE comments ->
  slot ENGAGEMENT_RATIO engagement ->
  slot ZERO_VARIANCE zeroVariance ->
  slot VELOCITY_ANOMALY velocity ->
  slot RATIO_ANOMALY ratio ->
  slot SUDDEN_STOP suddenStop ->
  slot TIME_PATTERN timePattern ->
  orderedTypes (views ++ likes ++ comments ++ engagement ++ zeroVariance
                ++ velocity ++ ratio ++ suddenStop ++ timePattern).
Proof.
  unfold slot, orderedTypes.
  intros [-> | ->] [-> | ->] [-> | ->] [-> | ->] [-> | ->] [-> | ->]
         [-> | ->] [-> | ->] [-> | ->]; simpl;
    (split; [repeat (constructor; simpl; try lia)
            | split; [lia | repeat (constructor; try discriminate)]]).
Qed.

Lemma RuleShape_orderedTypes fl : RuleShape fl -> orderedTypes (map type fl).
Proof.
  intros H. destruct H. rewrite !map_app.
  apply orderedTypes_table;
    (eapply atMostOne_slot; [eassumption |]);
    repeat first [apply Forall_nil_2 | apply Forall_cons_2]; reflexivity.
Qed.

(** The score of every combination of confidences the rules can emit lies
    between 65 and 95. *)
Lemma scoreBounds_table views likes comments engagement zeroVariance velocity
    ratio suddenStop timePattern :
  atMostOneOf [90; 70] views ->
  atMostOneOf [85; 65] likes ->
  atMostOneOf [88] comments ->
  atMostOneOf [92; 75] engagement ->
  atMostOneOf [95] zeroVariance ->
  atMostOneOf [85] velocity ->
  atMostOneOf [90; 75] ratio ->
  atMostOneOf [70] suddenStop ->
  atMostOneOf [70] timePattern ->
  let cs := views ++ likes ++ comments ++ engagement ++ zeroVariance
            ++ velocity ++ ratio ++ suddenStop ++ timePattern in
  cs = [] \/ between 65 95 (scoreOf cs) = true.
Proof.
  unfold atMostOneOf. simpl In.
  intros [-> | (? & -> & [<- | [<- | []]])]
         [-> | (? & -> & [<- | [<- | []]])]
         [-> | (? & -> & [<- | []])]
         [-> | (? & -> & [<- | [<- | []]])]
         [-> | (? & -> & [<- | []])]
         [-> | (? & -> & [<- | []])]
         [-> | (? & -> & [<- | [<- | []]])]
         [-> | (? & -> & [<- | []])]
         [-> | (? & -> & [<- | []])];
    first [ left; reflexivity | right; reflexivity ].
Qed.

Lemma RuleShape_scoreBounds fl :
  RuleShape fl ->
  map confidence fl = [] \/ between 65 95 (scoreOf (map confidence fl)) = true.
Proof.
  intros H. destruct H. rewrite !map_app.
  apply scoreBounds_table;
    match goal with
    | H : atMostOne ?k ?l |- atMostOneOf _ (map confidence ?l) =>
        exact (atMostOne_confidence k l H)
    end.
Qed.

Lemma RuleShape_confidences fl :
  RuleShape fl -> Forall (fun f => between 65 95 (confidence f) = true) fl.
Proof.
  intros H. destruct H.
  repeat (apply Forall_app; split).
  all: eapply (atMostOne_Forall (fun k => between 65 95 k.2 = true));
    [eassumption
    | repeat first [apply Forall_nil_2 | apply Forall_cons_2]; reflexivity].
Qed.

(** ** Gates on the length of the history *)

Lemma detectZeroVariance_length history f :
  detectZeroVariance history = Some f -> (6 <= length history)%nat.
Proof.
  unfold detectZeroVariance.
  destruct (length history <? 6)%nat eqn:Hlen; [discriminate |].
  intros _. apply Nat.ltb_ge in Hlen. exact Hlen.
Qed.

Lemma detectSuddenStop_length history f :
  detectSuddenStop history = Some f -> (12 <= length history)%nat.
Proof.
  unfold detectSuddenStop.
  destruct (length history <? 12)%nat eqn:Hlen; [discriminate |].
  intros _. apply Nat.ltb_ge in Hlen. exact Hlen.
Qed.

Lemma detectTimePattern_length getHours history f :
  detectTimePattern getHours history = Some f -> (24 <= length history)%nat.
Proof.
  unfold detectTimePattern.
  destruct (length history <? 24)%nat eqn:Hlen; [discriminate |].
  intros _. apply Nat.ltb_ge in Hlen. exact Hlen.
Qed.

Lemma Forall_option_list {A} (P : A -> Prop) (o : option A) :
  (forall a, o = Some a -> P a) -> Forall P (option_list o).
Proof.
  intros H. destruct o; simpl; [| constructor].
  constructor; [by apply H | constructor].
Qed.

(** A flag of the rules needs enough history. *)
Lemma ruleFlags_need_history getHours history latest previous thresholds platform :
  (2 <= length history)%nat ->
  Forall (fun f => (minHistory (type f) <= length history)%nat)
    (ruleFlags getHours history latest previous thresholds platform).
Proof.
  intros Hlen.
  unfold ruleFlags. repeat (apply Forall_app; split).
  - eapply (atMostOne_Forall (fun k => (minHistory k.1.1 <= length history)%nat));
      [apply viewsSpikeRule_kinds |].
    repeat first [apply Forall_nil_2 | apply Forall_cons_2]; exact Hlen.
  - eapply (atMostOne_Forall (fun k => (minHistory k.1.1 <= length history)%nat));
      [apply likesSpikeRule_kinds |].
    repeat first [apply Forall_nil_2 | apply Forall_cons_2]; exact Hlen.
  - eapply (atMostOne_Forall (fun k => (minHistory k.1.1 <= length history)%nat));
      [apply commentsSpikeRule_kinds |].
    repeat first [apply Forall_nil_2 | apply Forall_cons_2]; exact Hlen.
  - eapply (atMostOne_Forall (fun k => (minHistory k.1.1 <= length history)%nat));
      [apply engagementRatioRule_kinds |].
    repeat first [apply Forall_nil_2 | apply Forall_cons_2]; exact Hlen.
  - unfold advancedPatternRules.
    destruct (5 <=? length history)%nat eqn:Hfive; [| constructor].
    apply Nat.leb_le in Hfive.
    rewrite !pushIfFlag_app. simpl app.
    repeat (apply Forall_app; split); apply Forall_option_list; intros f Hf.
    + pose proof (detectZeroVariance_kind _ _ Hf) as [= -> _ _].
      by eapply detectZeroVariance_length.
    + pose proof (detectVelocityAnomaly_kind _ _ Hf) as [= -> _ _]. exact Hfive.
    + pose proof (detectRatioAnomaly_kind _ _ _ Hf) as Hk.
      assert (Ht : type f = RATIO_ANOMALY).
      { destruct Hk as [[= -> _ _] | [[= -> _ _] | []]]; reflexivity. }
      rewrite Ht. exact Hfive.
  - unfold suddenStopRule. case_match; [| constructor].
    rewrite pushIfFlag_app. simpl app. apply Forall_option_list. intros f Hf.
    pose proof (detectSuddenStop_kind _ _ Hf) as [= -> _ _].
    by eapply detectSuddenStop_length.
  - unfold timePatternRule. case_match; [| constructor].
    rewrite pushIfFlag_app. simpl app. apply Forall_option_list. intros f Hf.
    pose proof (detectTimePattern_kind _ _ _ Hf) as [= -> _ _].
    by eapply detectTimePattern_length.
Qed.

(** X1. The flags of every result come in the order of the rules with at
    most one flag per type: their types are strictly increasing in rule
    order, so no type occurs twice, there are at most nine flags, and the
    type [SUSPICIOUS_PATTERN] is never emitted.  The call returns a result
    unless the history has two entries or more and the platform is a
    property name of [Object.prototype]. *)
Theorem detectAnomalies_one_flag_per_rule
    (getHours : string -> HourKey) (history : list StatsHistoryEntry)
    (platform : string) :
  match detectAnomalies getHours history platform with
  | Returned r =>
      let fl := flags r in
      StronglySorted Nat.lt (map (fun f => ruleIndex (type f)) fl)
      /\ NoDup (map type fl)
      /\ (length fl <= 9)%nat
      /\ Forall (fun f => type f <> SUSPICIOUS_PATTERN) fl
  | Thrown _ => (2 <= length history)%nat /\ inheritedKey platform = true
  end.
Proof.
  destruct (detectAnomalies getHours history platform) as [r | error] eqn:Hcall;
    [| by eapply detectAnomalies_thrown].
  intros fl.
  destruct (RuleShape_orderedTypes fl (detectAnomalies_shape _ _ _ _ Hcall))
    as (Hsorted & Hlen & Hnever).
  repeat split.
  - by rewrite <- list_fmap_compose in Hsorted.
  - eapply StronglySorted_lt_NoDup. exact Hsorted.
  - rewrite length_map in Hlen. exact Hlen.
  - clear -Hnever. clearbody fl.
    induction fl as [|f fl IH]; [constructor |].
    apply Forall_cons_1 in Hnever as [Hf Hfl]. constructor; auto.
Qed.

(** X2. The confidence of every emitted flag lies between 65 and 95, and
    the confidence score of a result is 0 when there is no flag and lies
    between 65 and 95 when there is one: the cap [Math.min(100, ...)] is
    never reached.  The call returns a result unless the history has two
    entries or more and the platform is a property name of
    [Object.prototype]. *)
Theorem detectAnomalies_score_bounds
    (getHours : string -> HourKey) (history : list StatsHistoryEntry)
    (platform : string) :
  match detectAnomalies getHours history platform with
  | Returned r =>
      Forall (fun f => between 65 95 (confidence f) = true) (flags r)
      /\ (flags r = [] /\ confidenceScore r = 0
          \/ flags r <> [] /\ between 65 95 (confidenceScore r) = true)
  | Thrown _ => (2 <= length history)%nat /\ inheritedKey platform = true
  end.
Proof.
  destruct (detectAnomalies getHours history platform) as [r | error] eqn:Hcall;
    [| by eapply detectAnomalies_thrown].
  pose proof (detectAnomalies_shape getHours history platform r Hcall) as Hshape.
  destruct (detectAnomalies_derived getHours history platform r Hcall)
    as [_ Hscore].
  split; [by apply RuleShape_confidences |].
  rewrite Hscore, overallConfidence_scoreOf.
  destruct (RuleShape_scoreBounds _ Hshape) as [Hnil | Hin].
  - left. apply fmap_nil_inv in Hnil. rewrite Hnil. by split.
  - right. split; [| exact Hin].
    intros Hnil. rewrite Hnil in Hin. discriminate Hin.
Qed.

(** X3. A flag needs enough history: a spike or engagement flag two
    entries, a velocity or ratio flag five, a zero-variance flag six, a
    sudden-stop flag twelve and a time-pattern flag twenty-four.  The call
    returns a result unless the history has two entries or more and the
    platform is a property name of [Object.prototype]. *)
Theorem detectAnomalies_flags_need_history
    (getHours : string -> HourKey) (history : list StatsHistoryEntry)
    (platform : string) :
  match detectAnomalies getHours history platform with
  | Returned r =>
      Forall (fun f => (minHistory (type f) <= length history)%nat) (flags r)
  | Thrown _ => (2 <= length history)%nat /\ inheritedKey platform = true
  end.
Proof.
  destruct (detectAnomalies getHours history platform) as [r | error] eqn:Hcall;
    [| by eapply detectAnomalies_thrown].
  rewrite detectAnomalies_spec in Hcall.
  destruct history as [|latest [|previous rest]];
    [injection Hcall as <-; constructor | injection Hcall as <-; constructor |].
  destruct (inheritedKey platform); [discriminate Hcall |].
  injection Hcall as <-. unfold ruleResult. cbn [flags].
  apply ruleFlags_need_history. simpl. lia.
Qed.

(** X4. The platform matters through its thresholds only, and TWITTER
    has the thresholds of YOUTUBE.  For every platform string other than
    TIKTOK and INSTAGRAM that is no property name of [Object.prototype]
    (TWITTER, a misspelt or a lower-case name) the call does what it does
    for YOUTUBE.  For a property name of [Object.prototype] ([constructor],
    [toString], [__proto__] and the like) it does so on a history of fewer
    than two entries only, and throws a [TypeError] on every other
    history. *)
Theorem detectAnomalies_platform_fallback
    (getHours : string -> HourKey) (history : list StatsHistoryEntry)
    (platform : string) :
  platform <> "TIKTOK" -> platform <> "INSTAGRAM" ->
  detectAnomalies getHours history platform
  = if inheritedKey platform && (2 <=? length history)%nat
    then Thrown TYPE_ERROR
    else detectAnomalies getHours history "YOUTUBE".
Proof.
  intros Ht Hi. rewrite !detectAnomalies_spec.
  destruct history as [|latest [|previous rest]];
    [by rewrite andb_false_r | by rewrite andb_false_r |].
  change (inheritedKey "YOUTUBE") with false.
  destruct (inheritedKey platform); [reflexivity |].
  cbn [andb]. rewrite !thresholds_of_platform.
  destruct (String.eqb_spec platform "TIKTOK") as [? | _]; [contradiction |].
  destruct (String.eqb_spec platform "INSTAGRAM") as [? | _]; [contradiction |].
  cbn [String.eqb Ascii.eqb Bool.eqb].
  unfold ruleResult, ruleFlags, advancedPatternRules. reflexivity.
Qed.

Lemma detectAnomalies_platform_fallback_witness :
  detectAnomalies (fun _ => None) Scenarios.steadyQuarterGrowth "tiktok"
  = detectAnomalies (fun _ => None) Scenarios.steadyQuarterGrowth "YOUTUBE"
  /\ detectAnomalies (fun _ => None) Scenarios.steadyQuarterGrowth "toString"
     = Thrown TYPE_ERROR.
Proof.
  split.
  - exact (detectAnomalies_platform_fallback (fun _ => None)
             Scenarios.steadyQuarterGrowth "tiktok"
             ltac:(discriminate) ltac:(discriminate)).
  - exact (detectAnomalies_platform_fallback (fun _ => None)
             Scenarios.steadyQuarterGrowth "toString"
             ltac:(discriminate) ltac:(discriminate)).
Defined.

(** X5. With fewer than five entries only the two newest entries are
    looked at: the older ones do not change the result. *)
Theorem detectAnomalies_short_history_tail
    (getHours : string -> HourKey) (latest previous : StatsHistoryEntry)
    (older : list StatsHistoryEntry) (platform : string) :
  (length older < 3)%nat ->
  detectAnomalies getHours (latest :: previous :: older) platform
  = detectAnomalies getHours [latest; previous] platform.
Proof.
  intros Hlen.
  destruct older as [|a [|b [|c older]]]; simpl in Hlen; try lia; reflexivity.
Qed.

Lemma detectAnomalies_short_history_tail_witness :
  detectAnomalies (fun _ => None)
    (Scenarios.entry 5000 10 1 0 "t2" :: Scenarios.entry 100 5 1 0 "t1"
     :: [Scenarios.entry 7 7 7 7 "t0"]) "TIKTOK"
  = detectAnomalies (fun _ => None)
      [Scenarios.entry 5000 10 1 0 "t2"; Scenarios.entry 100 5 1 0 "t1"] "TIKTOK".
Proof.
  apply detectAnomalies_short_history_tail. simpl. lia.
Defined.

(** X6. Views that start from zero, on a platform whose lookup in the
    table of thresholds gives thresholds (every string but the property
    names of [Object.prototype], for which the call throws): when the
    previous entry has 0 views and the latest has more than twice the
    platform's [minViews], the growth rate is [+Infinity], the call
    returns, and the first flag is a VIEWS_SPIKE of severity HIGH with
    confidence 90. *)
Theorem detectAnomalies_views_from_zero
    (getHours : string -> HourKey) (latest previous : StatsHistoryEntry)
    (older : list StatsHistoryEntry) (platform : string)
    (thresholds : Thresholds) :
  thresholdsFor platform = ThresholdsOf thresholds ->
  strict_eq (views previous) 0 = true ->
  gt (views latest) 0 = true ->
  gt (views latest - views previous) (minViews thresholds * 2) = true ->
  exists r others,
    detectAnomalies getHours (latest :: previous :: older) platform = Returned r
    /\ flags r
       = {| type := VIEWS_SPIKE; severity := HIGH;
            description :=
              ViewsIncreased PrimFloat.infinity (views previous) (views latest);
            confidence := 90 |} :: others.
Proof.
  intros Hthresholds Hzero Hpos Hdelta.
  rewrite detectAnomalies_rules. cbv zeta. rewrite Hthresholds.
  destruct (ruleFlags_after_views getHours (latest :: previous :: older)
              latest previous thresholds platform) as (others & Hflags & _).
  eexists _, others. split; [reflexivity |].
  unfold ruleResult. cbn [flags]. rewrite Hflags.
  unfold viewsSpikeRule, calculateGrowthRate. rewrite Hzero, Hpos, Hdelta.
  assert (Hinf : gt PrimFloat.infinity (high (viewsSpike thresholds)) = true).
  { rewrite thresholdsFor_spec in Hthresholds.
    destruct (inheritedKey platform); [discriminate Hthresholds |].
    injection Hthresholds as <-. rewrite thresholds_of_platform.
    repeat case_match; reflexivity. }
  rewrite Hinf. reflexivity.
Qed.

Lemma detectAnomalies_views_from_zero_witness :
  exists r others,
    detectAnomalies (fun _ => None)
      [Scenarios.entry 1001 0 0 0 "t1"; Scenarios.entry 0 0 0 0 "t0"] "TIKTOK"
    = Returned r
    /\ flags r
       = {| type := VIEWS_SPIKE; severity := HIGH;
            description := ViewsIncreased PrimFloat.infinity 0 1001;
            confidence := 90 |} :: others.
Proof.
  apply (detectAnomalies_views_from_zero (fun _ => None)
           (Scenarios.entry 1001 0 0 0 "t1") (Scenarios.entry 0 0 0 0 "t0")
           [] "TIKTOK" TIKTOK); reflexivity.
Defined.

(** The zero-variance rule on a steady growth above 20: about 25 per
    step gives the one flag ZERO_VARIANCE, HIGH, 95. *)
Example steady_growth_is_flagged :
  detectAnomalies (fun _ => None) Scenarios.steadyQuarterGrowth "YOUTUBE"
  = Returned {| hasAnomalies := true;
                flags := [Scenarios.steadyQuarterGrowthFlag];
                confidenceScore := 95 |}.
Proof. vm_compute. reflexivity. Qed.

(** X7. The sudden-stop rule looks at the twelve newest entries only:
    whatever is older does not change its answer. *)
Theorem detectSuddenStop_newest_twelve
    (newest older : list StatsHistoryEntry) :
  length newest = 12%nat ->
  detectSuddenStop (newest ++ older) = detectSuddenStop newest.
Proof.
  intros Hlen. unfold detectSuddenStop.
  rewrite length_app, Hlen.
  change (12 <? 12)%nat with false.
  replace (12 + length older <? 12)%nat with false
    by (symmetry; apply Nat.ltb_ge; lia).
  rewrite take_app_le by lia.
  rewrite drop_app_le by lia.
  rewrite take_app_le by (rewrite length_drop; lia).
  reflexivity.
Qed.

Lemma detectSuddenStop_newest_twelve_witness :
  detectSuddenStop
    (map (fun v => Scenarios.entry v 0 0 0 "t")
       [9010; 9008; 9006; 9004; 9002; 9000; 8000; 7000; 6000; 5000; 4000; 3000]
     ++ [Scenarios.entry 1 0 0 0 "t"])
  = detectSuddenStop
      (map (fun v => Scenarios.entry v 0 0 0 "t")
         [9010; 9008; 9006; 9004; 9002; 9000; 8000; 7000; 6000; 5000; 4000; 3000]).
Proof.
  apply detectSuddenStop_newest_twelve. reflexivity.
Defined.

End BotDetectionInvariants.

(* ===================================================================== *)
(** * What the collector leaves in the stores *)
(* ===================================================================== *)

Module StoreFacts.

Import Runtime RuntimeFacts Platforms StatsCollector StatsCollectorFacts.

(** The entry [refreshClipStats] writes for [stats] at time [t]. *)
Definition cacheEntryOf (env : Env) (stats : PlatformStats) (t : N) : RedisEntry :=
  {| re_value := JSON_stringify env stats;
     re_expiresAt := (t + CACHE_TTL_SECONDS * 1000)%N |}.

(** The event [refreshClipStats] publishes for [stats]. *)
Definition statsUpdatedEvent (submissionId : string) (stats : PlatformStats)
  : Event :=
  StatsUpdated
    {| su_clipId := submissionId;
       su_views := views stats;
       su_likes := likes stats;
       su_comments := comments stats;
       su_shares := shares stats;
       su_engagement := engagementOf stats |}
    SERVICE_NAME.

Definition isAck (a : Action) : bool :=
  match a with Ack => true | _ => false end.

(** Everything but the outbox and the journal is as it was. *)
Definition OnlyPublishing (w w' : World) : Prop :=
  redis w' = redis w /\ campaignCache w' = campaignCache w
  /\ weeklyClipRanking w' = weeklyClipRanking w /\ now w' = now w.

Lemma cacheWrite_run env key seconds value message w :
  exists w',
    try_catch (redis_setex env key seconds value)
      (fun error => log LogError message [error]) w
    = (Resolved tt, w')
    /\ redis w'
       = (if redisUp env w
          then <[key := {| re_value := value;
                           re_expiresAt := (now w + seconds * 1000)%N |}]> (redis w)
          else redis w)
    /\ campaignCache w' = campaignCache w
    /\ weeklyClipRanking w' = weeklyClipRanking w
    /\ outbox w' = outbox w
    /\ now w' = now w.
Proof.
  rewrite try_catch_run. unfold redis_setex, log.
  destruct (redisUp env w); eexists; (split; [reflexivity |]); by repeat split.
Qed.

Lemma publish_run env event message w :
  exists w',
    try_catch (publish env event)
      (fun error => log LogError message [error]) w
    = (Resolved tt, w')
    /\ redis w' = redis w
    /\ campaignCache w' = campaignCache w
    /\ weeklyClipRanking w' = weeklyClipRanking w
    /\ outbox w' = (if publisherUp env w then outbox w ++ [event] else outbox w)
    /\ now w' = now w.
Proof.
  rewrite try_catch_run. unfold publish, log.
  destruct (publisherUp env w); eexists; (split; [reflexivity |]); by repeat split.
Qed.

(** The stores after the body of a refresh.  The cache and the broker are
    asked at some world of the run. *)
Lemma refreshBody_stores env submissionId platform videoId w :
  let out := refreshBody env submissionId platform videoId w in
  campaignCache out.2 = campaignCache w
  /\ weeklyClipRanking out.2 = weeklyClipRanking w
  /\ now out.2 = now w
  /\ match out.1 with
     | Rejected e =>
         (fetchPlatformStats env platform videoId w).1 = Rejected e
         /\ redis out.2 = redis w /\ outbox out.2 = outbox w
     | Resolved stats =>
         (fetchPlatformStats env platform videoId w).1 = Resolved stats
         /\ (exists asked,
               redis out.2
               = if redisUp env asked
                 then <[getCacheKey platform videoId
                        := cacheEntryOf env stats (now w)]> (redis w)
                 else redis w)
         /\ (exists asked,
               outbox out.2
               = if publisherUp env asked
                 then outbox w ++ [statsUpdatedEvent submissionId stats]
                 else outbox w)
     end.
Proof.
  intros out. subst out. unfold refreshBody. rewrite bind_run.
  pose proof (fetchPlatformStats_Fetching env platform videoId w)
    as [_ (Hr & Hc & Ht & Ho & Hn)].
  destruct (fetchPlatformStats env platform videoId w) as [[stats | error] w2];
    cbn [fst snd] in *; [| by repeat split].
  rewrite bind_run.
  destruct (cacheWrite_run env (getCacheKey platform videoId) CACHE_TTL_SECONDS
              (JSON_stringify env stats) "Error caching stats in Redis" w2)
    as (wA & -> & HrA & HcA & HtA & HoA & HnA).
  rewrite bind_run.
  destruct (publish_run env (statsUpdatedEvent submissionId stats)
              "Error publishing stats.updated event" wA)
    as (wB & HB & HrB & HcB & HtB & HoB & HnB).
  unfold statsUpdatedEvent in HB. rewrite HB.
  rewrite bind_run. unfold log, mret, Async_ret, async_ret.
  cbn [fst snd redis campaignCache weeklyClipRanking outbox now record].
  split; [congruence |]. split; [congruence |]. split; [congruence |].
  split; [reflexivity |]. split.
  - exists w2. rewrite HrB, HrA, Hr. unfold cacheEntryOf. by rewrite Hn.
  - exists wA. rewrite HoB, HoA, Ho. reflexivity.
Qed.

(** [getCachedStats] only reads. *)
Lemma getCachedStats_Untouched env platform videoId :
  Respects Untouched (getCachedStats env platform videoId).
Proof.
  intros w. unfold getCachedStats. rewrite try_catch_run, bind_run.
  unfold redis_get.
  destruct (redisUp env w); [| by repeat split].
  destruct (redis w !! getCacheKey platform videoId) as [entry |];
    [| by repeat split].
  destruct (now w <? re_expiresAt entry)%N; [| by repeat split].
  destruct (nonEmpty (re_value entry)); [| by repeat split].
  unfold settle. destruct (JSON_parse env (re_value entry)); by repeat split.
Qed.

(** A read of an absent or expired key is a miss. *)
Lemma getCachedStats_expired env platform videoId w :
  match redis w !! getCacheKey platform videoId with
  | Some entry => (re_expiresAt entry <= now w)%N
  | None => True
  end ->
  (getCachedStats env platform videoId w).1 = Resolved None.
Proof.
  intros Hgone. unfold getCachedStats. rewrite try_catch_run, bind_run.
  unfold redis_get.
  destruct (redisUp env w); [| reflexivity].
  destruct (redis w !! getCacheKey platform videoId) as [entry |]; [| reflexivity].
  destruct (N.ltb_spec (now w) (re_expiresAt entry)); [lia | reflexivity].
Qed.

End StoreFacts.

(* ===================================================================== *)
(** * Properties of the platform dispatcher *)
(* ===================================================================== *)

Module PlatformsProperties.

Import Runtime RuntimeFacts Platforms StatsCollector StatsCollectorFacts StoreFacts.

(** The cases of the [switch] in [fetchPlatformStats]. *)
Definition supportedPlatforms : list string :=
  ["YOUTUBE"; "TIKTOK"; "INSTAGRAM"; "TWITTER"].

Definition isSupported (platform : string) : bool :=
  bool_decide (platform ∈ supportedPlatforms).

Lemma fetchPlatformStats_unsupported env platform videoId w :
  isSupported platform = false ->
  fetchPlatformStats env platform videoId w
  = (Rejected ("Unsupported platform: " +:+ platform),
     record (Log LogError ("Error fetching stats for platform " +:+ platform)
               ["Unsupported platform: " +:+ platform]) w).
Proof.
  intros Hother. apply bool_decide_eq_false in Hother.
  unfold fetchPlatformStats.
  destruct (String.eqb_spec platform "YOUTUBE") as [-> | _];
    [exfalso; apply Hother; set_solver |].
  destruct (String.eqb_spec platform "TIKTOK") as [-> | _];
    [exfalso; apply Hother; set_solver |].
  destruct (String.eqb_spec platform "INSTAGRAM") as [-> | _];
    [exfalso; apply Hother; set_solver |].
  destruct (String.eqb_spec platform "TWITTER") as [-> | _];
    [exfalso; apply Hother; set_solver |].
  reflexivity.
Qed.

(** X8. The dispatcher calls an adapter at most once and only the one its
    [platform] argument names: for one of the four platform names there
    is exactly one adapter call, of that platform with the given video
    id; for every other string (the match is case-sensitive) no adapter
    is called at all.  The stores are never touched. *)
Theorem fetchPlatformStats_calls_named_adapter
    (env : Env) (platform videoId : string) (w : World) :
  let out := fetchPlatformStats env platform videoId w in
  List.filter isPlatformCall (newActions w out.2)
  = (if isSupported platform then [PlatformCall platform videoId] else [])
  /\ Untouched w out.2.
Proof.
  intros out. split; [| apply fetchPlatformStats_Fetching].
  subst out. destruct (isSupported platform) eqn:Hsupported.
  - apply bool_decide_eq_true in Hsupported.
    unfold supportedPlatforms in Hsupported.
    rewrite !elem_of_cons, elem_of_nil in Hsupported.
    unfold fetchPlatformStats, platformCall.
    destruct Hsupported as [-> | [-> | [-> | [-> | []]]]];
      cbn [String.eqb Ascii.eqb Bool.eqb]; cbv beta iota.
    + run_steps.
      destruct (getYouTubeStats env w videoId); run_steps;
        new_actions; reflexivity.
    + run_steps.
      destruct (getTikTokStats env w videoId); run_steps;
        new_actions; reflexivity.
    + run_steps.
      destruct (getInstagramStats env w videoId); run_steps;
        new_actions; reflexivity.
    + run_steps.
      destruct (getTwitterStats env w videoId) as [[stats |] | e]; run_steps;
        new_actions; reflexivity.
  - rewrite fetchPlatformStats_unsupported by exact Hsupported.
    cbn [snd]. new_actions. reflexivity.
Qed.

(** X9. How the dispatcher maps the answers of the adapters.  YouTube and
    TikTok are passed through, errors included.  Instagram never fails: an
    error of its adapter becomes the all-zero tuple.  A Twitter adapter
    that finds nothing ([null]) gives the all-zero tuple, and its errors
    are passed through. *)
Theorem fetchPlatformStats_answers
    (env : Env) (videoId : string) (w : World) :
  (fetchPlatformStats env "YOUTUBE" videoId w).1 = getYouTubeStats env w videoId
  /\ (fetchPlatformStats env "TIKTOK" videoId w).1 = getTikTokStats env w videoId
  /\ (fetchPlatformStats env "INSTAGRAM" videoId w).1
     = match getInstagramStats env w videoId with
       | Resolved stats => Resolved stats
       | Rejected _ => Resolved zeroStats
       end
  /\ (fetchPlatformStats env "TWITTER" videoId w).1
     = match getTwitterStats env w videoId with
       | Resolved (Some stats) => Resolved stats
       | Resolved None => Resolved zeroStats
       | Rejected e => Rejected e
       end.
Proof.
  unfold fetchPlatformStats, platformCall.
  cbn [String.eqb Ascii.eqb Bool.eqb]; cbv beta iota.
  run_steps.
  destruct (getYouTubeStats env w videoId), (getTikTokStats env w videoId),
    (getInstagramStats env w videoId),
    (getTwitterStats env w videoId) as [[stats |] | e];
    run_steps; repeat split.
Qed.

(** X10. A refresh for a platform the dispatcher does not know is
    rejected with [Unsupported platform: <platform>]; no adapter is
    called, nothing is cached and nothing is published. *)
Theorem refreshClipStats_unsupported_platform
    (env : Env) (submissionId platform videoId : string) (w : World) :
  isSupported platform = false ->
  let out := refreshClipStats env submissionId platform videoId w in
  out.1 = Rejected ("Unsupported platform: " +:+ platform)
  /\ Untouched w out.2
  /\ newActions w out.2
     = [Log LogInfo "Refreshing clip stats" [submissionId; platform; videoId];
        Log LogError ("Error fetching stats for platform " +:+ platform)
          ["Unsupported platform: " +:+ platform]].
Proof.
  intros Hother out. subst out.
  rewrite refreshClipStats_unfold. unfold refreshBody.
  rewrite bind_run, fetchPlatformStats_unsupported by exact Hother.
  cbn [fst snd]. split; [reflexivity |]. split; [by repeat split |].
  new_actions. reflexivity.
Qed.

Lemma refreshClipStats_unsupported_platform_witness :
  let out := refreshClipStats Scenarios.tiktokEnv "s1" "tiktok" "xyz"
               Scenarios.emptyWorld in
  out.1 = Rejected ("Unsupported platform: " +:+ "tiktok")
  /\ Untouched Scenarios.emptyWorld out.2
  /\ newActions Scenarios.emptyWorld out.2
     = [Log LogInfo "Refreshing clip stats" ["s1"; "tiktok"; "xyz"];
        Log LogError ("Error fetching stats for platform " +:+ "tiktok")
          ["Unsupported platform: " +:+ "tiktok"]].
Proof.
  apply (refreshClipStats_unsupported_platform Scenarios.tiktokEnv "s1" "tiktok"
           "xyz" Scenarios.emptyWorld).
  reflexivity.
Defined.



End PlatformsProperties.

(* ===================================================================== *)
(** * Properties of the stats collector *)
(* ===================================================================== *)

Module StatsCollectorProperties.

Import Runtime RuntimeFacts Platforms StatsCollector StatsCollectorFacts StoreFacts.
Import PlatformsProperties.

Import Stdlib.Strings.Ascii.

(** [s.includes(c)] for a character [c]. *)
Fixpoint hasChar (c : Ascii.ascii) (s : string) : bool :=
  match s with
  | EmptyString => false
  | String c' rest => Ascii.eqb c c' || hasChar c rest
  end.

Lemma colon_split (p p' v v' : string) :
  hasChar ":"%char p = false -> hasChar ":"%char p' = false ->
  p +:+ ":" +:+ v = p' +:+ ":" +:+ v' -> p = p' /\ v = v'.
Proof.
  revert p'. induction p as [|c p IH]; intros [|c' p'] Hp Hp' Heq;
    simpl in Hp, Hp'; cbv [String.append] in Heq.
  - split; [reflexivity | congruence].
  - injection Heq as <- _. discriminate Hp'.
  - injection Heq as -> _. discriminate Hp.
  - injection Heq as -> Heq.
    apply orb_false_elim in Hp as [_ Hp].
    apply orb_false_elim in Hp' as [_ Hp'].
    destruct (IH p' Hp Hp' Heq) as [-> ->]. by split.
Qed.

(** X12. The cache key tells clips apart: for platform names without a
    colon (the four platforms have none), clips that differ in platform
    or video id have different keys. *)
Theorem getCacheKey_injective (platform platform' videoId videoId' : string) :
  hasChar ":"%char platform = false ->
  hasChar ":"%char platform' = false ->
  (platform, videoId) <> (platform', videoId') ->
  getCacheKey platform videoId <> getCacheKey platform' videoId'.
Proof.
  intros Hp Hp' Hdiffer Hkey. apply Hdiffer. unfold getCacheKey in Hkey.
  destruct (colon_split platform platform' videoId videoId' Hp Hp') as [-> ->];
    [| reflexivity].
  simpl in Hkey. by injection Hkey.
Qed.

Lemma getCacheKey_injective_witness :
  getCacheKey "TIKTOK" "7301" <> getCacheKey "YOUTUBE" "7301".
Proof.
  apply (getCacheKey_injective "TIKTOK" "YOUTUBE" "7301" "7301");
    [reflexivity | reflexivity | discriminate].
Defined.

Lemma getCachedStats_resolves env platform videoId w :
  exists cached, (getCachedStats env platform videoId w).1 = Resolved cached.
Proof.
  unfold getCachedStats. rewrite try_catch_run.
  match goal with |- context [match ?body w with _ => _ end] =>
    destruct (body w) as [[cached | e] w'] end; by eexists.
Qed.

(** X13. [getCachedStats] never throws, and every failure is a miss.
    When Redis refuses the read, the call logs the error and resolves with
    [null]; when the key is absent, expired or holds the empty text, it
    resolves with [null]; when the text does not parse, it logs the error
    of [JSON.parse] and resolves with [null]; otherwise it resolves with
    what the text parses to.  All it issues is the one read of the key and
    the error line, and no store is changed. *)
Theorem getCachedStats_never_throws
    (env : Env) (platform videoId : string) (w : World) :
  let key := getCacheKey platform videoId in
  let out := getCachedStats env platform videoId w in
  let read := record (RedisGet key) w in
  let logged error :=
    record (Log LogError "Error reading stats from cache" [error]) read in
  out = (if redisUp env w then
           match redis w !! key with
           | Some entry =>
               if (now w <? re_expiresAt entry)%N && nonEmpty (re_value entry)
               then match JSON_parse env (re_value entry) with
                    | Resolved cached => (Resolved cached, read)
                    | Rejected error => (Resolved None, logged error)
                    end
               else (Resolved None, read)
           | None => (Resolved None, read)
           end
         else (Resolved None, logged "Redis connection error"))
  /\ (exists cached, out.1 = Resolved cached)
  /\ Untouched w out.2.
Proof.
  intros key out read logged.
  split; [| split; [apply getCachedStats_resolves | apply getCachedStats_Untouched]].
  subst out logged read key. unfold getCachedStats.
  rewrite try_catch_run, bind_run. unfold redis_get.
  destruct (redisUp env w); [| reflexivity].
  destruct (redis w !! getCacheKey platform videoId) as [entry |]; [| reflexivity].
  destruct (now w <? re_expiresAt entry)%N; [| reflexivity].
  cbn [andb]. destruct (nonEmpty (re_value entry)); [| reflexivity].
  unfold settle. by destruct (JSON_parse env (re_value entry)).
Qed.

(** X14. A round trip through the cache.  While Redis is up and the JSON
    text of a tuple parses back to the tuple, a refresh that resolved with
    [stats] has written their text under the key of the clip, at some
    time [written] of the refresh, to expire 3 600 000 ms later.  As long
    as the key holds this entry, [getCachedStats] returns the stats for
    the same platform and video id at every time before
    [written + 3 600 000 ms], and [getOrFetchStats] then returns them
    without asking the platform; from that time on the read is a miss. *)
Theorem refreshed_stats_are_cached_for_an_hour
    (env : Env) (submissionId platform videoId : string) (w later : World)
    (stats : PlatformStats) :
  (forall w', redisUp env w' = true) ->
  JSON_stringify env stats <> "" ->
  JSON_parse env (JSON_stringify env stats) = Resolved (Some stats) ->
  let out := refreshClipStats env submissionId platform videoId w in
  out.1 = Resolved stats ->
  redis later !! getCacheKey platform videoId
  = redis out.2 !! getCacheKey platform videoId ->
  exists written,
    (now w <= written <= now out.2)%N
    /\ redis out.2 !! getCacheKey platform videoId
       = Some {| re_value := JSON_stringify env stats;
                 re_expiresAt := (written + 3600 * 1000)%N |}
    /\ (getCachedStats env platform videoId later).1
       = Resolved (if (now later <? written + 3600000)%N then Some stats else None)
    /\ ((now later < written + 3600000)%N ->
        forall reader,
          let read := getOrFetchStats env reader platform videoId later in
          read.1 = Resolved stats
          /\ List.filter isPlatformCall (newActions later read.2) = []).
Proof.
  intros Hup Htext Hparse out Hout Hlater.
  assert (Hentry : now out.2 = now w
            /\ redis out.2 !! getCacheKey platform videoId
               = Some (cacheEntryOf env stats (now w))).
  { subst out. rewrite refreshClipStats_unfold in Hout |- *.
    set (w1 := record _ w) in *.
    destruct (refreshBody_stores env submissionId platform videoId w1)
      as (_ & _ & Hnow & Hstores).
    rewrite Hout in Hstores. destruct Hstores as (_ & (asked & Hredis) & _).
    split; [exact Hnow |].
    rewrite Hredis, Hup. apply lookup_insert_eq. }
  destruct Hentry as [Hnow Hentry]. rewrite Hentry in Hlater.
  exists (now w).
  split; [rewrite Hnow; lia |]. split; [exact Hentry |].
  assert (Hexpires : re_expiresAt (cacheEntryOf env stats (now w))
                     = (now w + 3600000)%N) by reflexivity.
  destruct (N.ltb_spec (now later) (now w + 3600000)) as [Hfresh | Hstale].
  - assert (Hhit := getCachedStats_hit env platform videoId later
                      (cacheEntryOf env stats (now w)) stats
                      (Hup later) Hlater).
    rewrite Hexpires in Hhit. specialize (Hhit Hfresh Htext Hparse).
    split; [by rewrite Hhit |].
    intros _ reader read. subst read.
    unfold getOrFetchStats. rewrite bind_run, Hhit. run_steps. cbn [fst snd].
    split; [reflexivity |]. new_actions. reflexivity.
  - split; [| intros; lia].
    apply getCachedStats_expired. rewrite Hlater, Hexpires. exact Hstale.
Qed.

Lemma refreshed_stats_are_cached_for_an_hour_witness :
  let out := refreshClipStats Scenarios.roundTripEnv "s1" "TIKTOK" "xyz" Scenarios.emptyWorld in
  exists written,
    (now Scenarios.emptyWorld <= written <= now out.2)%N
    /\ redis out.2 !! getCacheKey "TIKTOK" "xyz"
       = Some {| re_value := JSON_stringify Scenarios.roundTripEnv Scenarios.freshStats;
                 re_expiresAt := (written + 3600 * 1000)%N |}
    /\ (getCachedStats Scenarios.roundTripEnv "TIKTOK" "xyz" out.2).1
       = Resolved (if (now out.2 <? written + 3600000)%N
                   then Some Scenarios.freshStats else None)
    /\ ((now out.2 < written + 3600000)%N ->
        forall reader,
          let read := getOrFetchStats Scenarios.roundTripEnv reader "TIKTOK" "xyz" out.2 in
          read.1 = Resolved Scenarios.freshStats
          /\ List.filter isPlatformCall (newActions out.2 read.2) = []).
Proof.
  intros out.
  apply (refreshed_stats_are_cached_for_an_hour Scenarios.roundTripEnv "s1" "TIKTOK" "xyz"
           Scenarios.emptyWorld out.2 Scenarios.freshStats).
  - reflexivity.
  - discriminate.
  - reflexivity.
  - reflexivity.
  - reflexivity.
Defined.

(** X15. [getOrFetchStats] fails for no other reason than the platform
    fetch: a Redis outage, an unreadable cache entry, a failed cache write
    or a failed publish never reject it.  When it is rejected, the error
    is the one the dispatcher threw. *)
Theorem getOrFetchStats_fails_only_with_platform
    (env : Env) (submissionId platform videoId : string) (w : World)
    (error : JsError) :
  (getOrFetchStats env submissionId platform videoId w).1 = Rejected error ->
  exists asked,
    (fetchPlatformStats env platform videoId asked).1 = Rejected error.
Proof.
  unfold getOrFetchStats. rewrite bind_run.
  destruct (getCachedStats_resolves env platform videoId w) as [cached Hcached].
  destruct (getCachedStats env platform videoId w) as [[[stats |] | e] w1];
    cbn [fst] in Hcached; [| | discriminate Hcached].
  - run_steps. discriminate.
  - rewrite refreshClipStats_unfold. set (w2 := record _ w1).
    intros Hout.
    destruct (refreshBody_stores env submissionId platform videoId w2)
      as (_ & _ & _ & Hstores).
    rewrite Hout in Hstores. destruct Hstores as (Hfetch & _).
    by exists w2.
Qed.

Lemma getOrFetchStats_fails_only_with_platform_witness :
  exists asked,
    (fetchPlatformStats Scenarios.tiktokEnv "TIKTOK" "broken" asked).1
    = Rejected "TikTok stats failed: timeout".
Proof.
  apply (getOrFetchStats_fails_only_with_platform Scenarios.tiktokEnv "s2"
           "TIKTOK" "broken" Scenarios.emptyWorld).
  reflexivity.
Defined.

(** The outbox over a batch: one event per clip at most, and none for a
    clip that failed. *)
Lemma batchLoop_outbox env clips :
  forall s0 f0 w,
    let out := batchLoop env clips s0 f0 w in
    exists result published,
      out.1 = Resolved result
      /\ outbox out.2 = outbox w ++ published
      /\ s0 + length published <= successCount result
      /\ ((forall w', publisherUp env w' = true) ->
          s0 + length published = successCount result)
      /\ campaignCache out.2 = campaignCache w
      /\ weeklyClipRanking out.2 = weeklyClipRanking w.
Proof.
  induction clips as [|clip rest IH]; intros s0 f0 w out; subst out.
  - exists {| successCount := s0; failCount := f0 |}, [].
    cbn [batchLoop]. run_steps. cbn [fst snd successCount length].
    rewrite app_nil_r. repeat split; lia.
  - cbn [batchLoop]. rewrite bind_run, try_catch_run, bind_run.
    rewrite refreshClipStats_unfold. set (w1 := record _ w).
    destruct (refreshBody_stores env (id clip) (platform clip) (videoId clip) w1)
      as (Hc & Ht & _ & Hstores).
    destruct (refreshBody env (id clip) (platform clip) (videoId clip) w1)
      as [[stats | error] w2]; cbn [fst snd] in Hc, Ht, Hstores.
    + destruct Hstores as (_ & _ & (asked & Hbox)).
      run_steps. unfold sleep. cbv beta iota. cbn [fst snd].
      match goal with |- context [batchLoop env rest ?s ?f ?w3] =>
        destruct (IH s f w3) as (result & published & Hrun & Hout & Hle & Heq & Hc' & Ht')
      end.
      cbn [outbox campaignCache weeklyClipRanking set_now record] in Hout, Hc', Ht'.
      exists result.
      destruct (publisherUp env asked) eqn:Hasked.
      * exists (statsUpdatedEvent (id clip) stats :: published).
        split; [exact Hrun |]. rewrite Hout, Hbox, <- app_assoc.
        split; [reflexivity |]. cbn [length].
        split; [lia |]. split; [intros Hall; specialize (Heq Hall); lia |].
        split; [rewrite Hc', Hc | rewrite Ht', Ht]; reflexivity.
      * exists published.
        split; [exact Hrun |]. rewrite Hout, Hbox.
        split; [reflexivity |].
        split; [lia |].
        split; [intros Hall; rewrite Hall in Hasked; discriminate |].
        split; [rewrite Hc', Hc | rewrite Ht', Ht]; reflexivity.
    + destruct Hstores as (_ & _ & Hbox).
      run_steps. unfold sleep. cbv beta iota. cbn [fst snd].
      match goal with |- context [batchLoop env rest ?s ?f ?w3] =>
        destruct (IH s f w3) as (result & published & Hrun & Hout & Hle & Heq & Hc' & Ht')
      end.
      cbn [outbox campaignCache weeklyClipRanking set_now record] in Hout, Hc', Ht'.
      exists result, published.
      split; [exact Hrun |]. rewrite Hout, Hbox.
      split; [reflexivity |]. split; [exact Hle |]. split; [exact Heq |].
      split; [rewrite Hc', Hc | rewrite Ht', Ht]; reflexivity.
Qed.

(** X16. A batch publishes no more than it refreshed: the outbox grows
    by at most [successCount] events (a clip counted as failed adds none),
    and by exactly [successCount] when the broker accepts every publish.
    The campaign cache and the ranking table are not touched. *)
Theorem batchRefreshStats_publishes_per_success
    (env : Env) (clips : list ClipRef) (w : World) :
  let out := batchRefreshStats env clips w in
  exists result published,
    out.1 = Resolved result
    /\ outbox out.2 = outbox w ++ published
    /\ length published <= successCount result
    /\ ((forall w', publisherUp env w' = true) ->
        length published = successCount result)
    /\ campaignCache out.2 = campaignCache w
    /\ weeklyClipRanking out.2 = weeklyClipRanking w.
Proof.
  intros out. subst out. unfold batchRefreshStats. rewrite bind_run.
  destruct (batchLoop_outbox env clips 0 0 w)
    as (result & published & Hrun & Hout & Hle & Heq & Hc & Ht).
  destruct (batchLoop env clips 0 0 w) as [[result' | e] w1];
    cbn [fst snd] in *; [| discriminate Hrun].
  injection Hrun as ->. run_steps. cbn [fst snd outbox campaignCache
    weeklyClipRanking record].
  exists result, published. repeat split; try done.
Qed.

End StatsCollectorProperties.

(* ===================================================================== *)
(** * Properties of the event handlers and of the campaign cache *)
(* ===================================================================== *)

Module HandlerFacts.

Import Runtime RuntimeFacts Platforms StatsCollector CacheService.
Import StoreFacts PlatformsProperties.

Definition notAck (a : Action) : bool := negb (isAck a).

Section Emitting.

Context (P : Action -> bool).

Lemma Emitting_log level message fields :
  P (Log level message fields) = true ->
  Respects (Emitting P) (log level message fields).
Proof. intros H w. by apply Emitting_record. Qed.

Lemma Emitting_currentTime : Respects (Emitting P) currentTime.
Proof. intros w. reflexivity. Qed.




Lemma Emitting_campaignCache_upsert env id update create :
  P (CampaignCacheUpsert id update create) = true ->
  Respects (Emitting P) (campaignCache_upsert env id update create).
Proof.
  intros H w. unfold campaignCache_upsert.
  destruct (prismaUp env w); exists [CampaignCacheUpsert id update create];
    simpl; by rewrite H.
Qed.

End Emitting.


(** Neither does a sync of the campaign cache. *)
Lemma syncCampaignCache_notAck env campaignId data :
  Respects (Emitting notAck) (syncCampaignCache env campaignId data).
Proof.
  unfold syncCampaignCache. apply Respects_try_catch; [apply _ | |].
  - destruct (truthyTitle data) as [[d t] |].
    + respects_steps; [apply Emitting_currentTime |].
      by apply Emitting_campaignCache_upsert.
    + destruct (campaignClient env) as [client |];
        [| by apply Emitting_log].
      apply Respects_bind; [apply _ | | intros campaign].
      { intros w. by apply Emitting_record. }
      respects_steps; [apply Emitting_currentTime |].
      by apply Emitting_campaignCache_upsert.
  - intros e. by apply Emitting_log.
Qed.

Lemma syncCampaignCache_never_throws env campaignId data w :
  (syncCampaignCache env campaignId data w).1 = Resolved tt.
Proof.
  unfold syncCampaignCache. rewrite try_catch_run.
  match goal with |- context [match ?body w with _ => _ end] =>
    destruct (body w) as [[[] | e] w'] end; reflexivity.
Qed.

(** Unfolds the combinators of [Async] at the head of a goal. *)
Ltac expose :=
  unfold mbind, Async_bind, async_bind, try_catch, mret, Async_ret, async_ret,
    throw, log, ack, settle, currentTime;
  cbv beta iota zeta.

(** A run that ends with its one acknowledgement. *)
Definition AckedLast (w w' : World) : Prop :=
  exists before,
    newActions w w' = before ++ [Ack] /\ forallb notAck before = true.

Lemma AckedLast_intro w w1 before :
  journal w1 = journal w ++ before ->
  forallb notAck before = true ->
  AckedLast w (record Ack w1).
Proof.
  intros Hj Hbefore. exists before. split; [| exact Hbefore].
  apply newActions_app. cbn [journal record]. by rewrite Hj, <- app_assoc.
Qed.

End HandlerFacts.

Module HandlerProperties.

Import Runtime RuntimeFacts Platforms StatsCollector CacheService EventHandlers.
Import CampaignLookup ClipService ClipHandlers.
Import StoreFacts PlatformsProperties HandlerFacts.


(** X18. The campaign handlers always acknowledge: [syncCampaignCache]
    swallows every error, so the handlers of [campaign.created] and
    [campaign.status_changed] resolve and acknowledge, once and last,
    whether or not the campaign service and the database answered. *)
Theorem campaign_handlers_always_ack (env : Env) (w : World) :
  (forall payload : CampaignCreated,
     let out := onCampaignCreated env payload w in
     out.1 = Resolved tt /\ AckedLast w out.2)
  /\ (forall payload : CampaignStatusChanged,
        let out := onCampaignStatusChanged env payload w in
        out.1 = Resolved tt /\ AckedLast w out.2).
Proof.
  split; intros payload out; subst out.
  - unfold onCampaignCreated. rewrite bind_run.
    match goal with |- context [syncCampaignCache env ?i ?d w] =>
      pose proof (syncCampaignCache_never_throws env i d w) as Hsync;
      destruct (syncCampaignCache_notAck env i d w) as (body & Hj & Hbody);
      destruct (syncCampaignCache env i d w) as [[[] | e] w1];
        [| discriminate Hsync]
    end.
    cbn [fst snd] in Hj. run_steps; unfold ack; cbn [fst snd]; cbv beta iota.
    split; [reflexivity |].
    eapply AckedLast_intro;
      [cbn [journal record]; rewrite Hj, <- app_assoc; reflexivity |].
    rewrite forallb_app, Hbody. reflexivity.
  - unfold onCampaignStatusChanged. rewrite bind_run.
    match goal with |- context [syncCampaignCache env ?i ?d w] =>
      pose proof (syncCampaignCache_never_throws env i d w) as Hsync;
      destruct (syncCampaignCache_notAck env i d w) as (body & Hj & Hbody);
      destruct (syncCampaignCache env i d w) as [[[] | e] w1];
        [| discriminate Hsync]
    end.
    cbn [fst snd] in Hj. run_steps; unfold ack; cbn [fst snd]; cbv beta iota.
    split; [reflexivity |].
    eapply AckedLast_intro;
      [cbn [journal record]; rewrite Hj, <- app_assoc; reflexivity |].
    rewrite forallb_app, Hbody. reflexivity.
Qed.

(** X19. [campaign.created] with a title is cached from the event alone:
    when the database accepts the write, the row of the campaign has the
    title of the event, status ACTIVE (also when the campaign was cached
    before with another status) and the current time as [syncedAt]; the
    rows of other campaigns are as they were, and the campaign service is
    not asked. *)
Theorem onCampaignCreated_caches_event
    (env : Env) (campaignId title_ : string) (w : World) :
  title_ <> "" ->
  prismaUp env w = true ->
  let out := onCampaignCreated env
               {| created_campaignId := campaignId;
                  created_title := Some title_ |} w in
  (exists row,
      campaignCache out.2 !! campaignId = Some row
      /\ cc_title row = title_ /\ cc_status row = "ACTIVE"
      /\ cc_syncedAt row = now w)
  /\ (forall other, other <> campaignId ->
        campaignCache out.2 !! other = campaignCache w !! other)
  /\ forallb (fun a => match a with CampaignServiceGet _ => false | _ => true end)
       (newActions w out.2) = true.
Proof.
  intros Htitle Hup out. subst out.
  unfold onCampaignCreated, syncCampaignCache, truthyTitle.
  cbn [created_campaignId created_title title status].
  destruct (String.eqb_spec title_ "") as [? | _]; [contradiction |].
  run_steps. unfold currentTime. run_steps.
  unfold campaignCache_upsert. rewrite Hup. run_steps. unfold ack.
  cbn [fst snd campaignCache set_campaignCache record].
  split; [| split].
  - eexists. split; [apply lookup_insert_eq |].
    destruct (campaignCache w !! campaignId); by repeat split.
  - intros other Hother. by apply lookup_insert_ne.
  - new_actions. reflexivity.
Qed.

Lemma onCampaignCreated_caches_event_witness :
  let out := onCampaignCreated Scenarios.unconfiguredEnv
               {| created_campaignId := "c1"; created_title := Some "Summer" |}
               Scenarios.campaignWorld in
  (exists row,
      campaignCache out.2 !! "c1" = Some row
      /\ cc_title row = "Summer" /\ cc_status row = "ACTIVE"
      /\ cc_syncedAt row = now Scenarios.campaignWorld)
  /\ (forall other, other <> "c1" ->
        campaignCache out.2 !! other = campaignCache Scenarios.campaignWorld !! other)
  /\ forallb (fun a => match a with CampaignServiceGet _ => false | _ => true end)
       (newActions Scenarios.campaignWorld out.2) = true.
Proof.
  apply (onCampaignCreated_caches_event Scenarios.unconfiguredEnv "c1" "Summer"
           Scenarios.campaignWorld).
  - discriminate.
  - reflexivity.
Defined.

(** X20. A cached campaign younger than five minutes is served from the
    table: [getCampaignFromCache] resolves with the row and does nothing
    else (no request to the campaign service, no write). *)
Theorem getCampaignFromCache_fresh
    (env : Env) (campaignId : string) (w : World) (row : CampaignCacheRow) :
  prismaUp env w = true ->
  campaignCache w !! campaignId = Some row ->
  (Z.of_N (now w) - Z.of_N (cc_syncedAt row) < 300000)%Z ->
  getCampaignFromCache env campaignId w = (Resolved (Some row), w).
Proof.
  intros Hup Hrow Hfresh. unfold getCampaignFromCache.
  rewrite bind_run. unfold campaignCache_findUnique at 1. rewrite Hup, Hrow.
  rewrite bind_run. unfold isRecent. rewrite bind_run.
  unfold currentTime. run_steps.
  destruct (Z.ltb_spec (Z.of_N (now w) - Z.of_N (cc_syncedAt row))
              (Z.of_N CACHE_TTL_MS)) as [_ | Hstale]; [reflexivity |].
  change (Z.of_N CACHE_TTL_MS) with 300000%Z in Hstale. lia.
Qed.

Lemma getCampaignFromCache_fresh_witness :
  getCampaignFromCache Scenarios.unconfiguredEnv "c1" Scenarios.campaignWorld
  = (Resolved (Some Scenarios.springCampaign), Scenarios.campaignWorld).
Proof.
  apply getCampaignFromCache_fresh; [reflexivity | reflexivity |].
  simpl. lia.
Defined.

(** X21. A missing row or one of five minutes or older is synced first.
    While the database answers: when the campaign service answers, the
    caller gets a row with the service's title and status, synced now;
    when no campaign service is configured or its request fails, the
    caller silently gets what the table held, the stale row included. *)
Theorem getCampaignFromCache_stale
    (env : Env) (campaignId : string) (w : World) :
  (forall w', prismaUp env w' = true) ->
  match campaignCache w !! campaignId with
  | Some row => (300000 <= Z.of_N (now w) - Z.of_N (cc_syncedAt row))%Z
  | None => True
  end ->
  let out := getCampaignFromCache env campaignId w in
  match campaignClient env with
  | None =>
      out.1 = Resolved (campaignCache w !! campaignId)
      /\ campaignCache out.2 = campaignCache w
  | Some client =>
      match client w campaignId with
      | Resolved campaign =>
          exists row,
            out.1 = Resolved (Some row)
            /\ cc_title row = campaign_title campaign
            /\ cc_status row = campaign_status campaign
            /\ cc_syncedAt row = now w
      | Rejected _ =>
          out.1 = Resolved (campaignCache w !! campaignId)
          /\ campaignCache out.2 = campaignCache w
      end
  end.
Proof.
  intros Hup Hstale out. subst out.
  unfold getCampaignFromCache, syncCampaignCache, campaignCache_findUnique,
    isRecent, campaignCache_upsert.
  cbn [truthyTitle]. expose. rewrite Hup. cbv beta iota.
  destruct (campaignCache w !! campaignId) as [row |] eqn:Hrow; cbv beta iota.
  1: destruct (Z.ltb_spec (Z.of_N (now w) - Z.of_N (cc_syncedAt row))
                 (Z.of_N CACHE_TTL_MS)) as [Hfresh | _];
       [change (Z.of_N CACHE_TTL_MS) with 300000%Z in Hfresh; lia |];
       cbv beta iota.
  all: destruct (campaignClient env) as [client |]; cbv beta iota;
    [destruct (client w campaignId) as [campaign | error]; cbv beta iota |];
    rewrite !Hup; cbv beta iota;
    cbn [fst snd campaignCache set_campaignCache record now];
    rewrite ?Hrow; try (by split).
  all: rewrite lookup_insert_eq; eexists; (split; [reflexivity |]);
    by repeat split.
Qed.

Lemma getCampaignFromCache_stale_witness :
  let w := set_now 400000 Scenarios.campaignWorld in
  let out := getCampaignFromCache Scenarios.laggingEnv "c1" w in
  match campaignClient Scenarios.laggingEnv with
  | None =>
      out.1 = Resolved (campaignCache w !! "c1")
      /\ campaignCache out.2 = campaignCache w
  | Some client =>
      match client w "c1" with
      | Resolved campaign =>
          exists row,
            out.1 = Resolved (Some row)
            /\ cc_title row = campaign_title campaign
            /\ cc_status row = campaign_status campaign
            /\ cc_syncedAt row = now w
      | Rejected _ =>
          out.1 = Resolved (campaignCache w !! "c1")
          /\ campaignCache out.2 = campaignCache w
      end
  end.
Proof.
  intros w.
  apply (getCampaignFromCache_stale Scenarios.laggingEnv "c1" w).
  - reflexivity.
  - vm_compute. discriminate.
Defined.

End HandlerProperties.

(* ===================================================================== *)
(** * Properties of the hourly job and of the stats routes *)
(* ===================================================================== *)

Module CallerProperties.

Import Runtime RuntimeFacts Platforms StatsCollector StatsCollectorFacts.
Import ClipService Scheduler StatsRoutes.
Import StoreFacts PlatformsProperties HandlerFacts.

Lemma batchRefreshStats_run env clips w :
  exists result w' actions,
    batchRefreshStats env clips w = (Resolved result, w')
    /\ successCount result + failCount result = length clips
    /\ journal w' = journal w ++ actions
    /\ length (List.filter isTimeout actions) = length clips
    /\ now w' = (now w + 100 * N.of_nat (length clips))%N.
Proof.
  destruct (StatsCollectorClaims.batchLoop_paced env clips 0 0 w)
    as (s & f & actions & w1 & Hrun & HP & Hj & Hnow).
  destruct (StatsCollectorClaims.Paced_counts _ _ _ _ HP) as (Hsum & Htimeouts & _).
  exists {| successCount := s; failCount := f |},
    (record (Log LogInfo "Batch stats refresh completed" []) w1),
    (actions ++ [Log LogInfo "Batch stats refresh completed" []]).
  split; [| split; [exact Hsum | split; [| split; [| exact Hnow]]]].
  - unfold batchRefreshStats. expose. by rewrite Hrun.
  - cbn [journal record]. by rewrite Hj, <- app_assoc.
  - rewrite List.filter_app, length_app, Htimeouts. simpl. lia.
Qed.

Lemma runBotDetection_resolves env clipId w :
  exists result, (BotDetectionService.runBotDetection env clipId w).1 = Resolved result.
Proof.
  unfold BotDetectionService.runBotDetection. rewrite try_catch_run.
  match goal with |- context [match ?body w with _ => _ end] =>
    destruct (body w) as [[result | e] w'] end; by eexists.
Qed.

(** X22. The hourly job never throws.  When the clip service answers
    with a list of clips, every clip of the list is given its turn: the
    run takes one 100 ms timeout per clip, whatever the refreshes do, and
    with an empty or missing list nothing is touched.  When the clip
    service fails, the job logs the error and does nothing else. *)
Theorem hourlyStatsRefresh_never_throws
    (env : Env) (needsRefresh : World -> Settled (option (list ClipRef)))
    (w : World) :
  let out := hourlyStatsRefresh env needsRefresh w in
  let started := Log LogInfo "Running hourly stats refresh..." [] in
  out.1 = Resolved tt
  /\ match needsRefresh (record started w) with
     | Resolved response =>
         let clips := default [] response in
         now out.2 = (now w + 100 * N.of_nat (length clips))%N
         /\ length (List.filter isTimeout (newActions w out.2)) = length clips
         /\ (clips = [] -> Untouched w out.2)
     | Rejected error =>
         Untouched w out.2
         /\ newActions w out.2
            = [started; ClipServiceGet "/clips/needs-refresh";
               Log LogError "Error in hourly stats refresh" [error]]
     end.
Proof.
  intros out started. subst out. unfold hourlyStatsRefresh. expose. fold started.
  set (asked := ClipServiceGet "/clips/needs-refresh").
  destruct (needsRefresh (record started w)) as [response | error];
    cbv beta iota.
  - destruct (default [] response) as [|clip rest] eqn:Hclips.
    + cbn [length Nat.ltb Nat.leb fst snd]. cbv beta iota. cbn [fst snd].
      split; [reflexivity |]. split; [cbn; lia |].
      split; [| by repeat split].
      new_actions. reflexivity.
    + rewrite <- Hclips.
      assert (Hsome : (0 <? length (default [] response))%nat = true).
      { rewrite Hclips. reflexivity. }
      rewrite Hsome.
      destruct (batchRefreshStats_run env (default [] response)
                  (record asked (record started w)))
        as (result & w' & actions & -> & _ & Hj & Htimeouts & Hnow).
      cbv beta iota. cbn [fst snd now record].
      split; [reflexivity |]. split; [exact Hnow |].
      split; [| intros Hnil; rewrite Hnil in Hclips; discriminate Hclips].
      erewrite newActions_app
        by (cbn [journal record]; rewrite Hj; cbn [journal record];
            rewrite <- !app_assoc; reflexivity).
      rewrite !List.filter_app, !length_app, Htimeouts. simpl. lia.
  - cbn [fst snd]. split; [reflexivity |]. split; [by repeat split |].
    new_actions. reflexivity.
Qed.

(** The elements of an unvalidated array before its first [null]. *)
Fixpoint wellFormedPrefix (clips : list (option ClipRef)) : list ClipRef :=
  match clips with
  | Some clip :: rest => clip :: wellFormedPrefix rest
  | _ => []
  end.

Lemma wellFormedPrefix_length clips :
  length (wellFormedPrefix clips) <= length clips.
Proof.
  induction clips as [|[clip |] rest IH]; simpl; lia.
Qed.

Lemma wellFormedPrefix_map clips : wellFormedPrefix (map Some clips) = clips.
Proof. induction clips as [|clip rest IH]; simpl; congruence. Qed.

Lemma batchLoop_run env clips s0 f0 w :
  exists result w',
    batchLoop env clips s0 f0 w = (Resolved result, w')
    /\ successCount result + failCount result = s0 + f0 + length clips
    /\ now w' = (now w + 100 * N.of_nat (length clips))%N.
Proof.
  destruct (StatsCollectorClaims.batchLoop_paced env clips s0 f0 w)
    as (s & f & actions & w1 & Hrun & HP & _ & Hnow).
  destruct (StatsCollectorClaims.Paced_counts _ _ _ _ HP) as (Hsum & _ & _).
  eexists _, w1. split; [exact Hrun |]. cbn [successCount failCount].
  split; [lia | exact Hnow].
Qed.

(** On an unvalidated array the loop is the loop over the elements before
    the first [null]; at a [null] it throws, and otherwise it returns the
    counts. *)
Lemma uncheckedBatchLoop_run env clips :
  forall s0 f0 w,
    uncheckedBatchLoop env clips s0 f0 w
    = match batchLoop env (wellFormedPrefix clips) s0 f0 w with
      | (Resolved counted, w') =>
          if (length (wellFormedPrefix clips) =? length clips)%nat
          then (Resolved counted, w')
          else (Rejected NULL_CLIP_ERROR, w')
      | (Rejected error, w') => (Rejected error, w')
      end.
Proof.
  induction clips as [|[clip |] rest IH]; intros s0 f0 w; [reflexivity | |].
  - cbn [uncheckedBatchLoop wellFormedPrefix batchLoop length Nat.eqb].
    rewrite !bind_run.
    match goal with |- context [try_catch ?body ?handler w] =>
      destruct (try_catch body handler w) as [[counts | error] w1] end;
      [| reflexivity].
    rewrite !bind_run.
    destruct (sleep 100 w1) as [[[] | error] w2]; [| reflexivity].
    apply IH.
  - reflexivity.
Qed.

(** X23. [POST /stats/batch-refresh], whose array of clips is not
    validated beyond its length.  A request without staff access, without
    an array, with an empty one or with more than 500 elements is answered
    with an error and has no effect at all.  Any other request has the
    elements before the first [null] or [undefined] element refreshed as a
    batch, with 100 ms per clip: when there is no such element, the reply
    carries the counts, which add up to the number of clips; when there is
    one, the batch stops there and the request is answered with the
    [TypeError], after the refreshes of the clips before it.  The route
    never rejects and never takes more than 50 000 ms of timeouts. *)
Theorem batchRefreshRoute_bounds
    (env : Env) (requireStaff : Settled unit)
    (body_clips : option (list (option ClipRef))) (w : World) :
  let out := batchRefreshRoute env requireStaff body_clips w in
  (exists reply, out.1 = Resolved reply)
  /\ (now out.2 <= now w + 50000)%N
  /\ match requireStaff, body_clips with
     | Rejected error, _ => out = (Resolved (SendError error), w)
     | Resolved _, None => out = (Resolved (SendError "clips array is required"), w)
     | Resolved _, Some batch =>
         if (length batch =? 0)%nat
         then out = (Resolved (SendError "clips array is required"), w)
         else if (500 <? length batch)%nat
         then out = (Resolved (SendError "Maximum 500 clips per batch"), w)
         else
           let refreshed := wellFormedPrefix batch in
           exists counted w',
             batchLoop env refreshed 0 0 w = (Resolved counted, w')
             /\ successCount counted + failCount counted = length refreshed
             /\ now w' = (now w + 100 * N.of_nat (length refreshed))%N
             /\ out
                = if (length refreshed =? length batch)%nat
                  then (Resolved (Send counted),
                        record (Log LogInfo "Batch stats refresh completed" []) w')
                  else (Resolved (SendError NULL_CLIP_ERROR), w')
     end.
Proof.
  intros out. subst out. unfold batchRefreshRoute. expose.
  destruct requireStaff as [[] | e]; cbv beta iota;
    [| cbn [fst snd]; split; [by eexists | split; [lia | reflexivity]]].
  destruct body_clips as [batch |]; cbv beta iota;
    [| cbn [fst snd]; split; [by eexists | split; [lia | reflexivity]]].
  destruct (Nat.eqb_spec (length batch) 0) as [Hzero | Hsome]; cbv beta iota;
    [cbn [fst snd]; split; [by eexists | split; [lia | reflexivity]] |].
  destruct (Nat.ltb_spec 500 (length batch)) as [Hmany | Hfew]; cbv beta iota;
    [cbn [fst snd]; split; [by eexists | split; [lia | reflexivity]] |].
  unfold uncheckedBatchRefreshStats. expose.
  rewrite uncheckedBatchLoop_run.
  pose proof (wellFormedPrefix_length batch) as Hprefix.
  destruct (batchLoop_run env (wellFormedPrefix batch) 0 0 w)
    as (counted & w' & -> & Hsum & Hnow).
  cbv beta iota.
  destruct (length (wellFormedPrefix batch) =? length batch)%nat;
    cbv beta iota; cbn [fst snd now record];
    (split; [by eexists |]); (split; [lia |]);
    exists counted, w'; repeat split; try done; lia.
Qed.

(** X24. The stats routes never reject: whatever the clip service, the
    platforms, the cache and the broker do, [POST /stats/refresh/:clipId]
    and [GET /stats/:clipId] end with a reply or with an error handed to
    [sendError].  And the refresh route asks a platform only for an
    authenticated request with a clip id whose clip the clip service
    returned with a video id. *)
Theorem stats_routes_guards
    (env : Env) (clips : ClipLookup) (requireAuth : Settled unit)
    (clipId : string) (w : World) :
  let refreshed := refreshRoute env clips requireAuth clipId w in
  let served := statsRoute env clips clipId w in
  (exists reply, refreshed.1 = Resolved reply)
  /\ (exists reply, served.1 = Resolved reply)
  /\ (existsb isPlatformCall (newActions w refreshed.2) = true ->
      requireAuth = Resolved tt /\ clipId <> ""
      /\ exists c videoId,
           clips w clipId = Resolved (Some c)
           /\ clip_platformVideoId c = Some videoId /\ videoId <> "").
Proof.
  intros refreshed served. subst refreshed served.
  unfold refreshRoute, statsRoute, getClip. expose.
  set (asked := ClipServiceGet ("/clips/" +:+ clipId)).
  split; [| split].
  - destruct requireAuth as [[] | e]; cbv beta iota; [| by eexists].
    destruct (String.eqb clipId ""); cbv beta iota; [by eexists |].
    destruct (clips w clipId) as [clip | e]; cbv beta iota; [| by eexists].
    destruct (withVideoId clip) as [[c videoId] |]; cbv beta iota; [| by eexists].
    destruct (refreshClipStats env clipId (clip_platform c) videoId (record asked w))
      as [[stats | e] w2]; cbv beta iota; [| by eexists].
    destruct (runBotDetection_resolves env clipId w2) as [result Hresult].
    destruct (BotDetectionService.runBotDetection env clipId w2) as [[r | e] w3];
      cbn [fst] in Hresult; [| discriminate Hresult].
    by eexists.
  - destruct (String.eqb clipId ""); cbv beta iota; [by eexists |].
    destruct (clips w clipId) as [clip | e]; cbv beta iota; [| by eexists].
    destruct (withVideoId clip) as [[c videoId] |]; cbv beta iota; [| by eexists].
    destruct (getOrFetchStats env clipId (clip_platform c) videoId (record asked w))
      as [[stats | e] w2]; by eexists.
  - destruct requireAuth as [[] | e]; cbv beta iota;
      [| cbn [snd]; rewrite (newActions_app w w []) by (by rewrite app_nil_r);
         discriminate].
    destruct (String.eqb_spec clipId "") as [Hempty | Hid]; cbv beta iota;
      [cbn [snd]; rewrite (newActions_app w w []) by (by rewrite app_nil_r);
       discriminate |].
    destruct (clips w clipId) as [clip | e] eqn:Hclip; cbv beta iota;
      [| cbn [snd]; new_actions; discriminate].
    destruct (withVideoId clip) as [[c videoId] |] eqn:Hvideo; cbv beta iota;
      [| cbn [snd]; new_actions; discriminate].
    intros _. split; [reflexivity |]. split; [exact Hid |].
    unfold withVideoId in Hvideo.
    destruct clip as [c' |]; [| discriminate Hvideo].
    destruct (clip_platformVideoId c') as [v |] eqn:Hv; [| discriminate Hvideo].
    destruct (String.eqb_spec v "") as [? | Hne]; [discriminate Hvideo |].
    injection Hvideo as <- <-. by exists c', v.
Qed.

End CallerProperties.

(* ===================================================================== *)
(** * The ranking table after a run *)
(* ===================================================================== *)

Module RankingsProperties.

Import Runtime RuntimeFacts RankingsService RankingsFacts.
Import PlatformsProperties HandlerFacts.

(** What [prisma.weeklyClipRanking.upsert] leaves under the key of [row]:
    a row that was there keeps its [weekEnd] and [platform]. *)
Definition storedRow (old : option WeeklyClipRanking) (row : WeeklyClipRanking)
  : WeeklyClipRanking :=
  match old with
  | Some old =>
      {| wr_weekStart := wr_weekStart old; wr_weekEnd := wr_weekEnd old;
         wr_submissionId := wr_submissionId old;
         wr_platform := wr_platform old;
         wr_views := wr_views row; wr_likes := wr_likes row;
         wr_engagement := wr_engagement row; wr_rank := wr_rank row |}
  | None => row
  end.

(** The first [k] clips of [ranked] are in [table'], ranked from [i + 1]
    on, and every other key of [table'] is as in [table]. *)
Definition WrittenUpTo (start finish : N) (ranked : list ClipData) (i k : nat)
    (table table' : gmap (N * string) WeeklyClipRanking) : Prop :=
  (forall j clip,
      j < k -> ranked !! j = Some clip ->
      table' !! (start, cd_id clip)
      = Some (storedRow (table !! (start, cd_id clip))
                (rankingRow start finish clip (i + j + 1))))
  /\ (forall key,
        (forall j clip, j < k -> ranked !! j = Some clip ->
                        key <> (start, cd_id clip)) ->
        table' !! key = table !! key).

Lemma weeklyClipRanking_upsert_table env row w :
  let key := (wr_weekStart row, wr_submissionId row) in
  weeklyClipRanking_upsert env row w
  = if prismaUp env w
    then (Resolved tt,
          set_weeklyClipRanking
            (<[key := storedRow (weeklyClipRanking w !! key) row]>
               (weeklyClipRanking w))
            (record (WeeklyClipRankingUpsert row) w))
    else (Rejected "database error", record (WeeklyClipRankingUpsert row) w).
Proof.
  unfold weeklyClipRanking_upsert. destruct (prismaUp env w); reflexivity.
Qed.

Lemma upsertRankings_table env start finish ranked :
  forall i w,
    NoDup (map cd_id ranked) ->
    let out := upsertRankings env start finish ranked i w in
    exists k,
      k <= length ranked
      /\ (out.1 = Resolved tt -> k = length ranked)
      /\ (out.1 <> Resolved tt -> k < length ranked)
      /\ WrittenUpTo start finish ranked i k
           (weeklyClipRanking w) (weeklyClipRanking out.2)
      /\ redis out.2 = redis w /\ campaignCache out.2 = campaignCache w
      /\ outbox out.2 = outbox w /\ now out.2 = now w.
Proof.
  induction ranked as [|clip rest IH]; intros i w Hnodup out; subst out.
  - exists 0. cbn [upsertRankings length]. expose. cbn [fst snd].
    repeat split; try done; try lia.
  - cbn [upsertRankings]. rewrite bind_run, weeklyClipRanking_upsert_table.
    cbv zeta. cbn [rankingRow wr_weekStart wr_submissionId].
    fold (rankingRow start finish clip (i + 1)).
    apply NoDup_cons in Hnodup as [Hfresh Hnodup]. fold (map cd_id rest) in *.
    destruct (prismaUp env w) eqn:Hup; cbv beta iota.
    + set (key0 := (start, cd_id clip)).
      set (row0 := rankingRow start finish clip (i + 1)).
      set (w1 := set_weeklyClipRanking _ _).
      destruct (IH (i + 1) w1 Hnodup)
        as (k & Hk & Hdone & Hfail & [Hin Hout] & Hr & Hc & Ho & Hn).
      subst w1.
      cbn [weeklyClipRanking set_weeklyClipRanking record redis campaignCache
           outbox now] in Hin, Hout, Hr, Hc, Ho, Hn.
      exists (S k). cbn [length].
      split; [lia |]. split; [intros H; specialize (Hdone H); lia |].
      split; [intros H; specialize (Hfail H); lia |].
      split; [| by repeat split].
      split.
      * intros [|j] c Hj Hc'.
        -- injection Hc' as <-. rewrite Nat.add_0_r.
           rewrite Hout.
           ++ apply lookup_insert_eq.
           ++ intros j' c' Hj' Hc'' [= Hid]. apply Hfresh.
              rewrite Hid. apply list_elem_of_fmap. exists c'. split; [done |].
              by eapply list_elem_of_lookup_2.
        -- cbn in Hc'. rewrite (Hin j c) by (done || lia).
           f_equal. f_equal.
           ++ apply lookup_insert_ne. intros [= Hid]. apply Hfresh.
              rewrite Hid. apply list_elem_of_fmap. exists c. split; [done |].
              by eapply list_elem_of_lookup_2.
           ++ f_equal. lia.
      * intros key Hkey. rewrite Hout.
        -- apply lookup_insert_ne. intros <-. apply (Hkey 0 clip); [lia | reflexivity | reflexivity].
        -- intros j c Hj Hc'. apply (Hkey (S j) c); [lia | done].
    + exists 0. cbn [fst snd length]. split; [lia |].
      split; [discriminate |]. split; [intros _; lia |].
      split; [| by repeat split].
      split; [intros j c Hj; lia | reflexivity].
Qed.

(** X25. The table after a ranking run over clips with distinct ids.
    After a run that resolves, every clip of the answer has its row under
    [(weekStart, id)] with the rank of its position in the sorted list
    (a row that was there before keeps its [weekEnd] and [platform]), and
    every other row of the table, those of clips that are no longer in the
    answer included, is as it was: the run deletes nothing. *)
Theorem calculateWeeklyClipRankings_table
    (env : Env) (weekStart : option N) (w : World)
    (response : option (list ClipData)) :
  let start := default (startOfWeek env (now w)) weekStart in
  let finish := endOfWeek env start in
  let w1 := record (Log LogInfo "Calculating weekly clip rankings" []) w in
  let clips := default [] response in
  let ranked := Array_sort compareClips clips in
  let out := calculateWeeklyClipRankings env weekStart w in
  clipsApprovedForRankings env w1 start finish = Resolved response ->
  NoDup (map cd_id clips) ->
  out.1 = Resolved tt ->
  (forall j clip,
      ranked !! j = Some clip ->
      weeklyClipRanking out.2 !! (start, cd_id clip)
      = Some (storedRow (weeklyClipRanking w !! (start, cd_id clip))
                (rankingRow start finish clip (j + 1))))
  /\ (forall key,
        (forall clip, In clip clips -> key <> (start, cd_id clip)) ->
        weeklyClipRanking out.2 !! key = weeklyClipRanking w !! key).
Proof.
  intros start finish w1 clips ranked out Hresponse Hnodup Hresolved.
  set (w2 := record (ClipServiceGet "/clips/approved-for-rankings") w1).
  pose proof (calculateWeeklyClipRankings_unfold env weekStart w) as Hout.
  cbv zeta in Hout. fold start finish w1 w2 out in Hout.
  rewrite Hresponse in Hout. fold clips in Hout. fold ranked in Hout.
  assert (Hperm : Permutation ranked clips) by apply Array_sort_Permutation.
  assert (Hnodup' : NoDup (map cd_id ranked)).
  { apply (proj2 (NoDup_Permutation_proper _ _ (Permutation_map cd_id Hperm))).
    exact Hnodup. }
  destruct (length clips =? 0)%nat eqn:Hlen.
  - apply Nat.eqb_eq in Hlen.
    assert (Hnil : ranked = []).
    { apply length_zero_iff_nil. by rewrite (Permutation_length Hperm). }
    rewrite Hout. cbn [snd weeklyClipRanking record]. rewrite Hnil.
    split; [intros j clip Hj; by rewrite lookup_nil in Hj | reflexivity].
  - destruct (upsertRankings_table env start finish ranked 0 w2 Hnodup')
      as (k & Hk & Hdone & _ & [Hin Hother] & _).
    destruct (upsertRankings env start finish ranked 0 w2) as [[[] | e] w3];
      cbn [fst snd] in *; [| rewrite Hout in Hresolved; discriminate Hresolved].
    specialize (Hdone eq_refl). subst k.
    rewrite Hout. cbn [snd weeklyClipRanking record].
    split.
    + intros j clip Hj. apply (Hin j clip); [| exact Hj].
      by eapply lookup_lt_Some.
    + intros key Hkey. apply Hother. intros j clip _ Hj.
      apply Hkey. apply (Permutation_in _ Hperm).
      apply list_elem_of_In. by eapply list_elem_of_lookup_2.
Qed.

Lemma calculateWeeklyClipRankings_table_witness :
  let out := calculateWeeklyClipRankings Scenarios.rankingEnv None
               Scenarios.emptyWorld in
  let ranked := Array_sort compareClips Scenarios.approvedClips in
  (forall j clip,
      ranked !! j = Some clip ->
      weeklyClipRanking out.2 !! (0%N, cd_id clip)
      = Some (storedRow (weeklyClipRanking Scenarios.emptyWorld !! (0%N, cd_id clip))
                (rankingRow 0 604799999 clip (j + 1))))
  /\ (forall key,
        (forall clip, In clip Scenarios.approvedClips -> key <> (0%N, cd_id clip)) ->
        weeklyClipRanking out.2 !! key
        = weeklyClipRanking Scenarios.emptyWorld !! key).
Proof.
  apply (calculateWeeklyClipRankings_table Scenarios.rankingEnv None
           Scenarios.emptyWorld (Some Scenarios.approvedClips)).
  - reflexivity.
  - apply NoDup_ListNoDup. repeat constructor; simpl; intuition discriminate.
  - reflexivity.
Defined.

(** X26. A ranking run that fails.  The run rejects with the error it
    logged last.  When the clip service failed, nothing was written.
    When a write failed, the rows written before it stay written: for
    some [k] smaller than the number of clips, the first [k] clips of the
    sorted list have their new rows and every other row is as it was;
    nothing is rolled back. *)
Theorem calculateWeeklyClipRankings_failure
    (env : Env) (weekStart : option N) (w : World) (error : JsError) :
  let start := default (startOfWeek env (now w)) weekStart in
  let finish := endOfWeek env start in
  let w1 := record (Log LogInfo "Calculating weekly clip rankings" []) w in
  let out := calculateWeeklyClipRankings env weekStart w in
  out.1 = Rejected error ->
  last (journal out.2)
  = Some (Log LogError "Error calculating weekly clip rankings" [error])
  /\ match clipsApprovedForRankings env w1 start finish with
     | Rejected e => e = error /\ Untouched w out.2
     | Resolved response =>
         let clips := default [] response in
         NoDup (map cd_id clips) ->
         exists k,
           k < length clips
           /\ WrittenUpTo start finish (Array_sort compareClips clips) 0 k
                (weeklyClipRanking w) (weeklyClipRanking out.2)
     end.
Proof.
  intros start finish w1 out Hrejected.
  set (w2 := record (ClipServiceGet "/clips/approved-for-rankings") w1).
  pose proof (calculateWeeklyClipRankings_unfold env weekStart w) as Hout.
  cbv zeta in Hout. fold start finish w1 w2 out in Hout.
  destruct (clipsApprovedForRankings env w1 start finish) as [response | e].
  - set (clips := default [] response) in *.
    set (ranked := Array_sort compareClips clips) in *.
    assert (Hperm : Permutation ranked clips) by apply Array_sort_Permutation.
    destruct (length clips =? 0)%nat;
      [rewrite Hout in Hrejected; discriminate Hrejected |].
    assert (Hlast : last (journal out.2)
              = Some (Log LogError "Error calculating weekly clip rankings" [error])).
    { destruct (upsertRankings env start finish ranked 0 w2) as [[[] | e] w3];
        rewrite Hout in Hrejected |- *; [discriminate Hrejected |].
      injection Hrejected as ->. cbn [snd journal record]. apply last_snoc. }
    split; [exact Hlast |].
    intros clips' Hnodup. subst clips'. fold clips in Hnodup |- *.
    assert (Hnodup' : NoDup (map cd_id ranked)).
    { apply (proj2 (NoDup_Permutation_proper _ _ (Permutation_map cd_id Hperm))).
      exact Hnodup. }
    destruct (upsertRankings_table env start finish ranked 0 w2 Hnodup')
      as (k & Hk & Hdone & Hfail & Hwritten & _).
    destruct (upsertRankings env start finish ranked 0 w2) as [[[] | e] w3];
      cbn [fst snd] in *; rewrite Hout in Hrejected |- *;
      [discriminate Hrejected |].
    cbn [snd weeklyClipRanking record].
    exists k. split; [| exact Hwritten].
    rewrite <- (Permutation_length Hperm). apply Hfail. discriminate.
  - rewrite Hout in Hrejected |- *. injection Hrejected as ->.
    cbn [snd journal record]. split; [apply last_snoc |].
    split; [reflexivity | by repeat split].
Qed.

Lemma calculateWeeklyClipRankings_failure_witness :
  let out := calculateWeeklyClipRankings Scenarios.failingDatabaseEnv None
               Scenarios.emptyWorld in
  last (journal out.2)
  = Some (Log LogError "Error calculating weekly clip rankings" ["database error"])
  /\ (NoDup (map cd_id Scenarios.approvedClips) ->
      exists k,
        k < length Scenarios.approvedClips
        /\ WrittenUpTo 0 604799999
             (Array_sort compareClips Scenarios.approvedClips) 0 k
             (weeklyClipRanking Scenarios.emptyWorld) (weeklyClipRanking out.2)).
Proof.
  apply (calculateWeeklyClipRankings_failure Scenarios.failingDatabaseEnv None
           Scenarios.emptyWorld "database error").
  reflexivity.
Defined.

(** X27. The comparator of the ranking sort is consistent: swapping its
    arguments flips its sign, and "not after" is transitive, so the order
    of the sorted list does not depend on the order in which the sort
    compares. *)
Theorem compareClips_consistent (a b c : ClipData) :
  (compareClips a b == - compareClips b a)%Q
  /\ ((compareClips a b <= 0)%Q -> (compareClips b c <= 0)%Q ->
      (compareClips a c <= 0)%Q).
Proof.
  split.
  - unfold compareClips.
    destruct (Z.eqb_spec (cd_views b) (cd_views a)) as [Heq | Hne];
      destruct (Z.eqb_spec (cd_views a) (cd_views b)) as [Heq' | Hne'];
      try congruence; cbn [negb].
    + ring.
    + rewrite <- inject_Z_opp. apply inject_Z_injective. lia.
  - rewrite !compareClips_nonpositive. apply lexGe_trans.
Qed.

(** X28. The sort is stable on an answer that is already in order: when
    no clip of the answer has to come after a later one (ties included),
    the sorted list is the answer itself, so clips with equal views and
    engagement are ranked in the order in which the clip service sent
    them. *)
Theorem Array_sort_keeps_order (clips : list ClipData) :
  StronglySorted lexGe clips ->
  Array_sort compareClips clips = clips.
Proof.
  induction 1 as [|clip rest Hsorted IH Hall]; [reflexivity |].
  cbn [Array_sort foldr]. fold (Array_sort compareClips rest). rewrite IH.
  destruct rest as [|next rest]; [reflexivity |].
  cbn [insertSorted].
  apply Forall_cons_1 in Hall as [Hnext _].
  apply compareClips_nonpositive, Qle_bool_iff in Hnext.
  unfold comesAfter. by rewrite Hnext.
Qed.

Lemma Array_sort_keeps_order_witness :
  Array_sort compareClips
    [Scenarios.clip "first" 100 (1 # 10); Scenarios.clip "second" 100 (1 # 10);
     Scenarios.clip "third" 50 (9 # 10)]
  = [Scenarios.clip "first" 100 (1 # 10); Scenarios.clip "second" 100 (1 # 10);
     Scenarios.clip "third" 50 (9 # 10)].
Proof.
  apply Array_sort_keeps_order.
  repeat first [ apply SSorted_nil | apply SSorted_cons
               | apply Forall_nil_2 | apply Forall_cons_2 ];
    unfold lexGe; simpl; first [left; lia | right; split; [lia | lra]].
Defined.

End RankingsProperties.

(* ===================================================================== *)
(** * What [runBotDetection] leaves behind *)
(* ===================================================================== *)

Module BotDetectionServiceProperties.

Import Runtime RuntimeFacts BotDetection BotDetectionFacts BotDetectionService.
Import StoreFacts PlatformsProperties HandlerFacts.

(** X29. [runBotDetection] fails open and only ever publishes.  When the
    clip service fails, or answers without a history, the call resolves
    with "no anomalies" and publishes nothing.  In every case Redis, the
    campaign cache, the ranking table and the clock are as they were, the
    publisher is handed at most one event, and the outbox grows by at most
    one [stats.bot_detected] event, which is about the clip asked for. *)
Theorem runBotDetection_fails_open
    (env : Env) (clipId : string) (w : World) :
  let out := runBotDetection env clipId w in
  OnlyPublishing w out.2
  /\ (outbox out.2 = outbox w
      \/ exists payload,
           outbox out.2 = outbox w ++ [BotDetected payload "statistics-service"]
           /\ bd_clipId payload = clipId)
  /\ length (List.filter isPublish (newActions w out.2)) <= 1
  /\ match clipStatsHistory env w clipId with
     | Rejected _ => out.1 = Resolved noAnomalies /\ outbox out.2 = outbox w
     | Resolved response =>
         r_history response = None ->
         out.1 = Resolved noAnomalies /\ outbox out.2 = outbox w
     end.
Proof.
  intros out. subst out. unfold runBotDetection, call. expose.
  set (asked := ClipServiceGet ("/clips/" +:+ clipId +:+ "/stats-history")).
  destruct (clipStatsHistory env w clipId) as [response | error]; cbv beta iota.
  - assert (Hnone : r_history response = None ->
              detectAnomalies (getHours env) (default [] (r_history response))
                (CacheService.orString (r_platform response) "YOUTUBE")
              = Js.Returned noAnomalies).
    { intros Hnone. by rewrite Hnone. }
    destruct (detectAnomalies (getHours env) (default [] (r_history response))
                (CacheService.orString (r_platform response) "YOUTUBE"))
      as [result | thrown]; cbv beta iota.
    + destruct (hasAnomalies result) eqn:Hanomalies; cbv beta iota.
      * destruct (List.filter significant (flags result)) as [|first rest];
          cbv beta iota.
        -- cbn [fst snd]. split; [by repeat split |]. split; [by left |].
           split; [new_actions; simpl; lia |].
           intros Hmissing. specialize (Hnone Hmissing). injection Hnone as ->.
           discriminate Hanomalies.
        -- unfold publish.
           destruct (publisherUp env (record asked w)); cbv beta iota;
             cbn [fst snd outbox set_outbox record].
           ++ split; [by repeat split |].
              split; [right; eexists; split; reflexivity |].
              split; [new_actions; simpl; lia |].
              intros Hmissing. specialize (Hnone Hmissing). injection Hnone as ->.
              discriminate Hanomalies.
           ++ split; [by repeat split |]. split; [by left |].
              split; [new_actions; simpl; lia |].
              intros Hmissing. specialize (Hnone Hmissing). injection Hnone as ->.
              discriminate Hanomalies.
      * cbn [fst snd]. split; [by repeat split |]. split; [by left |].
        split; [new_actions; simpl; lia |].
        intros Hmissing. specialize (Hnone Hmissing). by injection Hnone as ->.
    + cbn [fst snd]. split; [by repeat split |]. split; [by left |].
      split; [new_actions; simpl; lia |].
      intros Hmissing. specialize (Hnone Hmissing). discriminate Hnone.
  - cbn [fst snd]. split; [by repeat split |]. split; [by left |].
    split; [new_actions; simpl; lia |]. by split.
Qed.

End BotDetectionServiceProperties.
